(** * Workspace readiness, launch-configuration synthesis, device registry
      and debug-session resolution of the Wendy (formerly Edge) VS Code
      extension, as a shallow embedding.

    The TypeScript sources are embedded function by function.  Asynchronous
    methods are written as state-passing functions; where a claim depends on
    the interleaving at an [await], the method is cut at its suspension points
    into an explicit continuation (see [Devices.Task]).  Objects of the host
    (VS Code configuration store, timers, the Swift extension's folder
    contexts, prompts) appear as explicit state or as inputs. *)

From Stdlib Require Import Ascii String DecimalString ZArith Lia.
From stdpp Require Import gmap strings list fin_maps.

Open Scope string_scope.
Open Scope list_scope.

(* ===================================================================== *)
(** ** JavaScript string and number primitives used by the sources        *)
(* ===================================================================== *)

Module JS.

(** [Number.prototype.toString()] and template interpolation of an
    integer-valued number: its decimal digits, with a leading minus. *)
Definition Number_toString (n : Z) : string :=
  NilZero.string_of_int (Z.to_int n).

(** [String.prototype.toString()] returns the string itself. *)
Definition String_toString (s : string) : string := s.

(** [s.includes(c)] for a one-character needle. *)
Fixpoint includes (c : ascii) (s : string) : bool :=
  match s with
  | EmptyString => false
  | String a rest => if Ascii.eqb a c then true else includes c rest
  end.

(** [s.split(c)] for a one-character separator: every occurrence cuts. *)
Fixpoint split (c : ascii) (s : string) : list string :=
  match s with
  | EmptyString => [EmptyString]
  | String a rest =>
      if Ascii.eqb a c then EmptyString :: split c rest
      else match split c rest with
           | piece :: pieces => String a piece :: pieces
           | [] => [String a EmptyString]
           end
  end.

(** Interpolation [`${x}`] of a possibly undefined string. *)
Definition interpolate (x : option string) : string :=
  match x with
  | Some s => s
  | None => "undefined"
  end.

(** Truthiness of a possibly undefined string: [undefined] and [""] are
    falsy. *)
Definition truthy (x : option string) : bool :=
  match x with
  | Some s => negb (String.eqb s "")
  | None => false
  end.

(** ECMAScript white space and line terminators that fit in one byte. *)
Definition isWhiteSpace (a : ascii) : bool :=
  let n := nat_of_ascii a in
  (n =? 9)%nat || (n =? 10)%nat || (n =? 11)%nat || (n =? 12)%nat
  || (n =? 13)%nat || (n =? 32)%nat.

(** [s.trim() === ""]: every character of [s] is white space. *)
Fixpoint trimIsEmpty (s : string) : bool :=
  match s with
  | EmptyString => true
  | String a rest => isWhiteSpace a && trimIsEmpty rest
  end.

(** [s.startsWith("~")]. *)
Definition startsWithTilde (s : string) : bool :=
  match s with
  | String a _ => Ascii.eqb a "~"%char
  | EmptyString => false
  end.

(** [s.slice(1)]. *)
Definition slice1 (s : string) : string :=
  match s with
  | String _ rest => rest
  | EmptyString => EmptyString
  end.

(** What an asynchronous function hands back: a value, or a rejection. *)
Inductive Completion (A : Type) : Type :=
| Resolved (a : A)
| Rejected (message : string).
Arguments Resolved {A} a.
Arguments Rejected {A} message.

End JS.

(* ===================================================================== *)
(** ** The Swift extension's objects, as far as the sources read them     *)
(* ===================================================================== *)

Module Swift.

Record Product := { name : string }.

(** A [Swift.FolderContext].  [objectId] stands for JavaScript object
    identity ([f.swift === folder]); [fsPath] is [folder.fsPath];
    [executableProducts] is what [swiftPackage.executableProducts]
    resolves to. *)
Record FolderContext := {
  objectId : nat;
  fsPath : string;
  executableProducts : list Product
}.

Definition same (a b : FolderContext) : bool :=
  (objectId a =? objectId b)%nat.

End Swift.

(* ===================================================================== *)
(** ** debugger/launch.ts: synthesis of launch configurations             *)
(* ===================================================================== *)

Module Launch.

(** An entry of a folder's [launch.configurations]: the three attributes
    every [vscode.DebugConfiguration] has, the three further ones the
    synthesizer writes, and whatever else a foreign entry carries. *)
Record DebugConfiguration := {
  type : string;
  name : string;
  request : string;
  target : option string;
  cwd : option string;
  preLaunchTask : option string;
  others : list (string * string)
}.

(** The configuration store: per folder path, the value that
    [getConfiguration("launch", folder).get("configurations")] yields;
    a folder without the setting has no entry. *)
Definition LaunchStore : Type := gmap string (list DebugConfiguration).

(** What one run of the synthesizer did. *)
Record Outcome := {
  result : bool;
  store : LaunchStore;
  updates : list (string * list DebugConfiguration);
  console : list string
}.

(** [wsLaunchSection.get<any[]>("configurations") || []]. *)
Definition getConfigurations (st : LaunchStore) (folder : string)
  : list DebugConfiguration :=
  default [] ((st : gmap string (list DebugConfiguration)) !! folder).

(** [wsLaunchSection.update("configurations", v, WorkspaceFolder)]. *)
Definition updateConfigurations (st : LaunchStore) (folder : string)
    (v : list DebugConfiguration) : LaunchStore :=
  <[folder := v]> (st : gmap string (list DebugConfiguration)).

Definition lengthString {A} (l : list A) : string :=
  JS.Number_toString (Z.of_nat (length l)).

Section Synthesizer.

(** [EDGE_LAUNCH_CONFIG_TYPE] is imported from
    EdgeDebugConfigurationProvider and [getFolderAndNameSuffix] from
    buildConfig; neither file is among the sources, so both are taken
    as given.  Of the latter only the [folder] component is used. *)
Variable EDGE_LAUNCH_CONFIG_TYPE : string.
Variable getFolderAndNameSuffix : Swift.FolderContext -> string * string.

Definition isEdgeConfiguration (config : DebugConfiguration) : bool :=
  String.eqb (type config) EDGE_LAUNCH_CONFIG_TYPE.

Definition productConfiguration (folder : string) (product : Swift.Product)
  : DebugConfiguration :=
  {| type := EDGE_LAUNCH_CONFIG_TYPE;
     name := "Debug " +:+ Swift.name product +:+ " on EdgeOS";
     request := "attach";
     target := Some (Swift.name product);
     cwd := Some folder;
     preLaunchTask := Some ("edge: Run " +:+ Swift.name product);
     others := [] |}.

Definition createExecutableConfigurations (context : Swift.FolderContext)
  : list DebugConfiguration * list string :=
  let executableProducts := Swift.executableProducts context in
  let log :=
    [ "[Edge] Generating debug configurations for folder: "
        +:+ Swift.fsPath context;
      "[Edge] Found " +:+ lengthString executableProducts
        +:+ " executable products" ] in
  if (length executableProducts =? 0)%nat then ([], log)
  else
    let folder := fst (getFolderAndNameSuffix context) in
    (map (productConfiguration folder) executableProducts,
     log ++ ["[Edge] Using folder path: " +:+ folder]
         ++ map (fun product =>
                   "[Edge] Creating configuration for product: "
                     +:+ Swift.name product) executableProducts).

Definition makeDebugConfigurations (context : Swift.FolderContext)
    (st : LaunchStore) : Outcome :=
  let folder := Swift.fsPath context in
  let configurations := getConfigurations st folder in
  let log :=
    [ "[Edge] Checking for debug configurations in folder: " +:+ folder;
      "[Edge] Found " +:+ lengthString configurations
        +:+ " existing configurations" ] in
  let hasEdgeConfigurations := existsb isEdgeConfiguration configurations in
  if hasEdgeConfigurations then
    {| result := false; store := st; updates := [];
       console :=
         log ++ ["[Edge] Edge configurations already exist, skipping"] |}
  else
    let '(edgeConfigurations, created) :=
      createExecutableConfigurations context in
    let log :=
      log ++ created
          ++ ["[Edge] Generated " +:+ lengthString edgeConfigurations
                +:+ " new Edge configurations"] in
    if (length edgeConfigurations =? 0)%nat then
      {| result := false; store := st; updates := [];
         console :=
           log ++ ["[Edge] No executable products found, skipping"] |}
    else
      let newConfigurations := edgeConfigurations ++ configurations in
      {| result := true;
         store := updateConfigurations st folder newConfigurations;
         updates := [(folder, newConfigurations)];
         console :=
           log ++ [ "[Edge] Updating launch.json with "
                      +:+ lengthString edgeConfigurations
                      +:+ " Edge configurations";
                    "[Edge] Successfully updated launch.json" ] |}.

(** [hasAnyEdgeDebugConfiguration], over [workspace.workspaceFolders]
    given by their paths ([None] when the host has no folder list). *)
Definition hasAnyEdgeDebugConfiguration
    (workspaceFolders : option (list string)) (st : LaunchStore) : bool :=
  match workspaceFolders with
  | None => false
  | Some folders =>
      existsb (fun folder =>
                 existsb isEdgeConfiguration (getConfigurations st folder))
              folders
  end.

End Synthesizer.

End Launch.

(** The later revision of debugger/launch.ts: the context is a
    [WendyFolderContext], which may lack a Swift context, in which case one
    descriptor for a Python application is created. *)
Module WendyLaunch.

Import Launch.

Definition WENDY_LAUNCH_CONFIG_TYPE : string := "wendy".

(** [folder_fsPath] is [folder.fsPath], [folder_toString] is
    [folder.toString()]. *)
Record WendyFolderContext := {
  swift : option Swift.FolderContext;
  folder_fsPath : string;
  folder_toString : string
}.

Definition isWendyConfiguration (config : DebugConfiguration) : bool :=
  String.eqb (type config) WENDY_LAUNCH_CONFIG_TYPE.

Section Synthesizer.

(** [getFolderAndNameSuffix] comes from buildConfig, which is not among the
    sources. *)
Variable getFolderAndNameSuffix : Swift.FolderContext -> string * string.

Definition productConfiguration (folder : string) (product : Swift.Product)
  : DebugConfiguration :=
  {| type := WENDY_LAUNCH_CONFIG_TYPE;
     name := "Debug " +:+ Swift.name product +:+ " on WendyOS";
     request := "attach";
     target := Some (Swift.name product);
     cwd := Some folder;
     preLaunchTask := Some ("wendy: Run " +:+ Swift.name product);
     others := [] |}.

Definition createExecutableConfigurations (context : WendyFolderContext)
  : list DebugConfiguration :=
  match swift context with
  | None =>
      [ {| type := WENDY_LAUNCH_CONFIG_TYPE;
           name := "Debug Python App on WendyOS";
           request := "attach";
           target := Some (folder_toString context);
           cwd := Some (folder_fsPath context);
           preLaunchTask := Some "wendy: Run Python App";
           others := [] |} ]
  | Some package =>
      let executableProducts := Swift.executableProducts package in
      if (length executableProducts =? 0)%nat then []
      else
        let folder := fst (getFolderAndNameSuffix package) in
        map (productConfiguration folder) executableProducts
  end.

(** The console lines are those of the earlier revision with another
    prefix; only the two that tell the exits apart are kept here. *)
Definition makeDebugConfigurations (context : WendyFolderContext)
    (st : LaunchStore) : Outcome :=
  let configurations := getConfigurations st (folder_fsPath context) in
  let hasWendyConfigurations := existsb isWendyConfiguration configurations in
  if hasWendyConfigurations then
    {| result := false; store := st; updates := [];
       console := ["[Wendy] Wendy configurations already exist, skipping"] |}
  else
    let wendyConfigurations := createExecutableConfigurations context in
    if (length wendyConfigurations =? 0)%nat then
      {| result := false; store := st; updates := [];
         console := ["[Wendy] No executable products found, skipping"] |}
    else
      let newConfigurations := wendyConfigurations ++ configurations in
      {| result := true;
         store := updateConfigurations st (folder_fsPath context)
                    newConfigurations;
         updates := [(folder_fsPath context, newConfigurations)];
         console := ["[Wendy] Successfully updated launch.json"] |}.

End Synthesizer.

End WendyLaunch.

(* ===================================================================== *)
(** ** EdgeWorkspaceContext: folder events and the readiness barrier       *)
(* ===================================================================== *)

Module Workspace.

Inductive FolderOperation :=
| add | remove | focus | unfocus | packageUpdated | resolvedUpdated
| workspaceStateUpdated | packageViewUpdated | pluginsUpdated.

(** A [Swift.FolderEvent]; its [workspace] component is never read. *)
Record FolderEvent := {
  operation : FolderOperation;
  folder : option Swift.FolderContext
}.

(** [new EdgeFolderContext(folder, this)]. *)
Record EdgeFolderContext := { swift : Swift.FolderContext }.

(** A [vscode.WorkspaceFolder]. *)
Record WorkspaceFolder := { name : string; uri_fsPath : string }.

(** What the context does to the outside, in the order it does it. *)
Inductive Effect :=
| FoldersReadyFired
| TimeoutCleared
| GenerationStarted
| GenerationSkipped
| DidChangePackage (f : EdgeFolderContext)
| FolderDisposed (f : EdgeFolderContext)
| RefreshPrompt
| OutputLine (line : string).

(** The fields of the class.  [timerPending] is the host's side of
    [setTimeout]: whether the fallback callback is still scheduled;
    [effects] is the trace of what was done, latest last. *)
Record EdgeWorkspaceContext := {
  folders : list EdgeFolderContext;
  hasEdgeFolder : bool;
  _initialFoldersReady : bool;
  _initialFolderSetupTimeout : option unit;
  _initialFolderPaths : gset string;
  _processedFolderPaths : gset string;
  _generatedConfigurations : bool;
  timerPending : bool;
  effects : list Effect
}.

Definition emit (e : Effect) (w : EdgeWorkspaceContext) :=
  {| folders := folders w; hasEdgeFolder := hasEdgeFolder w;
     _initialFoldersReady := _initialFoldersReady w;
     _initialFolderSetupTimeout := _initialFolderSetupTimeout w;
     _initialFolderPaths := _initialFolderPaths w;
     _processedFolderPaths := _processedFolderPaths w;
     _generatedConfigurations := _generatedConfigurations w;
     timerPending := timerPending w;
     effects := effects w ++ [e] |}.

Definition set_folders (l : list EdgeFolderContext) (w : EdgeWorkspaceContext) :=
  {| folders := l; hasEdgeFolder := hasEdgeFolder w;
     _initialFoldersReady := _initialFoldersReady w;
     _initialFolderSetupTimeout := _initialFolderSetupTimeout w;
     _initialFolderPaths := _initialFolderPaths w;
     _processedFolderPaths := _processedFolderPaths w;
     _generatedConfigurations := _generatedConfigurations w;
     timerPending := timerPending w;
     effects := effects w |}.

Definition set_hasEdgeFolder (b : bool) (w : EdgeWorkspaceContext) :=
  {| folders := folders w; hasEdgeFolder := b;
     _initialFoldersReady := _initialFoldersReady w;
     _initialFolderSetupTimeout := _initialFolderSetupTimeout w;
     _initialFolderPaths := _initialFolderPaths w;
     _processedFolderPaths := _processedFolderPaths w;
     _generatedConfigurations := _generatedConfigurations w;
     timerPending := timerPending w;
     effects := effects w |}.

Definition set_initialFoldersReady (b : bool) (w : EdgeWorkspaceContext) :=
  {| folders := folders w; hasEdgeFolder := hasEdgeFolder w;
     _initialFoldersReady := b;
     _initialFolderSetupTimeout := _initialFolderSetupTimeout w;
     _initialFolderPaths := _initialFolderPaths w;
     _processedFolderPaths := _processedFolderPaths w;
     _generatedConfigurations := _generatedConfigurations w;
     timerPending := timerPending w;
     effects := effects w |}.

(** [clearTimeout(h); this._initialFolderSetupTimeout = null]. *)
Definition clearTimeout (w : EdgeWorkspaceContext) :=
  {| folders := folders w; hasEdgeFolder := hasEdgeFolder w;
     _initialFoldersReady := _initialFoldersReady w;
     _initialFolderSetupTimeout := None;
     _initialFolderPaths := _initialFolderPaths w;
     _processedFolderPaths := _processedFolderPaths w;
     _generatedConfigurations := _generatedConfigurations w;
     timerPending := false;
     effects := effects w ++ [TimeoutCleared] |}.

(** The host takes the callback off its schedule when it runs it. *)
Definition timerRan (w : EdgeWorkspaceContext) :=
  {| folders := folders w; hasEdgeFolder := hasEdgeFolder w;
     _initialFoldersReady := _initialFoldersReady w;
     _initialFolderSetupTimeout := _initialFolderSetupTimeout w;
     _initialFolderPaths := _initialFolderPaths w;
     _processedFolderPaths := _processedFolderPaths w;
     _generatedConfigurations := _generatedConfigurations w;
     timerPending := false;
     effects := effects w |}.

Definition set_processedFolderPaths (s : gset string) (w : EdgeWorkspaceContext) :=
  {| folders := folders w; hasEdgeFolder := hasEdgeFolder w;
     _initialFoldersReady := _initialFoldersReady w;
     _initialFolderSetupTimeout := _initialFolderSetupTimeout w;
     _initialFolderPaths := _initialFolderPaths w;
     _processedFolderPaths := s;
     _generatedConfigurations := _generatedConfigurations w;
     timerPending := timerPending w;
     effects := effects w |}.

Definition set_generatedConfigurations (b : bool) (w : EdgeWorkspaceContext) :=
  {| folders := folders w; hasEdgeFolder := hasEdgeFolder w;
     _initialFoldersReady := _initialFoldersReady w;
     _initialFolderSetupTimeout := _initialFolderSetupTimeout w;
     _initialFolderPaths := _initialFolderPaths w;
     _processedFolderPaths := _processedFolderPaths w;
     _generatedConfigurations := b;
     timerPending := timerPending w;
     effects := effects w |}.

(** The constructor: snapshot of the host's folder list, subscription to
    the Swift extension's folder events, the five-second fallback timer,
    and the subscription of [generateLaunchConfigurations] to the
    context's own folders-ready event. *)
Definition construct (workspaceFolders : option (list WorkspaceFolder))
  : EdgeWorkspaceContext :=
  {| folders := []; hasEdgeFolder := false;
     _initialFoldersReady := false;
     _initialFolderSetupTimeout := Some ();
     _initialFolderPaths :=
       match workspaceFolders with
       | Some l => list_to_set (map uri_fsPath l)
       | None => ∅
       end;
     _processedFolderPaths := ∅;
     _generatedConfigurations := false;
     timerPending := true;
     effects := [] |}.

(** [generateLaunchConfigurations], up to its first [await]: the one-shot
    guard.  The rest of the pass is [generationPass] below. *)
Definition generateLaunchConfigurations (w : EdgeWorkspaceContext) :=
  if _generatedConfigurations w then emit GenerationSkipped w
  else emit GenerationStarted (set_generatedConfigurations true w).

(** [this._onFoldersReady.fire()]: the listener registered by the
    constructor runs at once. *)
Definition fireFoldersReady (w : EdgeWorkspaceContext) :=
  generateLaunchConfigurations (emit FoldersReadyFired w).

Definition markFoldersReady (w : EdgeWorkspaceContext) :=
  if negb (_initialFoldersReady w) then
    let w := fireFoldersReady (set_initialFoldersReady true w) in
    match _initialFolderSetupTimeout w with
    | Some _ => clearTimeout w
    | None => w
    end
  else w.

Definition checkAllFoldersProcessed (w : EdgeWorkspaceContext) :=
  if (size (_initialFolderPaths w) =? 0)%nat
     || (size (_initialFolderPaths w) =? size (_processedFolderPaths w))%nat
  then markFoldersReady w
  else w.

Definition findFolder (folder : Swift.FolderContext)
    (l : list EdgeFolderContext) : option EdgeFolderContext :=
  find (fun f => Swift.same (swift f) folder) l.

Definition getOrCreateFolderContext (folder : Swift.FolderContext)
    (w : EdgeWorkspaceContext) : EdgeWorkspaceContext * EdgeFolderContext :=
  match findFolder folder (folders w) with
  | Some existingFolder => (set_hasEdgeFolder true w, existingFolder)
  | None =>
      let newFolder := {| swift := folder |} in
      let w := set_folders (folders w ++ [newFolder]) w in
      let folderPath := Swift.fsPath folder in
      let w :=
        set_processedFolderPaths (_processedFolderPaths w ∪ {[folderPath]}) w in
      let w :=
        if bool_decide (folderPath ∈ _initialFolderPaths w)
        then checkAllFoldersProcessed w
        else w in
      (w, newFolder)
  end.

(** [folders.splice(folders.indexOf(edgeFolder), 1)] for the element that
    [find] returned: the first one wrapping [folder] goes. *)
Fixpoint spliceOut (folder : Swift.FolderContext)
    (l : list EdgeFolderContext) : list EdgeFolderContext :=
  match l with
  | [] => []
  | f :: rest =>
      if Swift.same (swift f) folder then rest
      else f :: spliceOut folder rest
  end.

Definition handleFolderEvent (e : FolderEvent) (w : EdgeWorkspaceContext) :=
  match folder e with
  | None => w
  | Some folder =>
      match operation e with
      | add | packageUpdated =>
          let '(w, edgeFolder) := getOrCreateFolderContext folder w in
          emit (DidChangePackage edgeFolder) w
      | remove =>
          match findFolder folder (folders w) with
          | Some edgeFolder =>
              if negb (hasEdgeFolder w) then
                emit RefreshPrompt
                  (set_folders (spliceOut folder (folders w))
                     (emit (FolderDisposed edgeFolder) w))
              else w
          | None => w
          end
      | _ => w
      end
  end.

(** What can happen to the context after construction: a folder event
    from the Swift extension, the expiry of the fallback timer, or a call
    of the public [generateLaunchConfigurations]. *)
Inductive Event :=
| FolderEventArrives (e : FolderEvent)
| FallbackTimeoutExpires
| GenerateLaunchConfigurationsCalled.

(** A cleared timer never runs its callback, and a timer runs it once. *)
Definition step (w : EdgeWorkspaceContext) (ev : Event) :=
  match ev with
  | FolderEventArrives e => handleFolderEvent e w
  | FallbackTimeoutExpires =>
      if timerPending w then markFoldersReady (timerRan w) else w
  | GenerateLaunchConfigurationsCalled => generateLaunchConfigurations w
  end.

Definition run (w : EdgeWorkspaceContext) (evs : list Event) :=
  foldl step w evs.

(** Counters read off the trace. *)
Definition isFired (e : Effect) : bool :=
  match e with FoldersReadyFired => true | _ => false end.
Definition isGeneration (e : Effect) : bool :=
  match e with GenerationStarted => true | _ => false end.
Definition isCleared (e : Effect) : bool :=
  match e with TimeoutCleared => true | _ => false end.

Definition firings (w : EdgeWorkspaceContext) : nat :=
  length (filter (fun e => isFired e = true) (effects w)).
Definition generations (w : EdgeWorkspaceContext) : nat :=
  length (filter (fun e => isGeneration e = true) (effects w)).
Definition cancellations (w : EdgeWorkspaceContext) : nat :=
  length (filter (fun e => isCleared e = true) (effects w)).

Definition isFolderEvent (ev : Event) : bool :=
  match ev with FolderEventArrives _ => true | _ => false end.

(** The part of the state the barrier is about. *)
Record Latch := {
  ready : bool; generated : bool; handle : option unit; pending : bool;
  fired : nat; passes : nat; cleared : nat
}.

Definition latch (w : EdgeWorkspaceContext) : Latch :=
  {| ready := _initialFoldersReady w;
     generated := _generatedConfigurations w;
     handle := _initialFolderSetupTimeout w;
     pending := timerPending w;
     fired := firings w; passes := generations w;
     cleared := cancellations w |}.

Definition latch_ok (s : Latch) : Prop :=
  fired s = (if ready s then 1 else 0)%nat
  /\ passes s = (if generated s then 1 else 0)%nat
  /\ cleared s = (if ready s then 1 else 0)%nat
  /\ (if ready s
      then generated s = true /\ handle s = None /\ pending s = false
      else handle s = Some () /\ pending s = true).

(** The three transitions of the latch. *)
Definition generate_latch (s : Latch) : Latch :=
  {| ready := ready s; generated := true; handle := handle s;
     pending := pending s; fired := fired s;
     passes := (passes s + (if generated s then 0 else 1))%nat;
     cleared := cleared s |}.

Definition mark_latch (s : Latch) : Latch :=
  if ready s then s
  else
    {| ready := true; generated := true; handle := None;
       pending := (match handle s with Some _ => false | None => pending s end);
       fired := S (fired s);
       passes := (passes s + (if generated s then 0 else 1))%nat;
       cleared := (cleared s + (match handle s with Some _ => 1 | None => 0 end))%nat |}.

Definition ran_latch (s : Latch) : Latch :=
  {| ready := ready s; generated := generated s; handle := handle s;
     pending := false; fired := fired s; passes := passes s;
     cleared := cleared s |}.

(** The later revision of the class (WendyWorkspaceContext) takes the Swift
    workspace context as optional.  Without one its constructor calls
    [markFoldersReady] at once: no timer has been set yet, and the listener
    that starts the generation pass has not been registered yet, so the
    signal is fired to nobody.  Then the timer is set and the listener
    registered, as before. *)
Definition markFoldersReadyUnheard (w : EdgeWorkspaceContext) :=
  if negb (_initialFoldersReady w) then
    let w := emit FoldersReadyFired (set_initialFoldersReady true w) in
    match _initialFolderSetupTimeout w with
    | Some _ => clearTimeout w
    | None => w
    end
  else w.

Definition setTimeout (w : EdgeWorkspaceContext) :=
  {| folders := folders w; hasEdgeFolder := hasEdgeFolder w;
     _initialFoldersReady := _initialFoldersReady w;
     _initialFolderSetupTimeout := Some ();
     _initialFolderPaths := _initialFolderPaths w;
     _processedFolderPaths := _processedFolderPaths w;
     _generatedConfigurations := _generatedConfigurations w;
     timerPending := true;
     effects := effects w |}.

Definition constructWithoutSwift
    (workspaceFolders : option (list WorkspaceFolder)) : EdgeWorkspaceContext :=
  setTimeout
    (markFoldersReadyUnheard
       {| folders := []; hasEdgeFolder := false;
          _initialFoldersReady := false;
          _initialFolderSetupTimeout := None;
          _initialFolderPaths :=
            match workspaceFolders with
            | Some l => list_to_set (map uri_fsPath l)
            | None => ∅
            end;
          _processedFolderPaths := ∅;
          _generatedConfigurations := false;
          timerPending := false;
          effects := [] |}).

Section GenerationPass.

Variable EDGE_LAUNCH_CONFIG_TYPE : string.
Variable getFolderAndNameSuffix : Swift.FolderContext -> string * string.
(** [EdgeProjectDetector.isEdgeProject], as the oracle it is used as. *)
Variable isEdgeProject : string -> bool.

(** The inner loop: every context whose path is the folder's gets
    [makeDebugConfigurations]; a [true] result prompts for a reload. *)
Fixpoint generateForContexts (folder : WorkspaceFolder)
    (contexts : list EdgeFolderContext) (st : Launch.LaunchStore)
    (matchFound : bool) : Launch.LaunchStore * list Effect * bool :=
  match contexts with
  | [] => (st, [], matchFound)
  | edgeFolder :: rest =>
      if negb (String.eqb (Swift.fsPath (swift edgeFolder)) (uri_fsPath folder))
      then generateForContexts folder rest st matchFound
      else
        let r := Launch.makeDebugConfigurations EDGE_LAUNCH_CONFIG_TYPE
                   getFolderAndNameSuffix (swift edgeFolder) st in
        let here :=
          if Launch.result r then
            [OutputLine ("Added Edge debug configurations to " +:+ name folder);
             RefreshPrompt]
          else
            [OutputLine
               ("Edge configurations already exist or couldn't be added for "
                  +:+ name folder)] in
        let '(st', later, found) :=
          generateForContexts folder rest (Launch.store r) true in
        (st', here ++ later, found)
  end.

Fixpoint generateForFolders (workspaceFolders : list WorkspaceFolder)
    (contexts : list EdgeFolderContext) (st : Launch.LaunchStore)
  : Launch.LaunchStore * list Effect :=
  match workspaceFolders with
  | [] => (st, [])
  | folder :: rest =>
      if negb (isEdgeProject (uri_fsPath folder))
      then generateForFolders rest contexts st
      else
        let '(st', inner, matchFound) :=
          generateForContexts folder contexts st false in
        let missing :=
          if matchFound then []
          else [OutputLine ("No EdgeFolderContext found for " +:+ name folder
                              +:+ ", cannot create debug configurations")] in
        let '(st'', later) := generateForFolders rest contexts st' in
        (st'',
         OutputLine ("Detected Edge project in folder: " +:+ name folder)
           :: inner ++ missing ++ later)
  end.

(** The pass after the guard of [generateLaunchConfigurations], run to
    completion against the store as it then is. *)
Definition generationPass (workspaceFolders : option (list WorkspaceFolder))
    (w : EdgeWorkspaceContext) (st : Launch.LaunchStore)
  : Launch.LaunchStore * list Effect :=
  if Launch.hasAnyEdgeDebugConfiguration EDGE_LAUNCH_CONFIG_TYPE
       (option_map (map uri_fsPath) workspaceFolders) st
  then (st, [])
  else
    match workspaceFolders with
    | None => (st, [])
    | Some l => generateForFolders l (folders w) st
    end.

End GenerationPass.

End Workspace.

(* ===================================================================== *)
(** ** models/DeviceManager.ts: the device registry                        *)
(* ===================================================================== *)

Module Devices.

Import JS.

Inductive ConnectionType := Ethernet | USB | LAN | Custom.

Record Device := {
  id : string;
  address : string;
  name : string;
  agentVersion : option string;
  connectionType : ConnectionType
}.

(** An element of the persisted [wendyos.devices] array. *)
Record ManualEntry := { entry_id : string; entry_address : string }.

Record LANDevice := {
  lan_displayName : string;
  lan_id : string;
  lan_hostname : string;
  lan_port : Z;
  lan_agentVersion : option string
}.

Record AgentUpdateAvailable := {
  currentVersion : string;
  latestVersion : option string
}.

Record WifiNetwork := { ssid : string; signalStrength : Z }.

(** The two global settings the manager reads and writes; [None] is a
    setting that is not there ([get] yields [undefined]). *)
Record Configuration := {
  wendyos_devices : option (list ManualEntry);
  wendyos_currentDevice : option string
}.

(** An invocation of [checkForUpdates], [updateAgent] or [connectWifi],
    cut at its [await]s: what it is waiting for, or how it ended.
    - [AwaitCli], [AwaitVersion], [AwaitPrompt]: [checkForUpdates] waiting
      for [WendyCLI.create()], for the version command, for the answer to
      its prompt.
    - [AwaitUpdateAgent]: [updateAgent], called by the host or awaited by
      [checkForUpdates] as its last statement, found the device and waits
      for [WendyCLI.create()].
    - [Updating]: [updateAgent] has started the progress notification
      without awaiting it and has returned, so the invocation is resolved;
      the progress callback it left behind waits for the update command.
    - [AwaitWifiCli] to [AwaitWifiConnect]: [connectWifi] waiting for
      [WendyCLI.create()], the list command, the picked network, the
      password, the connect command. *)
Inductive Task :=
| AwaitCli (device : Device)
| AwaitVersion (device : Device)
| AwaitPrompt (device : Device)
| AwaitUpdateAgent (device : Device)
| Updating (device : Device)
| AwaitWifiCli (entry : ManualEntry)
| AwaitWifiList (cliPath : string) (entry : ManualEntry)
| AwaitNetwork (cliPath : string) (entry : ManualEntry)
| AwaitPassword (cliPath : string) (entry : ManualEntry) (network : string)
| AwaitWifiConnect (network : string)
| Settled (outcome : Completion unit).

(** What the host hands back to a waiting invocation.  A [Rejected] output
    of a command stands for the command failing or its output not parsing;
    [AgentUpdated] carries the error as the template prints it;
    [NetworkPicked] carries the label of the picked item; [WifiConnected]
    carries whether [status.success] is truthy. *)
Inductive Response :=
| CliCreated (cliPath : option string)
| VersionOutput (parsed : Completion AgentUpdateAvailable)
| PromptAnswer (selection : option string)
| AgentUpdated (outcome : Completion string)
| WifiListed (parsed : Completion (list WifiNetwork))
| NetworkPicked (label : option string)
| PasswordEntered (password : option string)
| WifiConnected (parsed : Completion bool).

Inductive Effect :=
| VersionQuery (cliPath : string) (device : Device)
| UpdatePrompt (device : Device) (latest : string)
| Progress (title : string)
| AgentUpdate (cliPath : string) (device : Device)
| ErrorMessage (message : string)
| WifiList (cliPath : string) (address : string)
| QuickPick (items : list (string * string))
| InputBox
| WifiConnect (cliPath : string) (network : string) (address : string)
    (password : string)
| InformationMessage (message : string)
| DevicesChanged
| CurrentDeviceChanged (deviceId : option string).

(** The manager's fields, the configuration it persists to, the
    invocations of [checkForUpdates], [updateAgent] and [connectWifi] in
    order of invocation, and the trace of what was done to the outside,
    latest last. *)
Record DeviceManager := {
  devices : list Device;
  deviceIdsCheckedForUpdates : gset string;
  currentDevice : option Device;
  config : Configuration;
  tasks : list Task;
  effects : list Effect
}.

Definition fresh (c : Configuration) : DeviceManager :=
  {| devices := []; deviceIdsCheckedForUpdates := ∅; currentDevice := None;
     config := c; tasks := []; effects := [] |}.

Definition set_devices (l : list Device) (m : DeviceManager) :=
  {| devices := l;
     deviceIdsCheckedForUpdates := deviceIdsCheckedForUpdates m;
     currentDevice := currentDevice m; config := config m;
     tasks := tasks m; effects := effects m |}.

Definition set_currentDevice (d : option Device) (m : DeviceManager) :=
  {| devices := devices m;
     deviceIdsCheckedForUpdates := deviceIdsCheckedForUpdates m;
     currentDevice := d; config := config m;
     tasks := tasks m; effects := effects m |}.

Definition set_config (c : Configuration) (m : DeviceManager) :=
  {| devices := devices m;
     deviceIdsCheckedForUpdates := deviceIdsCheckedForUpdates m;
     currentDevice := currentDevice m; config := c;
     tasks := tasks m; effects := effects m |}.

Definition emit (e : list Effect) (m : DeviceManager) :=
  {| devices := devices m;
     deviceIdsCheckedForUpdates := deviceIdsCheckedForUpdates m;
     currentDevice := currentDevice m; config := config m;
     tasks := tasks m; effects := effects m ++ e |}.

(** [config.update(CONFIG_KEY, v, Global)] and
    [config.update(CURRENT_DEVICE_KEY, v, Global)]. *)
Definition update_devices (v : list ManualEntry) (m : DeviceManager) :=
  set_config {| wendyos_devices := Some v;
                wendyos_currentDevice := wendyos_currentDevice (config m) |} m.

Definition update_currentDevice (v : option string) (m : DeviceManager) :=
  set_config {| wendyos_devices := wendyos_devices (config m);
                wendyos_currentDevice := v |} m.

(** [config.get(CONFIG_KEY) || []]. *)
Definition persistedDevices (m : DeviceManager) : list ManualEntry :=
  default [] (wendyos_devices (config m)).

Definition getCurrentDeviceId (m : DeviceManager) : option string :=
  wendyos_currentDevice (config m).

Definition findDevice (deviceId : string) (l : list Device) : option Device :=
  find (fun d => String.eqb (id d) deviceId) l.

Definition getCurrentDevice (m : DeviceManager)
  : DeviceManager * option Device :=
  match getCurrentDeviceId m with
  | Some currentId =>
      if truthy (Some currentId) then
        let device := findDevice currentId (devices m) in
        (set_currentDevice device m, device)
      else (m, None)
  | None => (m, None)
  end.

(** [checkForUpdates] up to its first [await]: the membership test and the
    insertion happen before the invocation is suspended. *)
Definition checkForUpdates (device : Device) (m : DeviceManager) :=
  if bool_decide (id device ∈ deviceIdsCheckedForUpdates m) then
    {| devices := devices m;
       deviceIdsCheckedForUpdates := deviceIdsCheckedForUpdates m;
       currentDevice := currentDevice m; config := config m;
       tasks := tasks m ++ [Settled (Resolved ())];
       effects := effects m |}
  else
    {| devices := devices m;
       deviceIdsCheckedForUpdates :=
         deviceIdsCheckedForUpdates m ∪ {[id device]};
       currentDevice := currentDevice m; config := config m;
       tasks := tasks m ++ [AwaitCli device];
       effects := effects m |}.

Definition notFound (deviceId : string) : string :=
  "Device with ID " +:+ deviceId +:+ " not found".

(** [updateAgent] up to its first [await]: the device is looked up in the
    in-memory list. *)
Definition startUpdateAgent (deviceId : string) (devices : list Device)
  : Task :=
  match findDevice deviceId devices with
  | None => Settled (Rejected (notFound deviceId))
  | Some device => AwaitUpdateAgent device
  end.

(** The item [connectWifi] offers for a network. *)
Definition networkItem (network : WifiNetwork) : string * string :=
  (ssid network,
   "Signal Strength: " +:+ Number_toString (signalStrength network)).

(** One resumption of a suspended invocation; [devices] is the in-memory
    list at that moment.  A response of a kind the invocation is not
    waiting for is never delivered. *)
Definition resumeTask (devices : list Device) (t : Task) (r : Response)
  : Task * list Effect :=
  match t, r with
  | AwaitCli device, CliCreated None =>
      (Settled (Rejected "Failed to create Wendy CLI"), [])
  | AwaitCli device, CliCreated (Some cliPath) =>
      (AwaitVersion device, [VersionQuery cliPath device])
  | AwaitVersion device, VersionOutput (Rejected e) =>
      (Settled (Rejected e), [])
  | AwaitVersion device, VersionOutput (Resolved updates) =>
      match latestVersion updates with
      | Some latest =>
          if truthy (Some latest)
          then (AwaitPrompt device, [UpdatePrompt device latest])
          else (Settled (Resolved ()), [])
      | None => (Settled (Resolved ()), [])
      end
  | AwaitPrompt device, PromptAnswer confirmed =>
      match confirmed with
      | Some answer =>
          if String.eqb answer "Update"
          then (startUpdateAgent (id device) devices, [])
          else (Settled (Resolved ()), [])
      | None => (Settled (Resolved ()), [])
      end
  | AwaitUpdateAgent device, CliCreated None =>
      (Settled (Rejected "Failed to create Wendy CLI"), [])
  | AwaitUpdateAgent device, CliCreated (Some cliPath) =>
      (Updating device,
       [Progress ("Updating WendyOS Agent on " +:+ name device);
        AgentUpdate cliPath device])
  | Updating device, AgentUpdated (Resolved _) =>
      (Settled (Resolved ()), [DevicesChanged])
  | Updating device, AgentUpdated (Rejected error) =>
      (Settled (Resolved ()),
       [ErrorMessage ("Failed to update agent: " +:+ error)])
  | AwaitWifiCli entry, CliCreated None =>
      (Settled (Rejected "Failed to create Wendy CLI"), [])
  | AwaitWifiCli entry, CliCreated (Some cliPath) =>
      (AwaitWifiList cliPath entry, [WifiList cliPath (entry_address entry)])
  | AwaitWifiList cliPath entry, WifiListed (Rejected e) =>
      (Settled (Rejected e), [])
  | AwaitWifiList cliPath entry, WifiListed (Resolved networks) =>
      (AwaitNetwork cliPath entry, [QuickPick (map networkItem networks)])
  | AwaitNetwork cliPath entry, NetworkPicked None =>
      (Settled (Resolved ()), [])
  | AwaitNetwork cliPath entry, NetworkPicked (Some label) =>
      (AwaitPassword cliPath entry label, [InputBox])
  | AwaitPassword cliPath entry label, PasswordEntered password =>
      if truthy password
      then (AwaitWifiConnect label,
            [WifiConnect cliPath label (entry_address entry)
               (interpolate password)])
      else (Settled (Resolved ()), [])
  | AwaitWifiConnect label, WifiConnected (Rejected e) =>
      (Settled (Rejected e), [])
  | AwaitWifiConnect label, WifiConnected (Resolved success) =>
      if success
      then (Settled (Resolved ()),
            [InformationMessage ("Connected to " +:+ label)])
      else (Settled (Rejected "Failed to connect to WiFi"), [])
  | _, _ => (t, [])
  end.

Definition resume (i : nat) (r : Response) (m : DeviceManager) :=
  match tasks m !! i with
  | Some t =>
      let '(t', done) := resumeTask (devices m) t r in
      {| devices := devices m;
         deviceIdsCheckedForUpdates := deviceIdsCheckedForUpdates m;
         currentDevice := currentDevice m; config := config m;
         tasks := <[i := t']> (tasks m);
         effects := effects m ++ done |}
  | None => m
  end.

Definition setCurrentDevice (deviceId : option string) (m : DeviceManager)
  : DeviceManager * Completion unit :=
  let checked :=
    match deviceId with
    | Some wanted =>
        if truthy (Some wanted) then
          match findDevice wanted (devices m) with
          | None => inr (notFound wanted)
          | Some device =>
              inl (checkForUpdates device (set_currentDevice (Some device) m))
          end
        else inl m
    | None => inl m
    end in
  match checked with
  | inr message => (m, Rejected message)
  | inl m =>
      (emit [CurrentDeviceChanged deviceId; DevicesChanged]
         (update_currentDevice deviceId m),
       Resolved ())
  end.

(** [addDevice]; [newId] is what [uuidv7()] returns. *)
Definition addDevice (address : string) (newId : string) (m : DeviceManager)
  : DeviceManager * Completion Device :=
  let devices := persistedDevices m in
  if existsb (fun d => String.eqb (entry_address d) address) devices then
    (m, Rejected ("Device with address " +:+ address +:+ " already exists"))
  else
    let newDevice := {| entry_id := newId; entry_address := address |} in
    let devices := devices ++ [newDevice] in
    let m := update_devices devices m in
    let added :=
      {| id := entry_id newDevice; address := entry_address newDevice;
         name := "Wendy Agent"; agentVersion := None;
         connectionType := Custom |} in
    if (length devices =? 1)%nat then
      match setCurrentDevice (Some (entry_id newDevice)) m with
      | (m, Resolved _) => (m, Resolved added)
      | (m, Rejected message) => (m, Rejected message)
      end
    else (emit [DevicesChanged] m, Resolved added).

Definition deleteDevice (deviceId : string) (m : DeviceManager)
  : DeviceManager * Completion unit :=
  let devices := persistedDevices m in
  let updatedDevices :=
    List.filter (fun d => negb (String.eqb (entry_id d) deviceId)) devices in
  if (length updatedDevices =? length devices)%nat then
    (m, Rejected (notFound deviceId))
  else
    let m := update_devices updatedDevices m in
    let currentDeviceId := getCurrentDeviceId m in
    if bool_decide (currentDeviceId = Some deviceId) then
      match updatedDevices with
      | first :: _ => setCurrentDevice (Some (entry_id first)) m
      | [] => setCurrentDevice None m
      end
    else (emit [DevicesChanged] m, Resolved ()).

(** A call of [updateAgent] or [connectWifi]: one more invocation. *)
Definition spawn (t : Task) (m : DeviceManager) :=
  {| devices := devices m;
     deviceIdsCheckedForUpdates := deviceIdsCheckedForUpdates m;
     currentDevice := currentDevice m; config := config m;
     tasks := tasks m ++ [t]; effects := effects m |}.

Definition updateAgent (deviceId : string) (m : DeviceManager) :=
  spawn (startUpdateAgent deviceId (devices m)) m.

(** [connectWifi] up to its first [await]: the device is looked up among
    the stored manual devices. *)
Definition connectWifi (deviceId : string) (m : DeviceManager) :=
  match
    find (fun d => String.eqb (entry_id d) deviceId) (persistedDevices m)
  with
  | None => spawn (Settled (Rejected (notFound deviceId))) m
  | Some entry => spawn (AwaitWifiCli entry) m
  end.

(** What the discovery probe of [getDevices] came to. *)
Inductive Discovery :=
| NoCli
| DiscoveryFailed
| Discovered (lanDevices : list LANDevice).

Definition manualDevice (d : ManualEntry) : Device :=
  {| id := entry_id d; address := entry_address d; name := entry_address d;
     agentVersion := None; connectionType := Custom |}.

Definition lanDevice (d : LANDevice) : Device :=
  {| id := lan_id d; address := lan_hostname d; name := lan_displayName d;
     agentVersion := lan_agentVersion d; connectionType := LAN |}.

Definition checkCurrent (m : DeviceManager) : DeviceManager :=
  match getCurrentDevice m with
  | (m, Some currentDevice) => checkForUpdates currentDevice m
  | (m, None) => m
  end.

Definition getDevices (probe : Discovery) (m : DeviceManager)
  : DeviceManager * list Device :=
  let manuallyAddedDevices := map manualDevice (persistedDevices m) in
  match probe with
  | NoCli => (m, manuallyAddedDevices)
  | Discovered lanDevices =>
      let devices := map lanDevice lanDevices ++ manuallyAddedDevices in
      (checkCurrent (set_devices devices m), devices)
  | DiscoveryFailed =>
      (checkCurrent (set_devices manuallyAddedDevices m),
       manuallyAddedDevices)
  end.

(** Everything that can happen to the manager: a call of one of its
    methods, or the host resuming a suspended invocation.
    [getCurrentDeviceId] only reads. *)
Inductive Event :=
| CheckForUpdates (device : Device)
| Resume (i : nat) (r : Response)
| GetDevices (probe : Discovery)
| GetCurrentDevice
| SetCurrentDevice (deviceId : option string)
| AddDevice (address : string) (newId : string)
| UpdateAgent (deviceId : string)
| ConnectWifi (deviceId : string)
| DeleteDevice (deviceId : string).

Definition step (m : DeviceManager) (ev : Event) : DeviceManager :=
  match ev with
  | CheckForUpdates device => checkForUpdates device m
  | Resume i r => resume i r m
  | GetDevices probe => fst (getDevices probe m)
  | GetCurrentDevice => fst (getCurrentDevice m)
  | SetCurrentDevice deviceId => fst (setCurrentDevice deviceId m)
  | AddDevice address newId => fst (addDevice address newId m)
  | UpdateAgent deviceId => updateAgent deviceId m
  | ConnectWifi deviceId => connectWifi deviceId m
  | DeleteDevice deviceId => fst (deleteDevice deviceId m)
  end.

Definition run (m : DeviceManager) (evs : list Event) : DeviceManager :=
  foldl step m evs.

(** Counters read off the trace and the invocations, per device id. *)
Definition isQuery (x : string) (e : Effect) : bool :=
  match e with VersionQuery _ d => String.eqb (id d) x | _ => false end.
Definition isPrompt (x : string) (e : Effect) : bool :=
  match e with UpdatePrompt d _ => String.eqb (id d) x | _ => false end.
Definition awaitsCli (x : string) (t : Task) : bool :=
  match t with AwaitCli d => String.eqb (id d) x | _ => false end.
Definition awaitsVersion (x : string) (t : Task) : bool :=
  match t with AwaitVersion d => String.eqb (id d) x | _ => false end.

Definition count {A} (f : A -> bool) (l : list A) : nat :=
  length (List.filter f l).

Definition queries (x : string) (m : DeviceManager) : nat :=
  count (isQuery x) (effects m).
Definition prompts (x : string) (m : DeviceManager) : nat :=
  count (isPrompt x) (effects m).

(** The bookkeeping behind "at most once": per device id, an invocation
    still waiting for the CLI or a query already issued requires the id to
    be in the checked set, and there is at most one of them; a prompt or an
    invocation waiting for the version output requires a query. *)
Definition accounted (m : DeviceManager) : Prop :=
  forall x,
    (count (awaitsCli x) (tasks m) + queries x m
     <= (if bool_decide (x ∈ deviceIdsCheckedForUpdates m) then 1 else 0))%nat
    /\ (count (awaitsVersion x) (tasks m) + prompts x m <= queries x m)%nat.

(** A transition that keeps the books and only adds to the checked set. *)
Definition sound (m m' : DeviceManager) : Prop :=
  (accounted m -> accounted m')
  /\ deviceIdsCheckedForUpdates m ⊆ deviceIdsCheckedForUpdates m'.

(** The predicate [deleteDevice] filters by. *)
Definition keeps (deviceId : string) (d : ManualEntry) : bool :=
  negb (String.eqb (entry_id d) deviceId).


End Devices.

(* ===================================================================== *)
(** ** debugger/WendyDebugConfigurationProvider.ts                         *)
(* ===================================================================== *)

(** The earlier revision of the provider, whose [ensureDebugPort] takes the
    port from the module constant. *)
Module LegacyProvider.

Import JS.

Definition DEFAULT_DEBUG_PORT : Z := 4242.

Definition ensureDebugPort (address : string) : string :=
  if includes ":" address then
    match split ":" address with
    | host :: port :: _ =>
        if String.eqb port (Number_toString DEFAULT_DEBUG_PORT) then address
        else host +:+ ":" +:+ Number_toString DEFAULT_DEBUG_PORT
    | _ => address
    end
  else address +:+ ":" +:+ Number_toString DEFAULT_DEBUG_PORT.

End LegacyProvider.

Module Provider.

Import JS.

Definition WENDY_LAUNCH_CONFIG_TYPE : string := "wendy".
Definition DEFAULT_DEBUG_PORT : Z := 4242.
Definition DEFAULT_DEBUGPY_PORT : Z := 5678.

Inductive DebuggerType := lldb_dap | codelldb.
Definition DEBUGGER_TYPE : DebuggerType := lldb_dap.

(** [ensureDebugPort(address, port)].  The destructuring
    [const [host, port] = address.split(":")] declares a new [port] in the
    block; the pattern below shadows the parameter in the same way, so that
    inside the branch [port] is the piece of the address.  The last branch
    of the [match] is never taken: an address that includes a colon splits
    into at least two pieces ([split_includes] below). *)
Definition ensureDebugPort (address : string) (port : Z) : string :=
  if includes ":" address then
    match split ":" address with
    | host :: port :: _ =>
        if String.eqb port (String_toString port) then address
        else host +:+ ":" +:+ port
    | _ => address
    end
  else address +:+ ":" +:+ Number_toString port.

(** A parsed JSON text. *)
#[local] Unset Elimination Schemes.
Inductive Json :=
| JNull
| JBool (b : bool)
| JNumber (n : Z)
| JString (s : string)
| JArray (items : list Json)
| JObject (fields : list (string * Json)).
#[local] Set Elimination Schemes.

(** What reading and parsing wendy.json came to: an exception, caught with
    its description logged, or the parsed value. *)
Inductive WendyJson :=
| Unreadable (description : string)
| Parsed (value : Json).

Inductive Thrown :=
| TypeError (message : string)
| Error (message : string).

(** How an asynchronous method of the provider ends. *)
Inductive Settlement (A : Type) :=
| Fulfilled (a : A)
| RejectedWith (e : Thrown).
Arguments Fulfilled {A} a.
Arguments RejectedWith {A} e.

(** The double-quote character of the messages. *)
Definition quote : string := String (ascii_of_nat 34) EmptyString.

(** [edgeConfig.language], for [edgeConfig] possibly [undefined] ([None]):
    reading a property of [undefined] or [null] throws; a primitive or an
    array has no such property. *)
Definition language (edgeConfig : option Json) : Thrown + option Json :=
  match edgeConfig with
  | None =>
      inl (TypeError
             "Cannot read properties of undefined (reading 'language')")
  | Some JNull =>
      inl (TypeError "Cannot read properties of null (reading 'language')")
  | Some (JObject fields) =>
      inr (snd <$> find (fun kv => String.eqb (fst kv) "language") fields)
  | Some _ => inr None
  end.

Definition isPython (v : option Json) : bool :=
  match v with
  | Some (JString s) => String.eqb s "python"
  | _ => false
  end.

Record WorkspaceFolder := { folder_name : string; uri_fsPath : string; uri_path : string }.

(** A [WendyFolderContext]: its Swift context, if it has one. *)
Record WendyFolderContext := { swift : option Swift.FolderContext }.

Record DebugConfiguration := {
  type : string;
  name : string;
  request : string;
  target : option string;
  cwd : option string;
  preLaunchTask : option string;
  initCommands : option (list string);
  attachCommands : option (list string);
  agent : option string;
  targetCreateCommands : option (list string);
  processCreateCommands : option (list string);
  connect : option (string * Z);
  pathMappings : option (list (string * string))
}.

Inductive Effect :=
| Log (line : string)
| LogJson (configuration : DebugConfiguration)
| ErrorPrompt (message : string) (actions : list string)
| Command (command : string)
| Delay (milliseconds : Z).

(** What the provider reads from its surroundings during one request: the
    [wendyos.swiftSdkPath] setting, [os.homedir()], [realpath] (the
    resolved path, or the description of its error), [fs.stat] (the
    description of its error, if it fails), [path.join], the device
    manager, the user's answer to an error prompt, and the folders of
    the workspace context. *)
Record Host := {
  swiftSdkPath : option string;
  homedir : string;
  realpath : string -> string + string;
  stat : string -> option string;
  path_join : string -> string -> string;
  deviceManager : Devices.DeviceManager;
  selection : option string;
  folders : list WendyFolderContext
}.

Definition listed (folder : option string) (product : string)
  : DebugConfiguration :=
  {| type := WENDY_LAUNCH_CONFIG_TYPE;
     name := "Debug " +:+ product +:+ " on WendyOS";
     request := "attach";
     target := Some product;
     cwd := folder;
     preLaunchTask := Some ("wendy: Run " +:+ product);
     initCommands := None; attachCommands := None; agent := None;
     targetCreateCommands := None; processCreateCommands := None;
     connect := None; pathMappings := None |}.

Definition provideDebugConfigurationsPython (folder : option WorkspaceFolder)
  : list DebugConfiguration :=
  [ {| type := WENDY_LAUNCH_CONFIG_TYPE;
       name := "Debug Python App on WendyOS";
       request := "attach";
       target := Some "Python App";
       cwd := uri_path <$> folder;
       preLaunchTask := Some "wendy: Run Python App";
       initCommands := None; attachCommands := None; agent := None;
       targetCreateCommands := None; processCreateCommands := None;
       connect := None; pathMappings := None |} ].

Definition provideDebugConfigurationsSwift (host : Host)
  : list DebugConfiguration :=
  flat_map
    (fun folderContext =>
       match swift folderContext with
       | None => []
       | Some context =>
           map (fun product =>
                  listed (Some (Swift.fsPath context)) (Swift.name product))
               (Swift.executableProducts context)
       end)
    (folders host).

(** The [try]/[catch] around reading wendy.json: the value of [edgeConfig]
    afterwards and what was logged. *)
Definition readWendyJson (host : Host) (folder : WorkspaceFolder)
    (file : WendyJson) : option Json * list Effect :=
  match file with
  | Parsed value => (Some value, [])
  | Unreadable description =>
      (None,
       [Log ("Could not read or parse wendy.json at "
               +:+ path_join host (uri_fsPath folder) "wendy.json"
               +:+ ": " +:+ description)])
  end.

Definition provideDebugConfigurations (host : Host) (file : WendyJson)
    (folder : option WorkspaceFolder)
  : Settlement (list DebugConfiguration) * list Effect :=
  let start := [Log "Providing Wendy debug configurations..."] in
  match folder with
  | None => (Fulfilled [], start ++ [Log "No workspace folder found."])
  | Some present =>
      let '(edgeConfig, logged) := readWendyJson host present file in
      match language edgeConfig with
      | inl thrown => (RejectedWith thrown, start ++ logged)
      | inr value =>
          if isPython value
          then (Fulfilled (provideDebugConfigurationsPython folder),
                start ++ logged)
          else (Fulfilled (provideDebugConfigurationsSwift host),
                start ++ logged)
      end
  end.

Definition selectCurrentDevice (host : Host) (port : option Z)
  : option string * list Effect :=
  match snd (Devices.getCurrentDevice (deviceManager host)) with
  | None =>
      let prompt :=
        ErrorPrompt
          "No WendyOS device is selected. You must select a device before debugging."
          ["Add Device"; "Select Device"; "Cancel"] in
      let followUp :=
        match selection host with
        | Some chosen =>
            if String.eqb chosen "Add Device"
            then [Command "wendyDevices.addDevice"]
            else if String.eqb chosen "Select Device"
            then [Command "workbench.view.extension.wendy-explorer"]
            else []
        | None => []
        end in
      (None, prompt :: followUp)
  | Some device =>
      match port with
      | Some p =>
          if (p =? 0)%Z then (Some (Devices.address device), [])
          else (Some (ensureDebugPort (Devices.address device) p), [])
      | None => (Some (Devices.address device), [])
      end
  end.

(** [if (!c.preLaunchTask && c.target) c.preLaunchTask = task]. *)
Definition ensurePreLaunchTask (task : option string -> string)
    (c : DebugConfiguration) : option string :=
  if negb (truthy (preLaunchTask c)) && truthy (target c)
  then Some (task (target c))
  else preLaunchTask c.

Definition resolveDebugConfigurationWithSubstitutedVariablesPython
    (host : Host) (folder : WorkspaceFolder)
    (debugConfiguration : DebugConfiguration)
  : Settlement (option DebugConfiguration) * list Effect :=
  let before :=
    [Log "Waiting for Python debug server to be ready..."; Delay 2000;
     Log "Resolving Python debug configuration..."] in
  let '(remoteAddress, asked) := selectCurrentDevice host None in
  if negb (truthy remoteAddress) then
    (Fulfilled None, before ++ asked ++ [Log "No remote address found."])
  else
    (Fulfilled
       (Some
          {| type := "debugpy";
             name := name debugConfiguration;
             request := "attach";
             target := target debugConfiguration;
             cwd := cwd debugConfiguration;
             preLaunchTask :=
               ensurePreLaunchTask (fun _ => "wendy: Run Python App")
                 debugConfiguration;
             initCommands := initCommands debugConfiguration;
             attachCommands := attachCommands debugConfiguration;
             agent := agent debugConfiguration;
             targetCreateCommands := targetCreateCommands debugConfiguration;
             processCreateCommands := processCreateCommands debugConfiguration;
             connect := Some (interpolate remoteAddress, DEFAULT_DEBUGPY_PORT);
             pathMappings := Some [(uri_fsPath folder, "/app")] |}),
     before ++ asked).

Definition missingSdk (sdkPath description : string) : string :=
  "The configured Swift SDK path " +:+ quote +:+ sdkPath +:+ quote
    +:+ " does not exist: " +:+ description.

Definition sdkPrompt (message : string) (host : Host) : list Effect :=
  ErrorPrompt message ["Configure Swift SDK Path"; "Cancel"]
  :: match selection host with
     | Some chosen =>
         if String.eqb chosen "Configure Swift SDK Path"
         then [Command "wendy.configureSwiftSdkPath"]
         else []
     | None => []
     end.

Definition moduleSubPath : string :=
  "6.2.1-RELEASE_wendyos_aarch64/aarch64-unknown-linux-gnu/debian-bookworm.sdk/usr/lib/swift_static/linux".

Definition resolveDebugConfigurationWithSubstitutedVariablesSwift
    (host : Host) (folder : WorkspaceFolder)
    (debugConfiguration : DebugConfiguration)
  : Settlement (option DebugConfiguration) * list Effect :=
  match swiftSdkPath host with
  | None =>
      (Fulfilled None,
       sdkPrompt
         "Swift SDK path is not set. This is required for debugging WendyOS applications."
         host)
  | Some sdkPath =>
      if negb (truthy (Some sdkPath)) || trimIsEmpty sdkPath then
        (Fulfilled None,
         sdkPrompt
           "Swift SDK path is not set. This is required for debugging WendyOS applications."
           host)
      else
        let expanded :=
          if startsWithTilde sdkPath
          then path_join host (homedir host) (slice1 sdkPath)
          else sdkPath in
        match realpath host expanded with
        | inr description =>
            (Fulfilled None, sdkPrompt (missingSdk expanded description) host)
        | inl sdkPath =>
            match stat host sdkPath with
            | Some description =>
                (Fulfilled None,
                 sdkPrompt (missingSdk sdkPath description) host)
            | None =>
              let '(remoteAddress, asked) :=
                selectCurrentDevice host (Some DEFAULT_DEBUG_PORT) in
              if negb (truthy remoteAddress) then (Fulfilled None, asked)
              else
                let remoteAddress := interpolate remoteAddress in
                let targetBasePath :=
                  path_join host (uri_fsPath folder) ".wendy-build/debug" in
                let sdkPathCommands :=
                  [ "settings set target.sdk-path " +:+ quote
                      +:+ path_join host sdkPath "" +:+ quote;
                    "settings set target.swift-module-search-paths "
                      +:+ quote +:+ path_join host sdkPath moduleSubPath
                      +:+ quote ] in
                let create :=
                  "target create " +:+ targetBasePath +:+ "/"
                    +:+ interpolate (target debugConfiguration) in
                let connectTo := "gdb-remote " +:+ remoteAddress in
                let task :=
                  ensurePreLaunchTask
                    (fun t => "wendy: Run " +:+ interpolate t)
                    debugConfiguration in
                let resolved :=
                  match DEBUGGER_TYPE with
                  | lldb_dap =>
                      {| type := "lldb-dap";
                         name := name debugConfiguration;
                         request := "attach";
                         target := target debugConfiguration;
                         cwd := cwd debugConfiguration;
                         preLaunchTask := task;
                         initCommands := Some sdkPathCommands;
                         attachCommands := Some [create; connectTo];
                         agent := agent debugConfiguration;
                         targetCreateCommands :=
                           targetCreateCommands debugConfiguration;
                         processCreateCommands :=
                           processCreateCommands debugConfiguration;
                         connect := connect debugConfiguration;
                         pathMappings := pathMappings debugConfiguration |}
                  | codelldb =>
                      {| type := "lldb";
                         name := name debugConfiguration;
                         request := "launch";
                         target := target debugConfiguration;
                         cwd := cwd debugConfiguration;
                         preLaunchTask := task;
                         initCommands := initCommands debugConfiguration;
                         attachCommands := attachCommands debugConfiguration;
                         agent := Some remoteAddress;
                         targetCreateCommands :=
                           Some (create :: sdkPathCommands);
                         processCreateCommands := Some [connectTo];
                         connect := connect debugConfiguration;
                         pathMappings := pathMappings debugConfiguration |}
                  end in
                (Fulfilled (Some resolved),
                 asked ++ [Log "Resolved debug configuration:";
                           LogJson resolved])
            end
        end
  end.

Definition resolveDebugConfigurationWithSubstitutedVariables
    (host : Host) (file : WendyJson) (folder : option WorkspaceFolder)
    (debugConfiguration : DebugConfiguration)
  : Settlement (option DebugConfiguration) * list Effect :=
  match folder with
  | None => (Fulfilled None, [])
  | Some present =>
      let '(edgeConfig, logged) := readWendyJson host present file in
      match language edgeConfig with
      | inl thrown => (RejectedWith thrown, logged)
      | inr value =>
          let '(settled, done) :=
            if isPython value
            then resolveDebugConfigurationWithSubstitutedVariablesPython
                   host present debugConfiguration
            else resolveDebugConfigurationWithSubstitutedVariablesSwift
                   host present debugConfiguration in
          (settled, logged ++ done)
      end
  end.

End Provider.

(** Folder contexts and host folder lists used in the examples below. *)
Module WorkspaceExamples.

Import Workspace.

Definition app : Swift.FolderContext :=
  {| Swift.objectId := 1; Swift.fsPath := "/ws/app";
     Swift.executableProducts := [{| Swift.name := "app" |}] |}.

Definition plugin : Swift.FolderContext :=
  {| Swift.objectId := 2; Swift.fsPath := "/ws/app/Plugins/Tool";
     Swift.executableProducts := [] |}.

Definition added (f : Swift.FolderContext) : Event :=
  FolderEventArrives {| operation := add; folder := Some f |}.

Definition appAndLib : option (list WorkspaceFolder) :=
  Some [ {| name := "app"; uri_fsPath := "/ws/app" |};
         {| name := "lib"; uri_fsPath := "/ws/lib" |} ].

Definition appOnly : option (list WorkspaceFolder) :=
  Some [ {| name := "app"; uri_fsPath := "/ws/app" |} ].

End WorkspaceExamples.

(** Launch-configuration stores used in the examples below. *)
Module LaunchExamples.

Import Launch.

Definition posixFolder (context : Swift.FolderContext) : string * string :=
  (Swift.fsPath context, "").

Definition nodeAttach : DebugConfiguration :=
  {| type := "node"; name := "Attach"; request := "attach";
     target := None; cwd := None; preLaunchTask := None;
     others := [("port", "9229")] |}.

Definition edgeApp : DebugConfiguration :=
  {| type := "edge"; name := "Debug app on EdgeOS"; request := "attach";
     target := Some "app"; cwd := Some "/ws/app";
     preLaunchTask := Some "edge: Run app"; others := [] |}.

Definition withNode : LaunchStore := {[ "/ws/app" := [nodeAttach] ]}.

Definition configured : LaunchStore :=
  {[ "/ws/app" := [edgeApp; nodeAttach] ]}.

End LaunchExamples.

(** Devices and registries used in the examples below. *)
Module DeviceExamples.

Import Devices.

Definition emptyConfiguration : Configuration :=
  {| wendyos_devices := None; wendyos_currentDevice := None |}.

Definition pi : Device :=
  {| id := "0197-aaaa"; address := "10.0.0.5"; name := "10.0.0.5";
     agentVersion := None; connectionType := Custom |}.

Definition host1 : ManualEntry :=
  {| entry_id := "0197-aaaa"; entry_address := "host1" |}.

Definition host2 : ManualEntry :=
  {| entry_id := "0197-bbbb"; entry_address := "host2" |}.

(** A registry holding [entries] with [current] selected, after a
    [getDevices] whose discovery probe failed. *)
Definition loaded (entries : list ManualEntry) (current : option string)
  : DeviceManager :=
  set_devices (map manualDevice entries)
    (fresh {| wendyos_devices := Some entries;
              wendyos_currentDevice := current |}).

(** The settings of an earlier session hold host1 and host2 with host1
    current; [getDevices] got no CLI. *)
Definition unlisted : DeviceManager :=
  run
    (fresh {| wendyos_devices := Some [host1; host2];
              wendyos_currentDevice := Some "0197-aaaa" |})
    [GetDevices NoCli].

(** The store held host1, which was listed and selected; host2 was added
    afterwards. *)
Definition addedLater : DeviceManager :=
  run
    (fresh {| wendyos_devices := Some [host1];
              wendyos_currentDevice := None |})
    [GetDevices DiscoveryFailed; SetCurrentDevice (Some "0197-aaaa");
     AddDevice "host2" "0197-bbbb"].

(** The store holds host1, which was listed; [updateAgent] is called for
    it from outside and gets its CLI. *)
Definition commanded : DeviceManager :=
  run
    (fresh {| wendyos_devices := Some [host1];
              wendyos_currentDevice := None |})
    [GetDevices DiscoveryFailed; UpdateAgent "0197-aaaa";
     Resume 0 (CliCreated (Some "/usr/local/bin/wendy"))].

End DeviceExamples.

(* ===================================================================== *)
(** ** tasks/WendyTaskProvider.ts: the run tasks                           *)
(* ===================================================================== *)

Module Tasks.

Import WendyLaunch.

Definition WENDY_TASK_TYPE : string := "wendy".

(** A [TaskConfig]; [cwd] is the folder's [fsPath]. *)
Record TaskConfig := {
  type : string;
  args : list string;
  cwd : string
}.

(** A [vscode.Task], as far as the provider fills it in. *)
Record Task := {
  definition : TaskConfig;
  name : string;
  source : string
}.

Definition createRunTasks (config : TaskConfig) (name : string) : list Task :=
  [ {| definition := config; name := "Run " +:+ name; source := "wendy" |} ].

Definition createPythonRunTask (folderContext : WendyFolderContext)
  : list Task :=
  createRunTasks
    {| type := WENDY_TASK_TYPE; args := ["run"; "--detach"];
       cwd := folder_fsPath folderContext |}
    "Python App".

Definition createSwiftRunTasks (product : Swift.Product)
    (folderContext : WendyFolderContext) : list Task :=
  match swift folderContext with
  | None => []
  | Some package =>
      createRunTasks
        {| type := WENDY_TASK_TYPE;
           args := ["run"; "--detach"; Swift.name product];
           cwd := Swift.fsPath package |}
        (Swift.name product)
  end.

Definition provideTasks (hasPythonExtension : bool)
    (folders : list WendyFolderContext) : list Task :=
  flat_map
    (fun folderContext =>
       match swift folderContext with
       | Some package =>
           flat_map (fun product => createSwiftRunTasks product folderContext)
             (Swift.executableProducts package)
       | None =>
           if hasPythonExtension then createPythonRunTask folderContext
           else []
       end)
    folders.

(** The arguments the task's execution passes to the CLI: a copy of the
    configured ones, the current device's address if there is one, the
    configured runtime if there is one, and the debug flag. *)
Definition executionArguments (config : TaskConfig)
    (currentDevice : option Devices.Device) (runtime : option string)
  : list string :=
  args config
  ++ match currentDevice with
     | Some device => ["--agent"; Devices.address device]
     | None => []
     end
  ++ (if JS.truthy runtime then ["--runtime"; JS.interpolate runtime] else [])
  ++ ["--debug"].

End Tasks.

(* ===================================================================== *)
(** ** sidebar/DevicesProvider.ts: when the device list counts as changed  *)
(* ===================================================================== *)

Module DevicesProvider.

Import Devices.

(** [l.every((x, index) => f(x, index))], counting from [index]. *)
Fixpoint everyFrom {A} (index : nat) (f : A -> nat -> bool) (l : list A)
  : bool :=
  match l with
  | [] => true
  | x :: rest => f x index && everyFrom (S index) f rest
  end.

(** The comparison passed to the refresher.  [devices2[index].id] is read
    only after the lengths were found equal, so the index is in range; the
    [None] branch stands for the read of [undefined] that never happens. *)
Definition sameDevices (devices1 devices2 : list Device) : bool :=
  (length devices1 =? length devices2)%nat
  && everyFrom 0
       (fun device index =>
          match devices2 !! index with
          | Some other => String.eqb (id device) (id other)
          | None => false
          end)
       devices1.

End DevicesProvider.

(* ===================================================================== *)
(** ** utilities/EdgeProjectDetector.ts                                    *)
(* ===================================================================== *)

Module Detector.

Import JS.

(** [s.startsWith(needle)] and [s.includes(needle)] for strings. *)
Fixpoint startsWith (needle s : string) : bool :=
  match needle, s with
  | EmptyString, _ => true
  | String a needle', String b s' => Ascii.eqb a b && startsWith needle' s'
  | String _ _, EmptyString => false
  end.

Fixpoint contains (needle s : string) : bool :=
  startsWith needle s
  || match s with
     | EmptyString => false
     | String _ rest => contains needle rest
     end.

(** [toLowerCase] on the letters A to Z; the strings are taken byte by
    byte, and no other character lower-cases to a letter of "error". *)
Definition lowerAscii (a : ascii) : ascii :=
  let n := nat_of_ascii a in
  if (65 <=? n)%nat && (n <=? 90)%nat then ascii_of_nat (n + 32) else a.

Fixpoint toLowerCase (s : string) : string :=
  match s with
  | EmptyString => EmptyString
  | String a rest => String (lowerAscii a) (toLowerCase rest)
  end.

Definition EDGE_DEPENDENCY_PATTERNS : list string :=
  ["edge-runtime"; "edge-agent"; "edge-proxy"; "apache-edge"; "apache/edge"].

(** What the detector finds in and around a folder: whether Package.swift
    exists and what reading it gives, whether edge.json exists, and how
    [edge info] ends (its standard output, or a failure). *)
Record Probe := {
  packageSwiftExists : bool;
  packageSwift : Completion string;
  edgeJsonExists : bool;
  edgeInfo : Completion string
}.

Definition isEdgeProject (probe : Probe) : bool :=
  let fromPackage :=
    if packageSwiftExists probe then
      match packageSwift probe with
      | Resolved packageContent =>
          existsb (fun pattern => contains pattern packageContent)
            EDGE_DEPENDENCY_PATTERNS
      | Rejected _ => false
      end
    else false in
  if fromPackage then true
  else if edgeJsonExists probe then true
  else
    match edgeInfo probe with
    | Resolved stdout =>
        if truthy (Some stdout) && negb (contains "error" (toLowerCase stdout))
        then true else false
    | Rejected _ => false
    end.

End Detector.

(* ===================================================================== *)
(** ** Auxiliary notions for the further properties                        *)
(* ===================================================================== *)

Module Registry.

Import Devices.

Definition isNotification (e : Effect) : bool :=
  match e with
  | DevicesChanged | CurrentDeviceChanged _ => true
  | _ => false
  end.

(** An invocation of [connectWifi], or one that has ended. *)
Definition isOther (t : Task) : bool :=
  match t with
  | AwaitWifiCli _ | AwaitWifiList _ _ | AwaitNetwork _ _
  | AwaitPassword _ _ _ | AwaitWifiConnect _ | Settled _ => true
  | _ => false
  end.

(** How the manager's state moves when [updateAgent] is not called from
    outside: every other method is a composition of these moves. *)
Inductive evolves : DeviceManager -> DeviceManager -> Prop :=
| evolves_frame m m' :
    deviceIdsCheckedForUpdates m' = deviceIdsCheckedForUpdates m ->
    tasks m' = tasks m -> effects m' = effects m -> evolves m m'
| evolves_notify m e :
    forallb isNotification e = true -> evolves m (emit e m)
| evolves_check m device : evolves m (checkForUpdates device m)
| evolves_resume m i r : evolves m (resume i r m)
| evolves_spawn m t : isOther t = true -> evolves m (spawn t m)
| evolves_trans m1 m2 m3 : evolves m1 m2 -> evolves m2 m3 -> evolves m1 m3.

Definition awaitsPrompt (x : string) (t : Task) : bool :=
  match t with AwaitPrompt d => String.eqb (id d) x | _ => false end.
Definition awaitsAgent (x : string) (t : Task) : bool :=
  match t with AwaitUpdateAgent d => String.eqb (id d) x | _ => false end.
Definition isUpdate (x : string) (e : Effect) : bool :=
  match e with AgentUpdate _ d => String.eqb (id d) x | _ => false end.

(** The update commands run for the device id [x]. *)
Definition updates (x : string) (m : DeviceManager) : nat :=
  count (isUpdate x) (effects m).

(** A call of [updateAgent] from outside with the id [x]. *)
Definition isCommand (x : string) (ev : Event) : bool :=
  match ev with UpdateAgent d => String.eqb d x | _ => false end.

Definition commands (x : string) (evs : list Event) : nat :=
  count (isCommand x) evs.

(** Per device id: an update command that was run, an [updateAgent] still
    waiting for the CLI, or a [checkForUpdates] still waiting for the
    user's answer, requires a prompt or one of the [allowed] calls of
    [updateAgent] from outside. *)
Definition confirmed (allowed : string -> nat) (m : DeviceManager) : Prop :=
  forall x,
    (count (awaitsPrompt x) (tasks m) + count (awaitsAgent x) (tasks m)
     + updates x m
     <= prompts x m + allowed x)%nat.

End Registry.

(** More folder contexts, events and registries for the examples below. *)
Module MoreExamples.

Import Workspace.

Definition lib : Swift.FolderContext :=
  {| Swift.objectId := 3; Swift.fsPath := "/ws/lib";
     Swift.executableProducts := [] |}.

Definition addOf (f : Swift.FolderContext) : FolderEvent :=
  {| operation := add; folder := Some f |}.

Definition removeOf (f : Swift.FolderContext) : FolderEvent :=
  {| operation := remove; folder := Some f |}.

(** A context whose second [add] for the same folder has set
    [hasEdgeFolder]. *)
Definition reused : EdgeWorkspaceContext :=
  run (construct WorkspaceExamples.appOnly)
    [WorkspaceExamples.added WorkspaceExamples.app;
     WorkspaceExamples.added WorkspaceExamples.app].

(** The surroundings of a debug request: a configured SDK path that
    resolves and exists, and the given device manager. *)
Definition hostWith (manager : Devices.DeviceManager) : Provider.Host :=
  {| Provider.swiftSdkPath := Some "/opt/swift-sdks";
     Provider.homedir := "/home/dev";
     Provider.realpath := inl;
     Provider.stat := fun _ => None;
     Provider.path_join := fun a b => a +:+ "/" +:+ b;
     Provider.deviceManager := manager;
     Provider.selection := None;
     Provider.folders := [] |}.

Definition appFolder : Provider.WorkspaceFolder :=
  {| Provider.folder_name := "app"; Provider.uri_fsPath := "/ws/app";
     Provider.uri_path := "/ws/app" |}.

Definition pythonProject : Provider.WendyJson :=
  Provider.Parsed
    (Provider.JObject [("language", Provider.JString "python")]).

Definition swiftProject : Provider.WendyJson :=
  Provider.Parsed (Provider.JObject [("appId", Provider.JString "app")]).

Definition debugApp : Provider.DebugConfiguration :=
  Provider.listed (Some "/ws/app") "app".

Definition appContext : WendyLaunch.WendyFolderContext :=
  {| WendyLaunch.swift := Some WorkspaceExamples.app;
     WendyLaunch.folder_fsPath := "/ws/app";
     WendyLaunch.folder_toString := "file:///ws/app" |}.

Definition scriptsContext : WendyLaunch.WendyFolderContext :=
  {| WendyLaunch.swift := None;
     WendyLaunch.folder_fsPath := "/ws/scripts";
     WendyLaunch.folder_toString := "file:///ws/scripts" |}.

Definition complaining : Detector.Probe :=
  {| Detector.packageSwiftExists := false;
     Detector.packageSwift := JS.Rejected "ENOENT";
     Detector.edgeJsonExists := false;
     Detector.edgeInfo := JS.Resolved "Fatal ERROR: no project here" |}.

End MoreExamples.

(* ===================================================================== *)
(** * Theorems                                                            *)
(* ===================================================================== *)

(** ** The later revision of the synthesizer behaves alike *)

Section WendyLaunchFacts.

Import Launch WendyLaunch.

Variable suffix : Swift.FolderContext -> string * string.

Lemma wendy_created_tagged context :
  forallb isWendyConfiguration (createExecutableConfigurations suffix context)
  = true.
Proof.
  unfold createExecutableConfigurations.
  destruct (swift context) as [package|]; [|done].
  destruct (length _ =? 0)%nat; [done|].
  induction (Swift.executableProducts package) as [|p ps IH]; [done|].
  simpl. by rewrite IH.
Qed.

Lemma wendy_make_cases context st :
  let old := getConfigurations st (folder_fsPath context) in
  let new := createExecutableConfigurations suffix context in
  let run := makeDebugConfigurations suffix context st in
  (existsb isWendyConfiguration old = true
   /\ result run = false /\ store run = st /\ updates run = []
   /\ console run = ["[Wendy] Wendy configurations already exist, skipping"])
  \/ (existsb isWendyConfiguration old = false /\ new = []
      /\ result run = false /\ store run = st /\ updates run = []
      /\ console run = ["[Wendy] No executable products found, skipping"])
  \/ (existsb isWendyConfiguration old = false /\ new <> []
      /\ result run = true
      /\ store run = updateConfigurations st (folder_fsPath context) (new ++ old)
      /\ updates run = [(folder_fsPath context, new ++ old)]).
Proof.
  intros old new run. subst old new run. unfold makeDebugConfigurations.
  destruct (existsb _ (getConfigurations st _)) eqn:Hold; [by left|]. right.
  destruct (createExecutableConfigurations suffix context) as [|c new];
    [by left | by right].
Qed.

(** A second call never writes, and a writing call puts the new entries in
    front of the old ones; a Swift context without products writes
    nothing. *)
Lemma wendy_makeDebugConfigurations_facts context st :
  let old := getConfigurations st (folder_fsPath context) in
  let new := createExecutableConfigurations suffix context in
  let first := makeDebugConfigurations suffix context st in
  let second := makeDebugConfigurations suffix context (store first) in
  (result second = false /\ updates second = [] /\ store second = store first)
  /\ (if result first
      then updates first = [(folder_fsPath context, new ++ old)]
           /\ getConfigurations (store first) (folder_fsPath context)
              = new ++ old
      else updates first = [] /\ store first = st)
  /\ (existsb isWendyConfiguration old = false -> new = [] ->
      result first = false
      /\ console first = ["[Wendy] No executable products found, skipping"]).
Proof.
  intros old new first second. subst old new first second.
  pose proof (wendy_created_tagged context) as Htag.
  destruct (wendy_make_cases context st)
    as [(Hold & Hr & Hs & Hu & Hc)
       |[(Hold & Hnew & Hr & Hs & Hu & Hc)
        |(Hold & Hnew & Hr & Hs & Hu)]]; rewrite Hs, Hr, Hu.
  - destruct (wendy_make_cases context st)
      as [(_ & Hr2 & Hs2 & Hu2 & _)|[(H & _)|(H & _)]]; [|congruence..].
    repeat split; try done. congruence.
  - destruct (wendy_make_cases context st)
      as [(H & _)|[(_ & _ & Hr2 & Hs2 & Hu2 & _)|(_ & H & _)]];
      [congruence| |congruence].
    by repeat split.
  - set (st' := updateConfigurations st _ _).
    assert (Hget : getConfigurations st' (folder_fsPath context)
                   = createExecutableConfigurations suffix context
                     ++ getConfigurations st (folder_fsPath context)).
    { subst st'. unfold getConfigurations, updateConfigurations.
      by rewrite lookup_insert_eq. }
    assert (Hex : existsb isWendyConfiguration
                    (getConfigurations st' (folder_fsPath context)) = true).
    { rewrite Hget.
      destruct (createExecutableConfigurations suffix context) as [|c new];
        [done|].
      cbn in Htag |- *. by apply andb_prop in Htag as [-> _]. }
    destruct (wendy_make_cases context st')
      as [(_ & Hr2 & Hs2 & Hu2 & _)|[(H & _)|(H & _)]]; [|congruence..].
    repeat split; try done; intros _ Hnone; by rewrite Hnone in Hnew.
Qed.

End WendyLaunchFacts.

(** ** The synthesizer *)

Section LaunchFacts.

Import Launch.

Variable TAG : string.
Variable suffix : Swift.FolderContext -> string * string.

Lemma created_all_tagged context :
  forallb (isEdgeConfiguration TAG)
    (fst (createExecutableConfigurations TAG suffix context)) = true.
Proof.
  unfold createExecutableConfigurations.
  destruct (length _ =? 0)%nat; simpl; [done|].
  induction (Swift.executableProducts context) as [|p ps IH]; simpl; [done|].
  unfold isEdgeConfiguration at 1. simpl. by rewrite String.eqb_refl.
Qed.

Lemma created_length context :
  length (fst (createExecutableConfigurations TAG suffix context))
  = length (Swift.executableProducts context).
Proof.
  unfold createExecutableConfigurations.
  destruct (Nat.eqb_spec (length (Swift.executableProducts context)) 0)
    as [E|E]; simpl; [by rewrite E | by rewrite length_map].
Qed.

Lemma existsb_tagged_app new old :
  new <> [] -> forallb (isEdgeConfiguration TAG) new = true ->
  existsb (isEdgeConfiguration TAG) (new ++ old) = true.
Proof.
  destruct new as [|c new]; [done|]. simpl.
  intros _ [-> _]%andb_prop. done.
Qed.

(** The three ways a run can end, with everything it leaves behind. *)
Lemma make_cases context st :
  let old := getConfigurations st (Swift.fsPath context) in
  let new := fst (createExecutableConfigurations TAG suffix context) in
  let run := makeDebugConfigurations TAG suffix context st in
  (existsb (isEdgeConfiguration TAG) old = true
   /\ result run = false /\ store run = st /\ updates run = []
   /\ last (console run)
      = Some "[Edge] Edge configurations already exist, skipping")
  \/ (existsb (isEdgeConfiguration TAG) old = false /\ new = []
      /\ result run = false /\ store run = st /\ updates run = []
      /\ last (console run)
         = Some "[Edge] No executable products found, skipping")
  \/ (existsb (isEdgeConfiguration TAG) old = false /\ new <> []
      /\ result run = true
      /\ store run = updateConfigurations st (Swift.fsPath context) (new ++ old)
      /\ updates run = [(Swift.fsPath context, new ++ old)]).
Proof.
  intros old new run. subst old new run.
  unfold makeDebugConfigurations.
  destruct (existsb _ (getConfigurations st _)) eqn:Hhas.
  - left. cbn [result store updates console].
    repeat split; done.
  - right.
    destruct (createExecutableConfigurations TAG suffix context)
      as [edge created] eqn:Hc. cbn [fst].
    destruct (Nat.eqb_spec (length edge) 0) as [Hlen|Hlen];
      cbn [result store updates console].
    + left. apply length_zero_iff_nil in Hlen. subst edge.
      repeat split; try done. apply last_snoc.
    + right. repeat split; try done.
      intros ->. by apply Hlen.
Qed.

Lemma getConfigurations_update st folder v :
  getConfigurations (updateConfigurations st folder v) folder = v.
Proof.
  unfold getConfigurations, updateConfigurations. by rewrite lookup_insert_eq.
Qed.

Lemma getConfigurations_update_ne st folder folder' v :
  folder <> folder' ->
  getConfigurations (updateConfigurations st folder v) folder'
  = getConfigurations st folder'.
Proof.
  intros Hne. unfold getConfigurations, updateConfigurations.
  by rewrite lookup_insert_ne.
Qed.

(** C4. Synthesis is idempotent on the stored list: whatever the folder's
    state, a second call right after a first one returns [false], issues
    no update, and leaves the store (hence the length of the folder's
    list) as the first call left it; when the first call wrote, the second
    one finds a descriptor of the orchestrator's kind and takes the
    "already exist" exit. *)
Theorem makeDebugConfigurations_twice context st :
  let first := makeDebugConfigurations TAG suffix context st in
  let second := makeDebugConfigurations TAG suffix context (store first) in
  result second = false
  /\ updates second = []
  /\ store second = store first
  /\ length (getConfigurations (store second) (Swift.fsPath context))
     = length (getConfigurations (store first) (Swift.fsPath context))
  /\ (result first = true ->
      existsb (isEdgeConfiguration TAG)
        (getConfigurations (store first) (Swift.fsPath context)) = true
      /\ last (console second)
         = Some "[Edge] Edge configurations already exist, skipping").
Proof.
  intros first second. subst first second.
  pose proof (created_all_tagged context) as Htag.
  destruct (make_cases context st)
    as [(Hold & Hr & Hs & Hu & _)
       |[(Hold & Hnew & Hr & Hs & Hu & _)
        |(Hold & Hnew & Hr & Hs & Hu)]].
  - rewrite Hs, Hr.
    destruct (make_cases context st)
      as [(_ & Hr2 & Hs2 & Hu2 & _)|[(H & _)|(H & _)]]; [|congruence..].
    repeat split; try done. by rewrite Hs2.
  - rewrite Hs, Hr.
    destruct (make_cases context st)
      as [(H & _)|[(_ & _ & Hr2 & Hs2 & Hu2 & _)|(_ & H & _)]];
      [congruence| |congruence].
    repeat split; try done. by rewrite Hs2.
  - rewrite Hs, Hr.
    set (st' := updateConfigurations st _ _).
    assert (Hex : existsb (isEdgeConfiguration TAG)
                    (getConfigurations st' (Swift.fsPath context)) = true).
    { subst st'. rewrite getConfigurations_update.
      by apply existsb_tagged_app. }
    destruct (make_cases context st')
      as [(_ & Hr2 & Hs2 & Hu2 & Hl2)|[(H & _)|(H & _)]]; [|congruence..].
    repeat split; try done. by rewrite Hs2.
Qed.

(** C5. Whenever a run issues an update of a folder's list, the folder is
    the context's own, the written list is the newly created descriptors
    followed by the list read before, entry for entry, and that is what
    the store then holds; and in every run, writing or not, each folder's
    stored list keeps its former content as a suffix. *)
Theorem makeDebugConfigurations_prepends context st :
  let run := makeDebugConfigurations TAG suffix context st in
  let new := fst (createExecutableConfigurations TAG suffix context) in
  (forall folder written,
      In (folder, written) (updates run) ->
      folder = Swift.fsPath context
      /\ written = new ++ getConfigurations st folder
      /\ getConfigurations (store run) folder = written
      /\ forallb (isEdgeConfiguration TAG) new = true)
  /\ (forall folder,
        exists added,
          getConfigurations (store run) folder
          = added ++ getConfigurations st folder)
  /\ (forall folder,
        folder <> Swift.fsPath context ->
        (store run : gmap string (list DebugConfiguration)) !! folder
        = (st : gmap string (list DebugConfiguration)) !! folder).
Proof.
  intros run new. subst run new.
  destruct (make_cases context st)
    as [(Hold & Hr & Hs & Hu & _)
       |[(Hold & Hnew & Hr & Hs & Hu & _)
        |(Hold & Hnew & Hr & Hs & Hu)]];
    rewrite Hs, Hu.
  - split; [by intros ? ? []|split; [by exists []|done]].
  - split; [by intros ? ? []|split; [by exists []|done]].
  - split; [|split].
    + intros folder written [[= <- <-]|[]].
      rewrite getConfigurations_update.
      repeat split. apply created_all_tagged.
    + intros folder.
      destruct (decide (folder = Swift.fsPath context)) as [->|Hne].
      * rewrite getConfigurations_update. by eexists.
      * rewrite getConfigurations_update_ne by done. by exists [].
    + intros folder Hne. unfold updateConfigurations.
      by rewrite lookup_insert_ne.
Qed.

(** C10 (as amended). A context with zero runnable targets creates no
    descriptor; the run issues no update, leaves the store as it was and
    returns [false].  That [false] is the very value returned for a folder
    that already holds a descriptor of the orchestrator's kind: the two
    exits differ in the console line they print, not in the result. *)
Theorem makeDebugConfigurations_no_targets context st :
  Swift.executableProducts context = [] ->
  let run := makeDebugConfigurations TAG suffix context st in
  fst (createExecutableConfigurations TAG suffix context) = []
  /\ result run = false /\ updates run = [] /\ store run = st
  /\ (existsb (isEdgeConfiguration TAG)
        (getConfigurations st (Swift.fsPath context)) = false ->
      last (console run)
      = Some "[Edge] No executable products found, skipping")
  /\ (forall context' st',
        existsb (isEdgeConfiguration TAG)
          (getConfigurations st' (Swift.fsPath context')) = true ->
        let run' := makeDebugConfigurations TAG suffix context' st' in
        result run' = result run
        /\ last (console run')
           = Some "[Edge] Edge configurations already exist, skipping").
Proof.
  intros Hnone run. subst run.
  assert (Hnew : fst (createExecutableConfigurations TAG suffix context) = []).
  { apply length_zero_iff_nil. by rewrite created_length, Hnone. }
  destruct (make_cases context st)
    as [(Hold & Hr & Hs & Hu & Hl)
       |[(Hold & _ & Hr & Hs & Hu & Hl)
        |(_ & H & _)]]; [| |done].
  - repeat split; try done; [congruence|..];
      destruct (make_cases context' st')
        as [(_ & Hr2 & _ & _ & Hl2)|[(H' & _)|(H' & _)]]; congruence.
  - repeat split; try done;
      destruct (make_cases context' st')
        as [(_ & Hr2 & _ & _ & Hl2)|[(H' & _)|(H' & _)]]; congruence.
Qed.

End LaunchFacts.

(** The theorem at work: a folder holding one foreign entry gets the
    descriptor for its one product in front of it; the second call finds it
    and leaves everything as it is. *)
Lemma makeDebugConfigurations_twice_witness :
  let first :=
    Launch.makeDebugConfigurations "edge" LaunchExamples.posixFolder
      WorkspaceExamples.app LaunchExamples.withNode in
  let second :=
    Launch.makeDebugConfigurations "edge" LaunchExamples.posixFolder
      WorkspaceExamples.app (Launch.store first) in
  Launch.result first = true
  /\ Launch.store first = LaunchExamples.configured
  /\ Launch.result second = false
  /\ Launch.store second = Launch.store first
  /\ last (Launch.console second)
     = Some "[Edge] Edge configurations already exist, skipping".
Proof.
  intros first second.
  destruct (makeDebugConfigurations_twice "edge" LaunchExamples.posixFolder
              WorkspaceExamples.app LaunchExamples.withNode)
    as (Hr & _ & Hs & _ & Hw).
  split; [reflexivity|]. split; [reflexivity|].
  split; [exact Hr|]. split; [exact Hs|].
  exact (proj2 (Hw eq_refl)).
Defined.

(** The theorem at work: the foreign entry is kept, behind the new one, and
    another folder's setting is not touched. *)
Lemma makeDebugConfigurations_prepends_witness :
  let run :=
    Launch.makeDebugConfigurations "edge" LaunchExamples.posixFolder
      WorkspaceExamples.app LaunchExamples.withNode in
  Launch.updates run
  = [("/ws/app", [LaunchExamples.edgeApp; LaunchExamples.nodeAttach])]
  /\ Launch.getConfigurations (Launch.store run) "/ws/app"
     = [LaunchExamples.edgeApp; LaunchExamples.nodeAttach]
  /\ (Launch.store run : gmap string (list Launch.DebugConfiguration))
       !! "/ws/lib"
     = (LaunchExamples.withNode : gmap string (list Launch.DebugConfiguration))
         !! "/ws/lib".
Proof.
  intros run.
  destruct (makeDebugConfigurations_prepends "edge" LaunchExamples.posixFolder
              WorkspaceExamples.app LaunchExamples.withNode)
    as (Hw & _ & Hf).
  split; [reflexivity|]. split.
  - destruct (Hw "/ws/app" [LaunchExamples.edgeApp; LaunchExamples.nodeAttach])
      as (_ & _ & H & _); [left; reflexivity | exact H].
  - apply Hf. discriminate.
Defined.

(** The theorem at work: a nested package without products next to a
    folder that is already configured. *)
Lemma makeDebugConfigurations_no_targets_witness :
  let run :=
    Launch.makeDebugConfigurations "edge" LaunchExamples.posixFolder
      WorkspaceExamples.plugin LaunchExamples.withNode in
  let run' :=
    Launch.makeDebugConfigurations "edge" LaunchExamples.posixFolder
      WorkspaceExamples.app LaunchExamples.configured in
  Launch.result run = false /\ Launch.updates run = []
  /\ last (Launch.console run)
     = Some "[Edge] No executable products found, skipping"
  /\ Launch.result run' = Launch.result run
  /\ last (Launch.console run')
     = Some "[Edge] Edge configurations already exist, skipping".
Proof.
  intros run run'.
  destruct (makeDebugConfigurations_no_targets "edge"
              LaunchExamples.posixFolder WorkspaceExamples.plugin
              LaunchExamples.withNode eq_refl)
    as (_ & Hr & Hu & _ & Hl & Hsame).
  split; [exact Hr|]. split; [exact Hu|]. split; [exact (Hl eq_refl)|].
  exact (Hsame WorkspaceExamples.app LaunchExamples.configured eq_refl).
Defined.

(** C10, the claim as first stated, fails: a folder whose context reports no
    runnable target and a folder that already holds a descriptor of the
    orchestrator's kind get the same result from the synthesizer. *)
Lemma no_targets_result_not_distinct :
  ~ (Launch.result
       (Launch.makeDebugConfigurations "edge" LaunchExamples.posixFolder
          WorkspaceExamples.plugin LaunchExamples.withNode)
     <> Launch.result
          (Launch.makeDebugConfigurations "edge" LaunchExamples.posixFolder
             WorkspaceExamples.app LaunchExamples.configured)).
Proof. intros H. by apply H. Qed.

Section WorkspaceFacts.

Import Workspace.

Lemma count_snoc (f : Effect -> bool) (l : list Effect) (e : Effect) :
  length (filter (fun x => f x = true) (l ++ [e]))
  = (length (filter (fun x => f x = true) l) + (if f e then 1 else 0))%nat.
Proof.
  rewrite filter_app, length_app. f_equal.
  rewrite filter_cons, filter_nil.
  destruct (decide (f e = true)) as [->|Hne]; [done|].
  by destruct (f e).
Qed.

Ltac latch_simpl :=
  unfold latch, firings, generations, cancellations;
  cbn [effects emit set_folders set_hasEdgeFolder set_initialFoldersReady
       clearTimeout timerRan set_processedFolderPaths
       set_generatedConfigurations _initialFoldersReady
       _generatedConfigurations _initialFolderSetupTimeout timerPending
       ready generated handle pending fired passes cleared];
  rewrite ?count_snoc;
  cbn [isFired isGeneration isCleared];
  rewrite ?Nat.add_0_r.

Lemma latch_generate w :
  latch (generateLaunchConfigurations w) = generate_latch (latch w).
Proof.
  unfold generateLaunchConfigurations, generate_latch.
  destruct (_generatedConfigurations w) eqn:Hg; latch_simpl;
    by rewrite ?Hg, ?Nat.add_0_r.
Qed.

Lemma latch_markFoldersReady w :
  latch (markFoldersReady w) = mark_latch (latch w).
Proof.
  destruct w as [fs he r t ip pp g tp ef].
  unfold markFoldersReady, fireFoldersReady, generateLaunchConfigurations,
    mark_latch.
  destruct r; [done|].
  destruct g, t; cbn -[filter]; latch_simpl; rewrite ?count_snoc;
    cbn [isFired isGeneration isCleared]; f_equal; lia.
Qed.

Lemma markFoldersReady_done w :
  _initialFoldersReady w = true -> markFoldersReady w = w.
Proof. unfold markFoldersReady. by intros ->. Qed.

Lemma latch_timerRan w : latch (timerRan w) = ran_latch (latch w).
Proof. done. Qed.

Lemma latch_emit e w :
  isFired e = false -> isGeneration e = false -> isCleared e = false ->
  latch (emit e w) = latch w.
Proof. intros H1 H2 H3. latch_simpl. by rewrite H1, H2, H3, !Nat.add_0_r. Qed.

Lemma latch_set_folders l w : latch (set_folders l w) = latch w.
Proof. done. Qed.

Lemma latch_checkAllFoldersProcessed w :
  latch (checkAllFoldersProcessed w) = latch w
  \/ latch (checkAllFoldersProcessed w) = mark_latch (latch w).
Proof.
  unfold checkAllFoldersProcessed.
  destruct (_ || _); [right; apply latch_markFoldersReady | by left].
Qed.

Lemma latch_getOrCreateFolderContext folder w :
  latch (fst (getOrCreateFolderContext folder w)) = latch w
  \/ latch (fst (getOrCreateFolderContext folder w)) = mark_latch (latch w).
Proof.
  unfold getOrCreateFolderContext.
  destruct (findFolder folder (folders w)); cbn [fst]; [by left|].
  case_bool_decide; [|by left].
  match goal with
  | |- context [checkAllFoldersProcessed ?w'] =>
      destruct (latch_checkAllFoldersProcessed w') as [Hc|Hc]; rewrite Hc
  end; [by left | by right].
Qed.

Lemma latch_handleFolderEvent e w :
  latch (handleFolderEvent e w) = latch w
  \/ latch (handleFolderEvent e w) = mark_latch (latch w).
Proof.
  unfold handleFolderEvent.
  destruct (folder e) as [f|]; [|by left].
  destruct (operation e); try (by left).
  - destruct (getOrCreateFolderContext f w) as [w' c] eqn:Hg.
    rewrite latch_emit by done.
    pose proof (latch_getOrCreateFolderContext f w) as H.
    by rewrite Hg in H.
  - destruct (findFolder f (folders w)); [|by left].
    destruct (hasEdgeFolder w); cbn [negb]; [by left|]. left.
    rewrite latch_emit, latch_set_folders, latch_emit by done. done.
  - destruct (getOrCreateFolderContext f w) as [w' c] eqn:Hg.
    rewrite latch_emit by done.
    pose proof (latch_getOrCreateFolderContext f w) as H.
    by rewrite Hg in H.
Qed.

Lemma latch_step w ev :
  latch (step w ev) = latch w
  \/ latch (step w ev) = mark_latch (latch w)
  \/ latch (step w ev) = generate_latch (latch w)
  \/ (ev = FallbackTimeoutExpires /\ timerPending w = true
      /\ latch (step w ev) = mark_latch (ran_latch (latch w))).
Proof.
  destruct ev as [e| |]; cbn [step].
  - destruct (latch_handleFolderEvent e w); auto.
  - destruct (timerPending w) eqn:Hp; [|by left].
    do 3 right. by rewrite latch_markFoldersReady, latch_timerRan.
  - right; right; left. apply latch_generate.
Qed.

Lemma mark_latch_ok s : latch_ok s -> latch_ok (mark_latch s).
Proof.
  unfold latch_ok, mark_latch. intros (Hf & Hp & Hc & Hr).
  destruct (ready s) eqn:E; [by rewrite E|]. destruct Hr as [Hh Hpe].
  cbn. rewrite Hf, Hp, Hc, Hh. by destruct (generated s).
Qed.

Lemma generate_latch_ok s : latch_ok s -> latch_ok (generate_latch s).
Proof.
  unfold latch_ok, generate_latch. intros (Hf & Hp & Hc & Hr).
  cbn. rewrite Hp. destruct (ready s), (generated s); tauto.
Qed.

Lemma mark_ran_latch_ok s :
  latch_ok s -> pending s = true -> latch_ok (mark_latch (ran_latch s)).
Proof.
  unfold latch_ok, mark_latch, ran_latch. intros (Hf & Hp & Hc & Hr) Hpe.
  cbn. destruct (ready s) eqn:E; [destruct Hr as (_ & _ & Hr); congruence|].
  destruct Hr as [Hh _].
  cbn. rewrite Hf, Hp, Hc, Hh. by destruct (generated s).
Qed.

Lemma step_ok w ev : latch_ok (latch w) -> latch_ok (latch (step w ev)).
Proof.
  intros Hok.
  destruct (latch_step w ev) as [H|[H|[H|(_ & Hp & H)]]]; rewrite H;
    auto using mark_latch_ok, generate_latch_ok.
  by apply mark_ran_latch_ok.
Qed.

Lemma construct_ok workspaceFolders : latch_ok (latch (construct workspaceFolders)).
Proof. by repeat split. Qed.

Lemma run_snoc w evs ev : run w (evs ++ [ev]) = step (run w evs) ev.
Proof. unfold run. by rewrite foldl_app. Qed.

Lemma run_app w evs evs' : run w (evs ++ evs') = run (run w evs) evs'.
Proof. unfold run. by rewrite foldl_app. Qed.

Lemma run_ok w evs : latch_ok (latch w) -> latch_ok (latch (run w evs)).
Proof.
  revert w. induction evs as [|ev evs IH]; intros w Hok; [done|].
  apply IH. by apply step_ok.
Qed.

Lemma step_ready w ev :
  _initialFoldersReady w = true -> _initialFoldersReady (step w ev) = true.
Proof.
  intros Hr.
  change (ready (latch (step w ev)) = true).
  change (ready (latch w) = true) in Hr.
  destruct (latch_step w ev) as [H|[H|[H|(_ & _ & H)]]]; rewrite H;
    unfold mark_latch, generate_latch, ran_latch; cbn [ready];
    rewrite ?Hr; done.
Qed.

Lemma run_ready w evs :
  _initialFoldersReady w = true -> _initialFoldersReady (run w evs) = true.
Proof.
  revert w. induction evs as [|ev evs IH]; intros w Hr; [done|].
  apply IH. by apply step_ready.
Qed.

(** Once the timer has expired the barrier is up: either this expiry
    raised it, or the timer had been cancelled by an earlier firing. *)
Lemma timeout_ready w :
  latch_ok (latch w) ->
  _initialFoldersReady (step w FallbackTimeoutExpires) = true.
Proof.
  intros (Hf & Hp & Hc & Hr). cbn [step].
  destruct (timerPending w) eqn:Hpe.
  - change (ready (latch (markFoldersReady (timerRan w))) = true).
    rewrite latch_markFoldersReady. unfold mark_latch.
    by destruct (ready (latch (timerRan w))) eqn:E.
  - cbn in Hr. destruct (_initialFoldersReady w); [done|].
    destruct Hr; congruence.
Qed.

(** While only calls of [generateLaunchConfigurations] happen, the barrier
    stays down. *)
Lemma quiet_step w ev :
  isFolderEvent ev = false -> ev <> FallbackTimeoutExpires ->
  _initialFoldersReady (step w ev) = _initialFoldersReady w
  /\ firings (step w ev) = firings w.
Proof.
  destruct ev as [e| |]; [done|done|]. intros _ _. cbn [step].
  pose proof (latch_generate w) as H.
  split; [exact (f_equal ready H) | exact (f_equal fired H)].
Qed.

Lemma quiet_run w evs :
  forallb (fun ev => negb (isFolderEvent ev)) evs = true ->
  ~ In FallbackTimeoutExpires evs ->
  _initialFoldersReady (run w evs) = _initialFoldersReady w
  /\ firings (run w evs) = firings w.
Proof.
  revert w. induction evs as [|ev evs IH]; intros w Hq Hn; [done|].
  cbn in Hq. apply andb_prop in Hq as [Hev Hq].
  apply negb_true_iff in Hev.
  destruct (quiet_step w ev Hev) as [Hr Hf].
  { intros ->. apply Hn. by left. }
  destruct (IH (step w ev) Hq) as [Hr' Hf'].
  { intros Hin. apply Hn. by right. }
  cbn [run foldl] in *. unfold run in *. by rewrite Hr', Hf'.
Qed.

Lemma timeout_run workspaceFolders evs :
  In FallbackTimeoutExpires evs ->
  _initialFoldersReady (run (construct workspaceFolders) evs) = true.
Proof.
  intros (before & after & ->)%in_split.
  rewrite run_app. cbn [run foldl]. apply run_ready.
  apply timeout_ready, run_ok, construct_ok.
Qed.

(** C2. From construction on, under every sequence of folder events,
    timer expiries and calls of [generateLaunchConfigurations]: the
    folders-ready signal has fired once if the ready flag is up and not at
    all otherwise, the generation pass has started once if its flag is up
    and not at all otherwise; a raised ready flag stays raised whatever
    follows, comes with the timer handle cleared and the timer off the
    host's schedule, with exactly one generation pass, and makes
    [markFoldersReady] a no-op; a raised generation flag makes
    [generateLaunchConfigurations] skip.  Once the fallback timer has
    expired the flag is up; and when no folder event ever arrives, the
    signal has not fired before the expiry. *)
Theorem readiness_barrier_one_shot workspaceFolders (evs : list Event) :
  let w := run (construct workspaceFolders) evs in
  firings w = (if _initialFoldersReady w then 1 else 0)%nat
  /\ generations w = (if _generatedConfigurations w then 1 else 0)%nat
  /\ cancellations w = (if _initialFoldersReady w then 1 else 0)%nat
  /\ (_initialFoldersReady w = true ->
      generations w = 1%nat
      /\ _initialFolderSetupTimeout w = None /\ timerPending w = false
      /\ markFoldersReady w = w
      /\ forall more, _initialFoldersReady (run w more) = true)
  /\ (_generatedConfigurations w = true ->
      generateLaunchConfigurations w = emit GenerationSkipped w)
  /\ (In FallbackTimeoutExpires evs -> _initialFoldersReady w = true)
  /\ (forallb (fun ev => negb (isFolderEvent ev)) evs = true ->
      ~ In FallbackTimeoutExpires evs ->
      _initialFoldersReady w = false /\ firings w = 0%nat).
Proof.
  intros w.
  pose proof (run_ok (construct workspaceFolders) evs
                (construct_ok workspaceFolders)) as (Hf & Hp & Hc & Hr).
  fold w in Hf, Hp, Hc, Hr. cbn [latch fired ready passes generated cleared
                                 handle pending] in Hf, Hp, Hc, Hr.
  split; [done|]. split; [done|]. split; [done|].
  split; [|split; [|split]].
  - intros Hready. rewrite Hready in Hr. destruct Hr as (Hg & Hh & Hpe).
    rewrite Hg in Hp.
    repeat split; try done.
    + by apply markFoldersReady_done.
    + intros more. by apply run_ready.
  - intros Hg. unfold generateLaunchConfigurations. by rewrite Hg.
  - apply timeout_run.
  - intros Hq Hn.
    by destruct (quiet_run (construct workspaceFolders) evs Hq Hn).
Qed.

(** Where the size test of [checkAllFoldersProcessed] and coverage of the
    initial set agree: as long as nothing outside the initial set has been
    processed. *)
Lemma size_test_exact (initial processed : gset string) :
  processed ⊆ initial ->
  (size initial = size processed <-> initial ⊆ processed).
Proof.
  intros Hsub. split.
  - intros Hsize x Hx.
    destruct (decide (x ∈ processed)) as [|Hn]; [done|].
    assert (processed ⊂ initial) as Hlt by set_solver.
    apply subset_size in Hlt. lia.
  - intros Hsup. f_equal. set_solver.
Qed.

End WorkspaceFacts.

(** The theorem at work: with two initial folders and a silent Swift
    extension, a call of [generateLaunchConfigurations] leaves the barrier
    down; the expiry of the timer then raises it for good. *)
Lemma readiness_barrier_one_shot_witness :
  let silent :=
    Workspace.run (Workspace.construct WorkspaceExamples.appAndLib)
      [Workspace.GenerateLaunchConfigurationsCalled] in
  let expired :=
    Workspace.run (Workspace.construct WorkspaceExamples.appAndLib)
      [Workspace.GenerateLaunchConfigurationsCalled;
       Workspace.FallbackTimeoutExpires] in
  (Workspace._initialFoldersReady silent = false
   /\ Workspace.firings silent = 0%nat)
  /\ Workspace._initialFoldersReady expired = true
  /\ Workspace.generations expired = 1%nat
  /\ Workspace.timerPending expired = false
  /\ Workspace.generateLaunchConfigurations expired
     = Workspace.emit Workspace.GenerationSkipped expired
  /\ Workspace._initialFoldersReady
       (Workspace.run expired
          [WorkspaceExamples.added WorkspaceExamples.app;
           Workspace.FallbackTimeoutExpires]) = true.
Proof.
  intros silent expired.
  destruct (readiness_barrier_one_shot WorkspaceExamples.appAndLib
              [Workspace.GenerateLaunchConfigurationsCalled])
    as (_ & _ & _ & _ & _ & _ & Hquiet).
  destruct (readiness_barrier_one_shot WorkspaceExamples.appAndLib
              [Workspace.GenerateLaunchConfigurationsCalled;
               Workspace.FallbackTimeoutExpires])
    as (_ & _ & _ & Hready & Hskip & Htimeout & _).
  assert (Hin : In Workspace.FallbackTimeoutExpires
                  [Workspace.GenerateLaunchConfigurationsCalled;
                   Workspace.FallbackTimeoutExpires])
    by (right; left; reflexivity).
  assert (Hnot : ~ In Workspace.FallbackTimeoutExpires
                     [Workspace.GenerateLaunchConfigurationsCalled]).
  { intros [H|[]]. discriminate H. }
  split; [exact (Hquiet eq_refl Hnot)|].
  destruct (Hready (Htimeout Hin)) as (Hg & _ & Hp & _ & Hmore).
  split; [exact (Htimeout Hin)|]. split; [exact Hg|]. split; [exact Hp|].
  split; [exact (Hskip eq_refl)|]. apply Hmore.
Defined.

(** In the later revision, constructed without a Swift context, the barrier
    is raised during construction; the timer set afterwards is never
    cleared, and when it expires nothing happens: the generation pass is not
    started by the barrier at all. *)
Lemma constructWithoutSwift_never_generates workspaceFolders :
  let w := Workspace.run (Workspace.constructWithoutSwift workspaceFolders)
             [Workspace.FallbackTimeoutExpires] in
  Workspace._initialFoldersReady w = true
  /\ Workspace.firings w = 1%nat
  /\ Workspace.generations w = 0%nat
  /\ Workspace.cancellations w = 0%nat
  /\ Workspace._initialFolderSetupTimeout w = Some ().
Proof. by destruct workspaceFolders. Qed.

(** C1 (the code departs from it). [checkAllFoldersProcessed] compares the
    sizes of the two path sets instead of testing coverage.  With the initial
    folders /ws/app and /ws/lib, an [add] for a nested package outside the
    initial set followed by an [add] for /ws/app raises the barrier although
    /ws/lib was never processed; with /ws/app as the only initial folder the
    same two events leave the barrier down although every initial folder has
    been processed. *)
Theorem barrier_compares_sizes :
  let w := Workspace.run (Workspace.construct WorkspaceExamples.appAndLib)
             [WorkspaceExamples.added WorkspaceExamples.plugin;
              WorkspaceExamples.added WorkspaceExamples.app] in
  let w' := Workspace.run (Workspace.construct WorkspaceExamples.appOnly)
              [WorkspaceExamples.added WorkspaceExamples.plugin;
               WorkspaceExamples.added WorkspaceExamples.app] in
  (Workspace._initialFoldersReady w = true
   /\ Workspace.firings w = 1%nat
   /\ ("/ws/lib" ∈ Workspace._initialFolderPaths w)
   /\ ("/ws/lib" ∉ Workspace._processedFolderPaths w)
   /\ ~ (Workspace._initialFolderPaths w ⊆ Workspace._processedFolderPaths w))
  /\ (Workspace._initialFolderPaths w' ⊆ Workspace._processedFolderPaths w'
      /\ Workspace._initialFoldersReady w' = false
      /\ Workspace.firings w' = 0%nat).
Proof.
  intros w w'.
  assert (Hin : "/ws/lib" ∈ Workspace._initialFolderPaths w).
  { apply (bool_decide_eq_true_1 _). by vm_compute. }
  assert (Hout : "/ws/lib" ∉ Workspace._processedFolderPaths w).
  { apply (bool_decide_eq_false_1 _). by vm_compute. }
  split; [split; [|split; [|split; [|split]]] | split; [|split]].
  - by vm_compute.
  - by vm_compute.
  - exact Hin.
  - exact Hout.
  - intros Hsub. apply Hout, Hsub, Hin.
  - apply (bool_decide_eq_true_1 _). by vm_compute.
  - by vm_compute.
  - by vm_compute.
Qed.



Section DeviceFacts.

Import JS Devices.

Lemma count_app {A} (f : A -> bool) (l l' : list A) :
  count f (l ++ l') = (count f l + count f l')%nat.
Proof. unfold count. by rewrite List.filter_app, length_app. Qed.

Lemma count_cons {A} (f : A -> bool) (x : A) (l : list A) :
  count f (x :: l) = ((if f x then 1 else 0) + count f l)%nat.
Proof. unfold count. simpl. by destruct (f x). Qed.

Lemma count_insert {A} (f : A -> bool) (l : list A) (i : nat) (x y : A) :
  l !! i = Some x ->
  (count f (<[i:=y]> l) + (if f x then 1 else 0)
   = count f l + (if f y then 1 else 0))%nat.
Proof.
  revert i. induction l as [|z l IH]; intros [|i] Hl; try done.
  - simpl in Hl. injection Hl as ->. simpl. rewrite !count_cons. lia.
  - simpl in Hl. simpl. rewrite !count_cons. specialize (IH i Hl). lia.
Qed.

Lemma fresh_accounted c : accounted (fresh c).
Proof. intros x. cbn. split; [case_bool_decide|]; lia. Qed.

Lemma checkForUpdates_accounted device m :
  accounted m -> accounted (checkForUpdates device m).
Proof.
  intros Hm x. destruct (Hm x) as [H1 H2]. unfold checkForUpdates.
  destruct (bool_decide (id device ∈ deviceIdsCheckedForUpdates m)) eqn:Hin;
    unfold queries, prompts in *;
    cbn [tasks effects deviceIdsCheckedForUpdates];
    rewrite !count_app, !count_cons;
    cbn [awaitsCli awaitsVersion count length List.filter].
  - split; lia.
  - apply bool_decide_eq_false in Hin. split; [|lia].
    destruct (String.eqb_spec (id device) x) as [Heq|Hne].
    + rewrite Heq in *.
      rewrite bool_decide_eq_false_2 in H1 by done.
      rewrite bool_decide_eq_true_2; [lia|].
      apply elem_of_union; right. by apply elem_of_singleton.
    + destruct (decide (x ∈ deviceIdsCheckedForUpdates m)) as [Hx|Hx].
      * rewrite bool_decide_eq_true_2 in H1 by done.
        rewrite bool_decide_eq_true_2 by (apply elem_of_union; by left). lia.
      * rewrite bool_decide_eq_false_2 in H1 by done.
        rewrite bool_decide_eq_false_2; [lia|].
        intros [?|?%elem_of_singleton]%elem_of_union; congruence.
Qed.

Lemma resumeTask_counts x l t r :
  let '(t', done) := resumeTask l t r in
  ((if awaitsCli x t' then 1 else 0) + count (isQuery x) done
   <= (if awaitsCli x t then 1 else 0))%nat
  /\ ((if awaitsVersion x t' then 1 else 0) + count (isPrompt x) done
      <= (if awaitsVersion x t then 1 else 0) + count (isQuery x) done)%nat.
Proof.
  destruct t as [d|d|d|d|d|e|p e|p e|p e n|n|o],
           r as [c|c|c|c|c|c|c|c];
    cbn [resumeTask];
    try destruct c as [c|];
    try destruct (latestVersion _) as [latest|];
    try destruct (truthy _);
    try destruct (String.eqb _ "Update");
    try (unfold startUpdateAgent; destruct (findDevice _ l));
    try destruct c;
    unfold count; cbn [awaitsCli awaitsVersion isQuery isPrompt List.filter];
    try destruct (String.eqb (id d) x); cbn [length]; split; lia.
Qed.

Lemma resume_accounted i r m : accounted m -> accounted (resume i r m).
Proof.
  intros Hm x. destruct (Hm x) as [H1 H2]. unfold resume.
  destruct (tasks m !! i) as [t|] eqn:Ht; [|done].
  pose proof (resumeTask_counts x (devices m) t r) as Hc.
  destruct (resumeTask (devices m) t r) as [t' done].
  destruct Hc as [Hc1 Hc2].
  unfold queries, prompts in *.
  cbn [tasks effects deviceIdsCheckedForUpdates].
  rewrite !count_app.
  pose proof (count_insert (awaitsCli x) _ i t t' Ht).
  pose proof (count_insert (awaitsVersion x) _ i t t' Ht).
  split; lia.
Qed.

Lemma sound_refl m : sound m m.
Proof. by split. Qed.

Lemma sound_trans m1 m2 m3 : sound m1 m2 -> sound m2 m3 -> sound m1 m3.
Proof. intros [H1 S1] [H2 S2]. split; [auto | by etrans]. Qed.

Lemma sound_frame m m' :
  deviceIdsCheckedForUpdates m' = deviceIdsCheckedForUpdates m ->
  tasks m' = tasks m -> effects m' = effects m -> sound m m'.
Proof.
  intros Hc Ht He. split; [|by rewrite Hc].
  intros Hm x. unfold queries, prompts. rewrite Hc, Ht, He. apply Hm.
Qed.

Lemma sound_emit e m :
  Forall (fun x => match x with
                   | VersionQuery _ _ | UpdatePrompt _ _ => False
                   | _ => True
                   end) e ->
  sound m (emit e m).
Proof.
  intros He. split; [|done].
  intros Hm x. destruct (Hm x) as [H1 H2]. unfold queries, prompts in *.
  cbn [emit tasks effects deviceIdsCheckedForUpdates]. rewrite !count_app.
  assert (count (isQuery x) e = 0%nat /\ count (isPrompt x) e = 0%nat)
    as [-> ->].
  { induction He as [|y e Hy He IH]; [done|].
    rewrite !count_cons. destruct IH as [-> ->]. by destruct y. }
  split; lia.
Qed.

Lemma sound_checkForUpdates device m : sound m (checkForUpdates device m).
Proof.
  split; [apply checkForUpdates_accounted|].
  unfold checkForUpdates. destruct (bool_decide _); cbn; [done|].
  apply union_subseteq_l.
Qed.

Lemma sound_resume i r m : sound m (resume i r m).
Proof.
  split; [apply resume_accounted|].
  unfold resume. destruct (tasks m !! i); [|done].
  by destruct (resumeTask _ _ r).
Qed.

Lemma sound_setCurrentDevice deviceId m :
  sound m (fst (setCurrentDevice deviceId m)).
Proof.
  unfold setCurrentDevice.
  assert (Hnotify : forall m', sound m m' ->
            sound m (emit [CurrentDeviceChanged deviceId; DevicesChanged]
                       (update_currentDevice deviceId m'))).
  { intros m' Hm'. eapply sound_trans; [exact Hm'|].
    eapply sound_trans; [|apply sound_emit; by repeat constructor].
    by apply sound_frame. }
  destruct deviceId as [wanted|]; [|apply Hnotify, sound_refl].
  destruct (truthy (Some wanted)); [|apply Hnotify, sound_refl].
  destruct (findDevice wanted (devices m)) as [device|];
    [|apply sound_refl].
  apply Hnotify.
  eapply sound_trans; [|apply sound_checkForUpdates]. by apply sound_frame.
Qed.

Lemma sound_addDevice address newId m :
  sound m (fst (addDevice address newId m)).
Proof.
  unfold addDevice. destruct (existsb _ _); [apply sound_refl|].
  destruct (_ =? 1)%nat.
  - match goal with
    | |- context [setCurrentDevice ?d ?m'] =>
        pose proof (sound_setCurrentDevice d m') as Hs;
        destruct (setCurrentDevice d m') as [m'' [u|e]]
    end; (eapply sound_trans; [|exact Hs]); by apply sound_frame.
  - eapply sound_trans; [|apply sound_emit; by repeat constructor].
    by apply sound_frame.
Qed.

Lemma sound_deleteDevice deviceId m :
  sound m (fst (deleteDevice deviceId m)).
Proof.
  unfold deleteDevice. destruct (_ =? _)%nat; [apply sound_refl|].
  destruct (bool_decide _).
  - destruct (List.filter _ _);
      (eapply sound_trans; [|apply sound_setCurrentDevice]);
      by apply sound_frame.
  - eapply sound_trans; [|apply sound_emit; by repeat constructor].
    by apply sound_frame.
Qed.

Lemma sound_checkCurrent m : sound m (checkCurrent m).
Proof.
  unfold checkCurrent, getCurrentDevice.
  destruct (getCurrentDeviceId m) as [c|]; [|apply sound_refl].
  destruct (truthy (Some c)); [|apply sound_refl].
  destruct (findDevice c (devices m)) as [d|]; [|by apply sound_frame].
  eapply sound_trans; [|apply sound_checkForUpdates]. by apply sound_frame.
Qed.

Lemma sound_getDevices probe m : sound m (fst (getDevices probe m)).
Proof.
  unfold getDevices. destruct probe; cbn [fst]; [apply sound_refl|..];
    (eapply sound_trans; [|apply sound_checkCurrent]); by apply sound_frame.
Qed.

Lemma sound_getCurrentDevice m : sound m (fst (getCurrentDevice m)).
Proof.
  unfold getCurrentDevice.
  destruct (getCurrentDeviceId m) as [c|]; [|apply sound_refl].
  destruct (truthy (Some c)); [by apply sound_frame | apply sound_refl].
Qed.

Lemma sound_spawn t m :
  (forall x, awaitsCli x t = false /\ awaitsVersion x t = false) ->
  sound m (spawn t m).
Proof.
  intros Ht. split; [|done].
  intros Hm x. destruct (Hm x) as [H1 H2]. destruct (Ht x) as [Hc Hv].
  unfold queries, prompts in *.
  cbn [spawn tasks effects deviceIdsCheckedForUpdates].
  rewrite !count_app, !count_cons, Hc, Hv. cbn. split; lia.
Qed.

Lemma sound_updateAgent deviceId m : sound m (updateAgent deviceId m).
Proof.
  apply sound_spawn. intros x. unfold startUpdateAgent.
  by destruct (findDevice deviceId (devices m)).
Qed.

Lemma sound_connectWifi deviceId m : sound m (connectWifi deviceId m).
Proof.
  unfold connectWifi. destruct (find _ _); by apply sound_spawn.
Qed.

Lemma sound_step m ev : sound m (step m ev).
Proof.
  destruct ev; cbn [step];
    auto using sound_checkForUpdates, sound_resume, sound_getDevices,
      sound_getCurrentDevice, sound_setCurrentDevice, sound_addDevice,
      sound_updateAgent, sound_connectWifi, sound_deleteDevice.
Qed.

Lemma sound_run m evs : sound m (run m evs).
Proof.
  revert m. induction evs as [|ev evs IH]; intros m; [apply sound_refl|].
  eapply sound_trans; [apply sound_step | apply IH].
Qed.

Lemma unchecked_no_query x m :
  accounted m -> x ∉ deviceIdsCheckedForUpdates m ->
  count (awaitsCli x) (tasks m) = 0%nat /\ queries x m = 0%nat.
Proof.
  intros Hm Hx. destruct (Hm x) as [H _].
  rewrite bool_decide_eq_false_2 in H by done. lia.
Qed.

(** C6 (as amended). From a new manager on, under every sequence of method
    calls and resumptions: for every device id at most one version query is
    issued and at most one update prompt shown; no step removes an id from
    the checked set; [checkForUpdates] has put the id into the set by the
    time it is suspended; and of two invocations for an id not yet checked,
    made before either is resumed, the first is left waiting for the CLI
    and the second has returned at once.  Resuming the first with a CLI
    issues the one query; resuming it without a CLI issues none; whatever
    happens afterwards, the number of queries for the id never exceeds
    one. *)
Theorem checkForUpdates_at_most_once (c : Configuration) (evs : list Event)
    (x : string) :
  let m := run (fresh c) evs in
  (queries x m <= 1 /\ prompts x m <= 1)%nat
  /\ (forall ev,
        deviceIdsCheckedForUpdates m ⊆ deviceIdsCheckedForUpdates (step m ev))
  /\ (forall device,
        id device ∈ deviceIdsCheckedForUpdates (checkForUpdates device m))
  /\ (forall device,
        id device = x -> x ∉ deviceIdsCheckedForUpdates m ->
        let m2 := checkForUpdates device (checkForUpdates device m) in
        let first := length (tasks m) in
        tasks m2 = tasks m ++ [AwaitCli device; Settled (Resolved ())]
        /\ effects m2 = effects m
        /\ (forall cliPath,
              effects (resume first (CliCreated (Some cliPath)) m2)
              = effects m ++ [VersionQuery cliPath device]
              /\ queries x (resume first (CliCreated (Some cliPath)) m2)
                 = 1%nat)
        /\ queries x (resume first (CliCreated None) m2) = 0%nat
        /\ forall more, (queries x (run m2 more) <= 1)%nat).
Proof.
  intros m.
  assert (Hm : accounted m) by (apply sound_run, fresh_accounted).
  split; [|split; [|split]].
  - destruct (Hm x) as [H1 H2]. destruct (bool_decide _); lia.
  - intros ev. apply sound_step.
  - intros device. unfold checkForUpdates.
    destruct (bool_decide _) eqn:Hin; cbn.
    + by apply bool_decide_eq_true in Hin.
    + apply elem_of_union; right. by apply elem_of_singleton.
  - intros device Hid Hx m2 first.
    destruct (unchecked_no_query x m Hm Hx) as [_ Hq].
    assert (Hm2 : m2 = {| devices := devices m;
                          deviceIdsCheckedForUpdates :=
                            deviceIdsCheckedForUpdates m ∪ {[id device]};
                          currentDevice := currentDevice m;
                          config := config m;
                          tasks := tasks m
                                   ++ [AwaitCli device; Settled (Resolved ())];
                          effects := effects m |}).
    { subst m2. unfold checkForUpdates at 2.
      rewrite bool_decide_eq_false_2 by (by rewrite Hid).
      unfold checkForUpdates. cbn [deviceIdsCheckedForUpdates].
      rewrite bool_decide_eq_true_2
        by (apply elem_of_union; right; by apply elem_of_singleton).
      cbn. by rewrite <- app_assoc. }
    assert (Hfirst : tasks m2 !! first = Some (AwaitCli device)).
    { rewrite Hm2. cbn [tasks]. subst first.
      rewrite lookup_app_r by lia. by rewrite Nat.sub_diag. }
    split; [by rewrite Hm2|]. split; [by rewrite Hm2|].
    split; [|split].
    + intros cliPath. unfold queries, resume. rewrite Hfirst.
      cbn [resumeTask effects]. rewrite Hm2 at 1 2. cbn [effects].
      split; [done|]. rewrite count_app. fold (queries x m). rewrite Hq.
      unfold count. cbn. by rewrite Hid, String.eqb_refl.
    + unfold queries, resume. rewrite Hfirst.
      cbn [resumeTask effects]. rewrite Hm2. cbn [effects].
      rewrite count_app. fold (queries x m). by rewrite Hq.
    + intros more.
      assert (Hacc : accounted (run m2 more)).
      { apply sound_run. subst m2. by do 2 apply checkForUpdates_accounted. }
      destruct (Hacc x) as [H _]. destruct (bool_decide _); lia.
Qed.

Lemma addDevice_duplicate address newId m :
  existsb (fun d => String.eqb (entry_address d) address) (persistedDevices m)
  = true ->
  addDevice address newId m
  = (m, Rejected ("Device with address " +:+ address +:+ " already exists")).
Proof. intros H. unfold addDevice. by rewrite H. Qed.

(** The first manual device never becomes current: its id comes fresh from
    the generator, the in-memory list was filled before it existed, and
    [setCurrentDevice] looks the id up there. *)
Lemma addDevice_first_not_found address newId m :
  persistedDevices m = [] ->
  truthy (Some newId) = true ->
  findDevice newId (devices m) = None ->
  let '(m', outcome) := addDevice address newId m in
  outcome = Rejected (notFound newId)
  /\ persistedDevices m'
     = [{| entry_id := newId; entry_address := address |}]
  /\ getCurrentDeviceId m' = getCurrentDeviceId m.
Proof.
  intros Hnone Htruthy Hfind. unfold addDevice. rewrite Hnone.
  cbn [existsb app length Nat.eqb].
  unfold setCurrentDevice. cbn [entry_id].
  rewrite Htruthy. cbn [update_devices set_config devices].
  by rewrite Hfind.
Qed.

End DeviceFacts.

(** The theorem at work: two invocations for one device on a new manager. *)
Lemma checkForUpdates_at_most_once_witness :
  let m := Devices.fresh DeviceExamples.emptyConfiguration in
  let m2 :=
    Devices.checkForUpdates DeviceExamples.pi
      (Devices.checkForUpdates DeviceExamples.pi m) in
  Devices.tasks m2
  = [Devices.AwaitCli DeviceExamples.pi; Devices.Settled (JS.Resolved ())]
  /\ Devices.queries "0197-aaaa"
       (Devices.resume 0 (Devices.CliCreated (Some "/usr/local/bin/wendy")) m2)
     = 1%nat
  /\ Devices.queries "0197-aaaa"
       (Devices.resume 0 (Devices.CliCreated None) m2) = 0%nat.
Proof.
  intros m m2.
  destruct (checkForUpdates_at_most_once DeviceExamples.emptyConfiguration
              [] "0197-aaaa") as (_ & _ & _ & Htwo).
  destruct (Htwo DeviceExamples.pi eq_refl (not_elem_of_empty _))
    as (Ht & _ & Hsome & Hnone & _).
  split; [exact Ht|]. split; [exact (proj2 (Hsome _)) | exact Hnone].
Defined.



(** C6, the claim as first stated, fails: two invocations of
    [checkForUpdates] for the same device, both made before the first is
    resumed, followed by a CLI that cannot be created.  Both invocations have
    ended and no version query was issued, so their number is not one. *)
Lemma two_checks_without_cli_query_nothing :
  let m := Devices.run (Devices.fresh DeviceExamples.emptyConfiguration)
             [Devices.CheckForUpdates DeviceExamples.pi;
              Devices.CheckForUpdates DeviceExamples.pi;
              Devices.Resume 0 (Devices.CliCreated None)] in
  Devices.tasks m
  = [Devices.Settled (JS.Rejected "Failed to create Wendy CLI");
     Devices.Settled (JS.Resolved ())]
  /\ Devices.queries (Devices.id DeviceExamples.pi) m = 0%nat
  /\ Devices.queries (Devices.id DeviceExamples.pi) m <> 1%nat.
Proof. by vm_compute. Qed.

(** C7 (the code departs from it). On a registry without manual devices,
    [addDevice "host1"] stores the new entry and then rejects with the
    not-found error of [setCurrentDevice]: the new device does not become the
    current device.  A second [addDevice "host1"] rejects as a duplicate and
    changes nothing, so the list keeps its one entry for host1. *)
Theorem addDevice_first_device_not_selected :
  let m0 := Devices.fresh DeviceExamples.emptyConfiguration in
  let first := Devices.addDevice "host1" "0197-aaaa" m0 in
  let second := Devices.addDevice "host1" "0197-cccc" (fst first) in
  snd first = JS.Rejected "Device with ID 0197-aaaa not found"
  /\ Devices.persistedDevices (fst first) = [DeviceExamples.host1]
  /\ Devices.getCurrentDeviceId (fst first) = None
  /\ snd second = JS.Rejected "Device with address host1 already exists"
  /\ fst second = fst first.
Proof. by vm_compute. Qed.

Section DeleteDevice.

Import JS Devices.

Lemma filter_length_eq {A} (f : A -> bool) (l : list A) :
  length (List.filter f l) = length l -> List.filter f l = l.
Proof.
  induction l as [|a l IH]; [done|]. simpl.
  destruct (f a); simpl.
  - intros [= H]. by rewrite IH.
  - intros H. pose proof (List.filter_length_le f l). lia.
Qed.

Lemma filter_all {A} (f : A -> bool) (l : list A) :
  forallb f l = true -> List.filter f l = l.
Proof.
  induction l as [|a l IH]; [done|]. simpl.
  intros [-> Hl]%andb_prop. by rewrite IH.
Qed.

Lemma setCurrentDevice_resolved deviceId m m' :
  setCurrentDevice deviceId m = (m', Resolved ()) ->
  getCurrentDeviceId m' = deviceId
  /\ persistedDevices m' = persistedDevices m.
Proof.
  unfold setCurrentDevice.
  destruct deviceId as [wanted|]; [destruct (truthy (Some wanted))|];
    try destruct (findDevice wanted (devices m)) as [device|];
    intros [= <-]; try done.
  unfold checkForUpdates. by destruct (bool_decide _).
Qed.

(** What [deleteDevice] does when no stored manual entry has the id, and
    when it resolves: it rejects with the not-found error, and changes
    nothing, in the first case.  When it resolves, the stored list is the
    old one without the entries of that id; if the id was the current
    device's, the current-device id is now that of the first remaining
    entry, or unset when none remains, and otherwise it is as before.  So
    with two manual devices of different ids, a resolved deletion of the
    current one leaves the other one current; and deleting the only manual
    device, when it is the current one, resolves and leaves the
    current-device id unset.  Whether the deletion of the current device
    resolves while another one remains is another matter: see
    [deleteDevice_resolves] and [deleteDevice_stale]. *)
Lemma deleteDevice_current_moves (deviceId : string) (m : DeviceManager) :
  (forallb (keeps deviceId) (persistedDevices m) = true ->
   deleteDevice deviceId m = (m, Rejected (notFound deviceId)))
  /\ (forall m',
        deleteDevice deviceId m = (m', Resolved ()) ->
        persistedDevices m'
        = List.filter (keeps deviceId) (persistedDevices m)
        /\ (getCurrentDeviceId m = Some deviceId ->
            getCurrentDeviceId m' = entry_id <$> head (persistedDevices m'))
        /\ (getCurrentDeviceId m <> Some deviceId ->
            getCurrentDeviceId m' = getCurrentDeviceId m))
  /\ (forall a b m',
        persistedDevices m = [a; b] -> entry_id a <> entry_id b ->
        deviceId = entry_id a \/ deviceId = entry_id b ->
        getCurrentDeviceId m = Some deviceId ->
        deleteDevice deviceId m = (m', Resolved ()) ->
        getCurrentDeviceId m'
        = Some (if String.eqb (entry_id a) deviceId
                then entry_id b else entry_id a))
  /\ (forall a,
        persistedDevices m = [a] -> entry_id a = deviceId ->
        getCurrentDeviceId m = Some deviceId ->
        exists m',
          deleteDevice deviceId m = (m', Resolved ())
          /\ persistedDevices m' = []
          /\ getCurrentDeviceId m' = None).
Proof.
  assert (Hresolved : forall m',
    deleteDevice deviceId m = (m', Resolved ()) ->
    persistedDevices m'
    = List.filter (keeps deviceId) (persistedDevices m)
    /\ (getCurrentDeviceId m = Some deviceId ->
        getCurrentDeviceId m' = entry_id <$> head (persistedDevices m'))
    /\ (getCurrentDeviceId m <> Some deviceId ->
        getCurrentDeviceId m' = getCurrentDeviceId m)).
  { intros m'. unfold deleteDevice. fold (keeps deviceId).
    destruct (_ =? _)%nat; [done|].
    set (kept := List.filter (keeps deviceId) (persistedDevices m)).
    set (m1 := update_devices kept m).
    change (getCurrentDeviceId m1) with (getCurrentDeviceId m).
    assert (Hkept : persistedDevices m1 = kept) by done.
    case_bool_decide as Hcur.
    - intros Hset.
      assert (exists v, setCurrentDevice v m1 = (m', Resolved ())
                        /\ v = entry_id <$> head kept) as (v & Hv & ->).
      { destruct kept as [|first rest]; eauto. }
      apply setCurrentDevice_resolved in Hv as [Hc Hp].
      rewrite Hp, Hkept. by rewrite Hc.
    - intros [= <-]. by repeat split. }
  split; [|split; [exact Hresolved|split]].
  - intros Hall. unfold deleteDevice. fold (keeps deviceId).
    rewrite (filter_all _ _ Hall). by rewrite Nat.eqb_refl.
  - intros a b m' Hab Hne Hid Hcur Hdel.
    destruct (Hresolved m' Hdel) as (Hp & Hc & _).
    rewrite (Hc Hcur), Hp, Hab. unfold keeps. cbn [List.filter].
    destruct Hid as [-> | ->].
    + rewrite String.eqb_refl. cbn [negb].
      destruct (String.eqb (entry_id b) (entry_id a)) eqn:E; [|done].
      apply String.eqb_eq in E. congruence.
    + rewrite String.eqb_refl. cbn [negb].
      destruct (String.eqb (entry_id a) (entry_id b)) eqn:E; [|done].
      apply String.eqb_eq in E. congruence.
  - intros a Ha Hid Hcur. unfold deleteDevice. rewrite Ha.
    cbn [List.filter]. rewrite Hid, String.eqb_refl.
    cbn [negb length Nat.eqb].
    change (getCurrentDeviceId (update_devices [] m))
      with (getCurrentDeviceId m).
    rewrite bool_decide_eq_true_2 by done.
    eexists. split; [reflexivity|]. done.
Qed.

(** When the in-memory list holds the device that is to take over, as it
    does after any [getDevices] that reached the CLI, the deletion of the
    current device resolves. *)
Lemma deleteDevice_resolves deviceId first rest device m :
  List.filter (keeps deviceId) (persistedDevices m) = first :: rest ->
  length (first :: rest) <> length (persistedDevices m) ->
  getCurrentDeviceId m = Some deviceId ->
  truthy (Some (entry_id first)) = true ->
  findDevice (entry_id first) (devices m) = Some device ->
  exists m', deleteDevice deviceId m = (m', Resolved ()).
Proof.
  intros Hkept Hlen Hcur Htruthy Hfind. unfold deleteDevice.
  fold (keeps deviceId). rewrite Hkept.
  destruct (Nat.eqb_spec (length (first :: rest))
              (length (persistedDevices m))); [done|].
  change (getCurrentDeviceId (update_devices (first :: rest) m))
    with (getCurrentDeviceId m).
  rewrite bool_decide_eq_true_2 by done.
  unfold setCurrentDevice. rewrite Htruthy.
  cbn [update_devices set_config devices]. rewrite Hfind. eauto.
Qed.

(** When it does not, the entry is deleted from the store, the call
    rejects, and the current-device id keeps naming the deleted device. *)
Lemma deleteDevice_stale deviceId first rest m :
  List.filter (keeps deviceId) (persistedDevices m) = first :: rest ->
  length (first :: rest) <> length (persistedDevices m) ->
  getCurrentDeviceId m = Some deviceId ->
  truthy (Some (entry_id first)) = true ->
  findDevice (entry_id first) (devices m) = None ->
  deleteDevice deviceId m
  = (update_devices (first :: rest) m, Rejected (notFound (entry_id first))).
Proof.
  intros Hkept Hlen Hcur Htruthy Hfind. unfold deleteDevice.
  fold (keeps deviceId). rewrite Hkept.
  destruct (Nat.eqb_spec (length (first :: rest))
              (length (persistedDevices m))); [done|].
  change (getCurrentDeviceId (update_devices (first :: rest) m))
    with (getCurrentDeviceId m).
  rewrite bool_decide_eq_true_2 by done.
  unfold setCurrentDevice. rewrite Htruthy.
  cbn [update_devices set_config devices]. by rewrite Hfind.
Qed.

End DeleteDevice.

(** The lemma at work: a registry of two manual devices, loaded into
    memory, with the first one current; and a registry of one. *)
Lemma deleteDevice_current_moves_witness :
  let two :=
    DeviceExamples.loaded [DeviceExamples.host1; DeviceExamples.host2]
      (Some "0197-aaaa") in
  let one := DeviceExamples.loaded [DeviceExamples.host2] (Some "0197-bbbb") in
  Devices.deleteDevice "0197-zzzz" two
  = (two, JS.Rejected "Device with ID 0197-zzzz not found")
  /\ (exists m',
        Devices.deleteDevice "0197-aaaa" two = (m', JS.Resolved ())
        /\ Devices.persistedDevices m' = [DeviceExamples.host2]
        /\ Devices.getCurrentDeviceId m' = Some "0197-bbbb")
  /\ (exists m',
        Devices.deleteDevice "0197-bbbb" one = (m', JS.Resolved ())
        /\ Devices.persistedDevices m' = []
        /\ Devices.getCurrentDeviceId m' = None).
Proof.
  intros two one. split; [|split].
  - exact (proj1 (deleteDevice_current_moves "0197-zzzz" two) eq_refl).
  - destruct (deleteDevice_current_moves "0197-aaaa" two)
      as (_ & Hres & Htwo & _).
    eexists. split; [reflexivity|]. split.
    + exact (proj1 (Hres _ eq_refl)).
    + apply (Htwo DeviceExamples.host1 DeviceExamples.host2 _ eq_refl);
        [discriminate | by left | reflexivity | reflexivity].
  - destruct (deleteDevice_current_moves "0197-bbbb" one) as (_ & _ & _ & Hone).
    exact (Hone DeviceExamples.host2 eq_refl eq_refl eq_refl).
Defined.

(** C8 (the code departs from it). Deleting the current device from a
    registry with two manual devices does not leave the other one
    current when the in-memory list lacks the other one: the entry is
    deleted from the store, the call then rejects with the not-found
    error of [setCurrentDevice] for the device that was to take over, and
    the current-device id keeps naming the deleted device.  Two ways into
    such a state: the settings of an earlier session hold host1 and
    host2 with host1 current, and [getDevices] got no CLI, so that the
    in-memory list was never filled ([unlisted]); or the store held
    host1, which was listed and selected, and host2 was added afterwards
    ([addedLater]). *)
Theorem deleteDevice_current_stays_deleted :
  let deleted :=
    Devices.deleteDevice "0197-aaaa" DeviceExamples.unlisted in
  let deleted' :=
    Devices.deleteDevice "0197-aaaa" DeviceExamples.addedLater in
  (Devices.persistedDevices DeviceExamples.unlisted
   = [DeviceExamples.host1; DeviceExamples.host2]
   /\ Devices.getCurrentDeviceId DeviceExamples.unlisted = Some "0197-aaaa"
   /\ snd deleted = JS.Rejected "Device with ID 0197-bbbb not found"
   /\ Devices.persistedDevices (fst deleted) = [DeviceExamples.host2]
   /\ Devices.getCurrentDeviceId (fst deleted) = Some "0197-aaaa"
   /\ Devices.getCurrentDeviceId (fst deleted) <> Some "0197-bbbb")
  /\ (Devices.persistedDevices DeviceExamples.addedLater
      = [DeviceExamples.host1; DeviceExamples.host2]
      /\ Devices.getCurrentDeviceId DeviceExamples.addedLater
         = Some "0197-aaaa"
      /\ snd deleted' = JS.Rejected "Device with ID 0197-bbbb not found"
      /\ Devices.persistedDevices (fst deleted') = [DeviceExamples.host2]
      /\ Devices.getCurrentDeviceId (fst deleted') = Some "0197-aaaa"
      /\ Devices.getCurrentDeviceId (fst deleted') <> Some "0197-bbbb").
Proof. by vm_compute. Qed.

Section ProviderFacts.

Import JS.

Lemma split_nonempty c s : split c s <> [].
Proof.
  destruct s as [|a s]; simpl; [done|].
  destruct (Ascii.eqb a c); [done|]. by destruct (split c s).
Qed.

(** A string that includes the separator splits into at least two
    pieces, so the destructuring in [ensureDebugPort] always binds both
    names. *)
Lemma split_includes c s :
  includes c s = true ->
  exists host port rest, split c s = host :: port :: rest.
Proof.
  induction s as [|a s IH]; simpl; [done|].
  destruct (Ascii.eqb a c).
  - intros _. pose proof (split_nonempty c s).
    destruct (split c s) as [|p rest]; [done|]. eauto.
  - intros H. destruct (IH H) as (host & port & rest & ->). eauto.
Qed.

Lemma ensureDebugPort_appends address port :
  includes ":" address = false ->
  Provider.ensureDebugPort address port
  = address +:+ ":" +:+ Number_toString port.
Proof. intros H. unfold Provider.ensureDebugPort. by rewrite H. Qed.

(** The comparison [port === port.toString()] is between the piece of the
    address and itself, so an address with a colon comes back as it is,
    whatever the required port. *)
Lemma ensureDebugPort_keeps address port :
  includes ":" address = true ->
  Provider.ensureDebugPort address port = address.
Proof.
  intros H. unfold Provider.ensureDebugPort. rewrite H.
  destruct (split_includes _ _ H) as (host & piece & rest & ->).
  unfold String_toString. by rewrite String.eqb_refl.
Qed.

Lemma legacy_ensureDebugPort_appends address :
  includes ":" address = false ->
  LegacyProvider.ensureDebugPort address = address +:+ ":4242".
Proof. intros H. unfold LegacyProvider.ensureDebugPort. by rewrite H. Qed.

Lemma split_two_includes c s host port rest :
  split c s = host :: port :: rest -> includes c s = true.
Proof.
  revert host. induction s as [|a s IH]; intros host; simpl; [done|].
  destruct (Ascii.eqb a c); [done|].
  destruct (split c s) as [|piece pieces] eqn:Hsp; [done|].
  intros [= _ ->]. by eapply IH.
Qed.

Lemma legacy_ensureDebugPort_normalizes address host port rest :
  split ":" address = host :: port :: rest ->
  port <> "4242" ->
  LegacyProvider.ensureDebugPort address = host +:+ ":4242".
Proof.
  intros Hs Hp. unfold LegacyProvider.ensureDebugPort.
  rewrite (split_two_includes _ _ _ _ _ Hs), Hs.
  change (Number_toString LegacyProvider.DEFAULT_DEBUG_PORT) with "4242".
  destruct (String.eqb port "4242") eqn:E; [|done].
  by apply String.eqb_eq in E.
Qed.

End ProviderFacts.

(** C3 (the code departs from it). For an address without a colon the
    required port is appended: "10.0.0.5" with 4242 gives "10.0.0.5:4242".
    For "10.0.0.5:9999" with 4242 the provider returns "10.0.0.5:9999", not
    "10.0.0.5:4242": the existing port is kept.  The earlier revision of the
    function returns "10.0.0.5:4242" there. *)
Theorem ensureDebugPort_keeps_existing_port :
  Provider.ensureDebugPort "10.0.0.5" 4242 = "10.0.0.5:4242"
  /\ Provider.ensureDebugPort "10.0.0.5:9999" 4242 = "10.0.0.5:9999"
  /\ Provider.ensureDebugPort "10.0.0.5:9999" 4242 <> "10.0.0.5:4242"
  /\ LegacyProvider.ensureDebugPort "10.0.0.5:9999" = "10.0.0.5:4242".
Proof. by vm_compute. Qed.

(** C9 (the code departs from it). For a request on a folder whose
    wendy.json cannot be read or parsed, the failure is logged and then both
    session resolution and debug-configuration provision reject with a
    [TypeError]: [edgeConfig] is [undefined] when its [language] is read, so
    the request never reaches the Swift branch. *)
Theorem unreadable_wendy_json_rejects (host : Provider.Host)
    (description : string) (folder : Provider.WorkspaceFolder)
    (debugConfiguration : Provider.DebugConfiguration) :
  let logged :=
    Provider.Log
      ("Could not read or parse wendy.json at "
         +:+ Provider.path_join host (Provider.uri_fsPath folder) "wendy.json"
         +:+ ": " +:+ description) in
  let thrown :=
    Provider.TypeError
      "Cannot read properties of undefined (reading 'language')" in
  Provider.resolveDebugConfigurationWithSubstitutedVariables host
    (Provider.Unreadable description) (Some folder) debugConfiguration
  = (Provider.RejectedWith thrown, [logged])
  /\ Provider.provideDebugConfigurations host
       (Provider.Unreadable description) (Some folder)
     = (Provider.RejectedWith thrown,
        [Provider.Log "Providing Wendy debug configurations..."; logged]).
Proof. done. Qed.

(** With a wendy.json that parses to an object naming no language, the
    request is routed to the Swift resolver. *)
Lemma parsed_wendy_json_routes_to_swift (host : Provider.Host)
    (folder : Provider.WorkspaceFolder)
    (debugConfiguration : Provider.DebugConfiguration) :
  Provider.resolveDebugConfigurationWithSubstitutedVariables host
    (Provider.Parsed (Provider.JObject [])) (Some folder) debugConfiguration
  = Provider.resolveDebugConfigurationWithSubstitutedVariablesSwift host
      folder debugConfiguration.
Proof.
  unfold Provider.resolveDebugConfigurationWithSubstitutedVariables. cbn.
  by destruct (Provider.resolveDebugConfigurationWithSubstitutedVariablesSwift
                 host folder debugConfiguration).
Qed.

(* ===================================================================== *)
(** * Further properties of the workspace context                         *)
(* ===================================================================== *)

Section WorkspacePaths.

Import Workspace.

Lemma markFoldersReady_fields w :
  _initialFoldersReady (markFoldersReady w) = true
  /\ _initialFolderPaths (markFoldersReady w) = _initialFolderPaths w
  /\ _processedFolderPaths (markFoldersReady w) = _processedFolderPaths w
  /\ folders (markFoldersReady w) = folders w
  /\ hasEdgeFolder (markFoldersReady w) = hasEdgeFolder w.
Proof.
  destruct w as [fs he r t ip pp g tp ef].
  unfold markFoldersReady, fireFoldersReady, generateLaunchConfigurations.
  by destruct r, g, t.
Qed.

Lemma generateLaunchConfigurations_fields w :
  _initialFoldersReady (generateLaunchConfigurations w) = _initialFoldersReady w
  /\ _initialFolderPaths (generateLaunchConfigurations w) = _initialFolderPaths w
  /\ _processedFolderPaths (generateLaunchConfigurations w)
     = _processedFolderPaths w
  /\ folders (generateLaunchConfigurations w) = folders w
  /\ hasEdgeFolder (generateLaunchConfigurations w) = hasEdgeFolder w.
Proof.
  unfold generateLaunchConfigurations.
  by destruct (_generatedConfigurations w).
Qed.

(** What [getOrCreateFolderContext] does to the fields the barrier reads. *)
Lemma getOrCreateFolderContext_fields f w :
  let w' := fst (getOrCreateFolderContext f w) in
  _initialFolderPaths w' = _initialFolderPaths w
  /\ match findFolder f (folders w) with
     | Some _ =>
         _processedFolderPaths w' = _processedFolderPaths w
         /\ _initialFoldersReady w' = _initialFoldersReady w
         /\ folders w' = folders w
         /\ hasEdgeFolder w' = true
     | None =>
         _processedFolderPaths w'
         = _processedFolderPaths w ∪ {[Swift.fsPath f]}
         /\ folders w' = folders w ++ [{| swift := f |}]
         /\ hasEdgeFolder w' = hasEdgeFolder w
         /\ _initialFoldersReady w'
            = if bool_decide (Swift.fsPath f ∈ _initialFolderPaths w)
                 && ((size (_initialFolderPaths w) =? 0)%nat
                     || (size (_initialFolderPaths w)
                         =? size (_processedFolderPaths w
                                    ∪ {[Swift.fsPath f]}))%nat)
              then true else _initialFoldersReady w
     end.
Proof.
  unfold getOrCreateFolderContext.
  destruct (findFolder f (folders w)) as [existing|]; cbn [fst]; [done|].
  cbn [set_folders set_processedFolderPaths _initialFolderPaths
       _processedFolderPaths].
  match goal with
  | |- context [if bool_decide ?P then checkAllFoldersProcessed ?x else _] =>
      set (w1 := x); destruct (bool_decide P)
  end; [|done].
  unfold checkAllFoldersProcessed.
  change (_initialFolderPaths w1) with (_initialFolderPaths w).
  change (_processedFolderPaths w1)
    with (_processedFolderPaths w ∪ {[Swift.fsPath f]}).
  cbn [andb].
  destruct (_ || _); [|done].
  destruct (markFoldersReady_fields w1) as (-> & -> & -> & -> & ->). done.
Qed.

Lemma find_none_not_in f l :
  findFolder f l = None ->
  Swift.objectId f ∉ map (fun c => Swift.objectId (swift c)) l.
Proof.
  unfold findFolder. induction l as [|c l IH]; simpl; [intros _; apply not_elem_of_nil|].
  unfold Swift.same at 1.
  destruct (Nat.eqb_spec (Swift.objectId (swift c)) (Swift.objectId f)) as [E|E];
    [done|].
  intros H. apply not_elem_of_cons. split; [congruence | by apply IH].
Qed.

Lemma spliceOut_sublist f l : spliceOut f l `sublist_of` l.
Proof.
  induction l as [|c l IH]; simpl; [done|].
  destruct (Swift.same (swift c) f); [by apply sublist_cons | by apply sublist_skip].
Qed.

(** The fields after one event: the initial paths are never written; the
    processed paths stay or gain the event's folder path; the list of
    contexts stays, gains a context for the event's folder, or (on a
    [remove] that is not blocked) loses one. *)
Lemma step_fields w ev :
  let w' := step w ev in
  _initialFolderPaths w' = _initialFolderPaths w
  /\ _processedFolderPaths w ⊆ _processedFolderPaths w'
  /\ (hasEdgeFolder w = true -> hasEdgeFolder w' = true)
  /\ (_initialFoldersReady w = true -> _initialFoldersReady w' = true)
  /\ ((folders w' = folders w /\ _processedFolderPaths w' = _processedFolderPaths w)
      \/ (exists f, findFolder f (folders w) = None
                    /\ folders w' = folders w ++ [{| swift := f |}]
                    /\ _processedFolderPaths w'
                       = _processedFolderPaths w ∪ {[Swift.fsPath f]})
      \/ (exists f, hasEdgeFolder w = false
                    /\ folders w' = spliceOut f (folders w)
                    /\ _processedFolderPaths w' = _processedFolderPaths w)).
Proof.
  assert (Hcreate : forall f c,
    let w' := emit (DidChangePackage c) (fst (getOrCreateFolderContext f w)) in
    _initialFolderPaths w' = _initialFolderPaths w
    /\ _processedFolderPaths w ⊆ _processedFolderPaths w'
    /\ (hasEdgeFolder w = true -> hasEdgeFolder w' = true)
    /\ (_initialFoldersReady w = true -> _initialFoldersReady w' = true)
    /\ ((folders w' = folders w
         /\ _processedFolderPaths w' = _processedFolderPaths w)
        \/ (exists f, findFolder f (folders w) = None
                      /\ folders w' = folders w ++ [{| swift := f |}]
                      /\ _processedFolderPaths w'
                         = _processedFolderPaths w ∪ {[Swift.fsPath f]})
        \/ (exists f, hasEdgeFolder w = false
                      /\ folders w' = spliceOut f (folders w)
                      /\ _processedFolderPaths w' = _processedFolderPaths w))).
  { intros f c w'. subst w'.
    pose proof (getOrCreateFolderContext_fields f w) as [Hi Hrest].
    cbn [emit _initialFolderPaths _processedFolderPaths hasEdgeFolder
         _initialFoldersReady folders].
    destruct (findFolder f (folders w)) as [existing|] eqn:Hfind.
    - destruct Hrest as (Hp & Hr & Hf & Hh).
      rewrite Hi, Hp, Hr, Hf, Hh.
      split; [done|]. split; [done|]. split; [done|]. split; [done|].
      by left.
    - destruct Hrest as (Hp & Hf & Hh & Hr).
      rewrite Hi, Hp, Hr, Hf, Hh.
      split; [done|]. split; [apply union_subseteq_l|]. split; [done|].
      split; [intros ->; by destruct (_ && _)|].
      right; left. by exists f. }
  assert (Hsame : forall w',
    _initialFolderPaths w' = _initialFolderPaths w ->
    _processedFolderPaths w' = _processedFolderPaths w ->
    folders w' = folders w ->
    (hasEdgeFolder w = true -> hasEdgeFolder w' = true) ->
    (_initialFoldersReady w = true -> _initialFoldersReady w' = true) ->
    _initialFolderPaths w' = _initialFolderPaths w
    /\ _processedFolderPaths w ⊆ _processedFolderPaths w'
    /\ (hasEdgeFolder w = true -> hasEdgeFolder w' = true)
    /\ (_initialFoldersReady w = true -> _initialFoldersReady w' = true)
    /\ ((folders w' = folders w
         /\ _processedFolderPaths w' = _processedFolderPaths w)
        \/ (exists f, findFolder f (folders w) = None
                      /\ folders w' = folders w ++ [{| swift := f |}]
                      /\ _processedFolderPaths w'
                         = _processedFolderPaths w ∪ {[Swift.fsPath f]})
        \/ (exists f, hasEdgeFolder w = false
                      /\ folders w' = spliceOut f (folders w)
                      /\ _processedFolderPaths w' = _processedFolderPaths w))).
  { intros w' Hi Hp Hf Hh Hr.
    split; [done|]. split; [by rewrite Hp|]. split; [done|]. split; [done|].
    by left. }
  destruct ev as [e| |]; cbn [step].
  - unfold handleFolderEvent.
    destruct (folder e) as [f|]; [|by apply Hsame].
    destruct (operation e); try (by apply Hsame).
    + destruct (getOrCreateFolderContext f w) as [w1 c] eqn:Hg.
      specialize (Hcreate f c). by rewrite Hg in Hcreate.
    + destruct (findFolder f (folders w)) as [c|]; [|by apply Hsame].
      destruct (hasEdgeFolder w) eqn:Hh; cbn [negb]; [by apply Hsame|].
      split; [done|]. split; [done|]. split; [done|]. split; [done|].
      right; right. by exists f.
    + destruct (getOrCreateFolderContext f w) as [w1 c] eqn:Hg.
      specialize (Hcreate f c). by rewrite Hg in Hcreate.
  - destruct (timerPending w); [|by apply Hsame].
    destruct (markFoldersReady_fields (timerRan w)) as (Hr & Hi & Hp & Hf & Hh).
    apply Hsame; try done. by rewrite Hh.
  - destruct (generateLaunchConfigurations_fields w) as (Hr & Hi & Hp & Hf & Hh).
    apply Hsame; try done; [by rewrite Hh | by rewrite Hr].
Qed.

Lemma run_cons w ev evs : run w (ev :: evs) = run (step w ev) evs.
Proof. done. Qed.

(** X2. The snapshot of the initial folder paths is never written after
    construction, and the set of processed paths only grows, whatever
    happens to the context. *)
Theorem paths_only_grow w evs :
  _initialFolderPaths (run w evs) = _initialFolderPaths w
  /\ _processedFolderPaths w ⊆ _processedFolderPaths (run w evs).
Proof.
  revert w. induction evs as [|ev evs IH]; intros w; [done|].
  rewrite run_cons. destruct (IH (step w ev)) as [Hi Hp].
  destruct (step_fields w ev) as (Hi' & Hp' & _).
  split; [by rewrite Hi | by etrans].
Qed.

Lemma spliceOut_ids f l x :
  x ∈ map (fun c => Swift.objectId (swift c)) (spliceOut f l) ->
  x ∈ map (fun c => Swift.objectId (swift c)) l.
Proof.
  induction l as [|c l IH]; simpl; [done|].
  destruct (Swift.same (swift c) f); simpl.
  - intros H. by apply elem_of_cons; right.
  - intros [->|H]%elem_of_cons; apply elem_of_cons; auto.
Qed.

Lemma spliceOut_NoDup f l :
  NoDup (map (fun c => Swift.objectId (swift c)) l) ->
  NoDup (map (fun c => Swift.objectId (swift c)) (spliceOut f l)).
Proof.
  induction l as [|c l IH]; simpl; [done|].
  intros [Hn Hd]%NoDup_cons.
  destruct (Swift.same (swift c) f); simpl; [done|].
  apply NoDup_cons. split; [|by apply IH].
  intros H. by apply Hn, (spliceOut_ids f).
Qed.

Lemma spliceOut_elem f l c : c ∈ spliceOut f l -> c ∈ l.
Proof. intros H. eapply elem_of_sublist; [exact H | apply spliceOut_sublist]. Qed.

(** X3. At every moment the context holds at most one folder context per
    Swift folder context, and the path of every folder context it holds has
    been marked as processed. *)
Theorem folder_contexts_unique workspaceFolders evs :
  let w := run (construct workspaceFolders) evs in
  NoDup (map (fun c => Swift.objectId (swift c)) (folders w))
  /\ (forall c, c ∈ folders w ->
                Swift.fsPath (swift c) ∈ _processedFolderPaths w).
Proof.
  intros w. subst w.
  assert (Hgen : forall w,
    NoDup (map (fun c => Swift.objectId (swift c)) (folders w))
    /\ (forall c, c ∈ folders w ->
                  Swift.fsPath (swift c) ∈ _processedFolderPaths w) ->
    NoDup (map (fun c => Swift.objectId (swift c)) (folders (run w evs)))
    /\ (forall c, c ∈ folders (run w evs) ->
                  Swift.fsPath (swift c) ∈ _processedFolderPaths (run w evs))).
  { induction evs as [|ev evs IH]; intros w Hw; [done|].
    rewrite run_cons. apply IH. destruct Hw as [Hd Hc].
    destruct (step_fields w ev)
      as (_ & _ & _ & _ & [[Hf Hp]|[(f & Hnone & Hf & Hp)|(f & _ & Hf & Hp)]]);
      rewrite Hf, Hp.
    - done.
    - split.
      + rewrite map_app. apply NoDup_app. split; [done|]. split.
        * intros x Hx [->|[]%elem_of_nil]%elem_of_cons.
          by apply (find_none_not_in f (folders w)).
        * apply NoDup_singleton.
      + intros c [Hin|Hin]%elem_of_app.
        * apply elem_of_union; left. by apply Hc.
        * apply list_elem_of_singleton in Hin as ->.
          apply elem_of_union; right. by apply elem_of_singleton.
    - split; [by apply spliceOut_NoDup|].
      intros c Hin. by apply Hc, (spliceOut_elem f). }
  apply Hgen. split; [apply NoDup_nil_2 | by intros c []%elem_of_nil].
Qed.

(** X4. Once an [add] or [packageUpdated] event has found its folder
    context already present, no later [remove] event takes a folder context
    away: the list of contexts only gets longer at its end. *)
Theorem remove_blocked_after_reuse w evs :
  hasEdgeFolder w = true ->
  hasEdgeFolder (run w evs) = true
  /\ folders w `prefix_of` folders (run w evs).
Proof.
  revert w. induction evs as [|ev evs IH]; intros w Hh; [done|].
  rewrite run_cons.
  destruct (step_fields w ev) as (_ & _ & Hh' & _ & Hf).
  destruct (IH (step w ev) (Hh' Hh)) as [Hh'' Hpre].
  split; [done|]. etrans; [|exact Hpre].
  destruct Hf as [[-> _]|[(f & _ & -> & _)|(f & Hfalse & _)]];
    [done | by apply prefix_app_r | congruence].
Qed.

(** What a folder event does to the sets of paths and to the ready flag. *)
Lemma handleFolderEvent_paths e w :
  let w' := handleFolderEvent e w in
  _initialFolderPaths w' = _initialFolderPaths w
  /\ ((_processedFolderPaths w' = _processedFolderPaths w
       /\ _initialFoldersReady w' = _initialFoldersReady w)
      \/ (exists f,
            folder e = Some f
            /\ _processedFolderPaths w'
               = _processedFolderPaths w ∪ {[Swift.fsPath f]}
            /\ _initialFoldersReady w'
               = if bool_decide (Swift.fsPath f ∈ _initialFolderPaths w)
                    && ((size (_initialFolderPaths w) =? 0)%nat
                        || (size (_initialFolderPaths w)
                            =? size (_processedFolderPaths w
                                       ∪ {[Swift.fsPath f]}))%nat)
                 then true else _initialFoldersReady w)).
Proof.
  assert (Hcreate : forall f c,
    folder e = Some f ->
    let w' := emit (DidChangePackage c) (fst (getOrCreateFolderContext f w)) in
    _initialFolderPaths w' = _initialFolderPaths w
    /\ ((_processedFolderPaths w' = _processedFolderPaths w
         /\ _initialFoldersReady w' = _initialFoldersReady w)
        \/ (exists f,
              folder e = Some f
              /\ _processedFolderPaths w'
                 = _processedFolderPaths w ∪ {[Swift.fsPath f]}
              /\ _initialFoldersReady w'
                 = if bool_decide (Swift.fsPath f ∈ _initialFolderPaths w)
                      && ((size (_initialFolderPaths w) =? 0)%nat
                          || (size (_initialFolderPaths w)
                              =? size (_processedFolderPaths w
                                         ∪ {[Swift.fsPath f]}))%nat)
                   then true else _initialFoldersReady w))).
  { intros f c Hf w'. subst w'.
    pose proof (getOrCreateFolderContext_fields f w) as [Hi H].
    cbn [emit _initialFolderPaths _processedFolderPaths _initialFoldersReady].
    split; [done|].
    destruct (findFolder f (folders w)).
    - destruct H as (Hp & Hr & _). by left.
    - destruct H as (Hp & _ & _ & Hr). right. by exists f. }
  unfold handleFolderEvent.
  destruct (folder e) as [f|] eqn:Hf; [|split; [done | by left]].
  destruct (operation e); try (split; [done | by left]).
  - destruct (getOrCreateFolderContext f w) as [w1 c] eqn:Hg.
    specialize (Hcreate f c eq_refl). by rewrite Hg in Hcreate.
  - destruct (findFolder f (folders w)); [|split; [done | by left]].
    destruct (hasEdgeFolder w); (split; [done | by left]).
  - destruct (getOrCreateFolderContext f w) as [w1 c] eqn:Hg.
    specialize (Hcreate f c eq_refl). by rewrite Hg in Hcreate.
Qed.

(** X1. When only folder events arrive, and all of them for folders of the
    initial set, the barrier is up exactly when every initial folder has
    been processed (and at least one has). *)
Theorem barrier_exact_for_initial_folders workspaceFolders
    (es : list FolderEvent) :
  (forall e f, e ∈ es -> folder e = Some f ->
               Swift.fsPath f ∈ _initialFolderPaths (construct workspaceFolders)) ->
  let w := run (construct workspaceFolders) (map FolderEventArrives es) in
  _initialFoldersReady w = true
  <-> (_initialFolderPaths w ⊆ _processedFolderPaths w
       /\ _processedFolderPaths w <> ∅).
Proof.
  intros Hes w. subst w.
  set (initial := _initialFolderPaths (construct workspaceFolders)) in *.
  assert (Hgen : forall w,
    _initialFolderPaths w = initial ->
    _processedFolderPaths w ⊆ initial ->
    (_initialFoldersReady w = true
     <-> (initial ⊆ _processedFolderPaths w /\ _processedFolderPaths w <> ∅)) ->
    let w' := run w (map FolderEventArrives es) in
    _initialFoldersReady w' = true
    <-> (_initialFolderPaths w' ⊆ _processedFolderPaths w'
         /\ _processedFolderPaths w' <> ∅)).
  { clearbody initial. induction es as [|e es IH]; intros w Hi Hsub Hiff.
    - cbn. by rewrite Hi.
    - cbn [map]. rewrite run_cons. cbn [step].
      destruct (handleFolderEvent_paths e w)
        as [Hi' [[Hp Hr]|(f & Hf & Hp & Hr)]].
      + apply IH.
        * intros e' f He'. apply Hes. by apply elem_of_cons; right.
        * by rewrite Hi'.
        * by rewrite Hp.
        * by rewrite Hp, Hr.
      + assert (Hin : Swift.fsPath f ∈ initial)
          by (apply (Hes e f); [by apply elem_of_cons; left | done]).
        set (processed' := _processedFolderPaths w ∪ {[Swift.fsPath f]}) in *.
        assert (Hsub' : processed' ⊆ initial).
        { apply union_subseteq. split; [done | by apply singleton_subseteq_l]. }
        assert (Hne : processed' <> ∅).
        { intros Hempty.
          apply (not_elem_of_empty (C:=gset string) (Swift.fsPath f)).
          rewrite <- Hempty. apply elem_of_union; right.
          by apply elem_of_singleton. }
        apply IH.
        * intros e' f' He'. apply Hes. by apply elem_of_cons; right.
        * by rewrite Hi'.
        * by rewrite Hp.
        * rewrite Hp, Hr, Hi. rewrite bool_decide_eq_true_2 by done.
          cbn [andb].
          assert (size initial <> 0%nat) as Hpos.
          { intros H0. apply size_empty_iff, leibniz_equiv in H0.
            rewrite H0 in Hin. by apply not_elem_of_empty in Hin. }
          destruct (Nat.eqb_spec (size initial) 0) as [?|_]; [done|].
          cbn [orb].
          destruct (Nat.eqb_spec (size initial) (size processed')) as [E|E].
          -- split; [|done]. intros _. split; [|done].
             by apply (size_test_exact initial processed' Hsub').
          -- split.
             ++ intros Hready. apply Hiff in Hready as [Hcov _].
                exfalso. apply E.
                apply (size_test_exact initial processed' Hsub').
                etrans; [exact Hcov | apply union_subseteq_l].
             ++ intros [Hcov _]. exfalso. apply E.
                by apply (size_test_exact initial processed' Hsub'). }
  apply Hgen; [done | done |].
  cbn. split; [done|]. by intros [_ H].
Qed.

End WorkspacePaths.



(* ===================================================================== *)
(** * The generation pass                                                 *)
(* ===================================================================== *)

Section GenerationPassFacts.

Import Launch Workspace.

Variable TAG : string.
Variable suffix : Swift.FolderContext -> string * string.
Variable isEdgeProject : string -> bool.

(** One run of the synthesizer inside the pass: the store keeps every list
    as a suffix, other folders are untouched, and either nothing was
    written and the result is [false], or the folder now holds a descriptor
    of the orchestrator's kind. *)
Lemma make_in_pass context st :
  let r := makeDebugConfigurations TAG suffix context st in
  (forall p, exists added,
      getConfigurations (store r) p = added ++ getConfigurations st p)
  /\ (forall p, p <> Swift.fsPath context ->
                (store r : gmap string (list DebugConfiguration)) !! p
                = (st : gmap string (list DebugConfiguration)) !! p)
  /\ ((store r = st /\ result r = false)
      \/ existsb (isEdgeConfiguration TAG)
           (getConfigurations (store r) (Swift.fsPath context)) = true).
Proof.
  intros r. subst r.
  destruct (make_cases TAG suffix context st)
    as [(Hold & Hr & Hs & Hu & _)
       |[(Hold & Hnew & Hr & Hs & Hu & _)
        |(Hold & Hnew & Hr & Hs & Hu)]]; rewrite Hs.
  - split; [by exists []|]. split; [done|]. by left.
  - split; [by exists []|]. split; [done|]. by left.
  - split; [|split].
    + intros p. destruct (decide (Swift.fsPath context = p)) as [<-|Hne].
      * rewrite getConfigurations_update. by eexists.
      * rewrite getConfigurations_update_ne by done. by exists [].
    + intros p Hne. unfold updateConfigurations. by rewrite lookup_insert_ne.
    + right. rewrite getConfigurations_update.
      apply existsb_tagged_app; [done | apply created_all_tagged].
Qed.

Lemma existsb_suffix (added old : list DebugConfiguration) :
  existsb (isEdgeConfiguration TAG) old = true ->
  existsb (isEdgeConfiguration TAG) (added ++ old) = true.
Proof. intros H. rewrite existsb_app, H. apply orb_true_r. Qed.

Lemma generateForContexts_facts folder contexts st matchFound :
  let '(st', effs, found) :=
    generateForContexts TAG suffix folder contexts st matchFound in
  (forall p, exists added,
      getConfigurations st' p = added ++ getConfigurations st p)
  /\ (forall p, p <> uri_fsPath folder ->
                (st' : gmap string (list DebugConfiguration)) !! p
                = (st : gmap string (list DebugConfiguration)) !! p)
  /\ ((st' = st /\ RefreshPrompt ∉ effs)
      \/ existsb (isEdgeConfiguration TAG)
           (getConfigurations st' (uri_fsPath folder)) = true).
Proof.
  revert st matchFound.
  induction contexts as [|c contexts IH]; intros st matchFound; cbn [generateForContexts].
  - split; [by exists []|]. split; [done|]. left. split; [done|].
    apply not_elem_of_nil.
  - destruct (String.eqb_spec (Swift.fsPath (swift c)) (uri_fsPath folder))
      as [Hpath|Hpath]; cbn [negb]; [|apply IH].
    pose proof (make_in_pass (swift c) st) as (Hsuf & Hframe & Hwrote).
    set (r := makeDebugConfigurations TAG suffix (swift c) st) in *.
    specialize (IH (store r) true).
    destruct (generateForContexts TAG suffix folder contexts (store r) true)
      as [[st' later] found].
    destruct IH as (Hsuf' & Hframe' & Hwrote').
    split; [|split].
    + intros p. destruct (Hsuf p) as [a1 H1], (Hsuf' p) as [a2 H2].
      exists (a2 ++ a1). by rewrite H2, H1, app_assoc.
    + intros p Hne. rewrite Hframe' by done. apply Hframe. by rewrite Hpath.
    + destruct Hwrote as [[Hsame Hres]|Hex].
      * rewrite Hres. destruct Hwrote' as [[Hsame' Hno]|Hex'].
        -- left. split; [congruence|].
           intros [H|H]%elem_of_app; [|done].
           by apply list_elem_of_singleton in H.
        -- by right.
      * right. destruct (Hsuf' (uri_fsPath folder)) as [a2 ->].
        apply existsb_suffix. by rewrite <- Hpath.
Qed.

Lemma generateForFolders_facts workspaceFolders contexts st :
  let '(st', effs) :=
    generateForFolders TAG suffix isEdgeProject workspaceFolders contexts st in
  (forall p, exists added,
      getConfigurations st' p = added ++ getConfigurations st p)
  /\ (forall p, p ∉ map uri_fsPath workspaceFolders ->
                (st' : gmap string (list DebugConfiguration)) !! p
                = (st : gmap string (list DebugConfiguration)) !! p)
  /\ ((st' = st /\ RefreshPrompt ∉ effs)
      \/ exists folder,
           folder ∈ workspaceFolders
           /\ existsb (isEdgeConfiguration TAG)
                (getConfigurations st' (uri_fsPath folder)) = true).
Proof.
  revert st.
  induction workspaceFolders as [|folder rest IH]; intros st;
    cbn [generateForFolders].
  - split; [by exists []|]. split; [done|]. left. split; [done|].
    apply not_elem_of_nil.
  - destruct (isEdgeProject (uri_fsPath folder)); cbn [negb].
    + pose proof (generateForContexts_facts folder contexts st false) as Hc.
      destruct (generateForContexts TAG suffix folder contexts st false)
        as [[st1 inner] found].
      destruct Hc as (Hsuf & Hframe & Hwrote).
      specialize (IH st1).
      destruct (generateForFolders TAG suffix isEdgeProject rest contexts st1)
        as [st2 later].
      destruct IH as (Hsuf' & Hframe' & Hwrote').
      split; [|split].
      * intros p. destruct (Hsuf p) as [a1 H1], (Hsuf' p) as [a2 H2].
        exists (a2 ++ a1). by rewrite H2, H1, app_assoc.
      * intros p Hp. cbn [map] in Hp. apply not_elem_of_cons in Hp as [Hne Hp].
        rewrite Hframe' by done. by apply Hframe.
      * destruct Hwrote as [[Hsame Hno]|Hex].
        -- destruct Hwrote' as [[Hsame' Hno']|(f & Hf & Hex')].
           ++ left. split; [congruence|].
              intros [[=]|H]%elem_of_cons.
              apply elem_of_app in H as [H|H]; [done|].
              apply elem_of_app in H as [H|H]; [|done].
              destruct found; [by apply elem_of_nil in H|].
              by apply list_elem_of_singleton in H.
           ++ right. exists f. split; [by apply elem_of_cons; right | done].
        -- right. exists folder. split; [by apply elem_of_cons; left|].
           destruct (Hsuf' (uri_fsPath folder)) as [a2 ->].
           by apply existsb_suffix.
    + specialize (IH st).
      destruct (generateForFolders TAG suffix isEdgeProject rest contexts st)
        as [st2 later].
      destruct IH as (Hsuf' & Hframe' & Hwrote').
      split; [done|]. split.
      * intros p Hp. cbn [map] in Hp. apply not_elem_of_cons in Hp as [_ Hp].
        by apply Hframe'.
      * destruct Hwrote' as [?|(f & Hf & Hex')]; [by left|].
        right. exists f. split; [by apply elem_of_cons; right | done].
Qed.

(** X5. Whatever the generation pass does, it only puts entries in front:
    every folder's stored list keeps its former content as a suffix, and the
    setting of a folder that is not a workspace folder is not touched. *)
Theorem generationPass_only_prepends workspaceFolders w st :
  let st' := fst (generationPass TAG suffix isEdgeProject workspaceFolders w st) in
  (forall p, exists added,
      getConfigurations st' p = added ++ getConfigurations st p)
  /\ (forall p, p ∉ default [] (option_map (map uri_fsPath) workspaceFolders) ->
                (st' : gmap string (list DebugConfiguration)) !! p
                = (st : gmap string (list DebugConfiguration)) !! p).
Proof.
  unfold generationPass.
  destruct (hasAnyEdgeDebugConfiguration _ _ _);
    [split; [by exists [] | done]|].
  destruct workspaceFolders as [l|]; [|split; [by exists [] | done]].
  pose proof (generateForFolders_facts l (folders w) st) as H.
  destruct (generateForFolders TAG suffix isEdgeProject l (folders w) st)
    as [st' effs].
  destruct H as (Hsuf & Hframe & _). by split.
Qed.

Lemma generationPass_outcome workspaceFolders w st :
  let pass := generationPass TAG suffix isEdgeProject workspaceFolders w st in
  (fst pass = st /\ RefreshPrompt ∉ snd pass)
  \/ hasAnyEdgeDebugConfiguration TAG
       (option_map (map uri_fsPath) workspaceFolders) (fst pass) = true.
Proof.
  unfold generationPass.
  destruct (hasAnyEdgeDebugConfiguration TAG
              (option_map (map uri_fsPath) workspaceFolders) st) eqn:Hany;
    [by right|].
  destruct workspaceFolders as [l|];
    [|left; split; [done | apply not_elem_of_nil]].
  pose proof (generateForFolders_facts l (folders w) st) as H.
  destruct (generateForFolders TAG suffix isEdgeProject l (folders w) st)
    as [st' effs].
  destruct H as (_ & _ & [[-> Hno]|(f & Hf & Hex)]); [by left|]. right.
  cbn. apply existsb_exists. exists (uri_fsPath f).
  split; [|done]. apply in_map. by apply list_elem_of_In.
Qed.

(** X6. A second generation pass right after a first one leaves the store
    as the first one left it and asks for no reload: either the first pass
    wrote nothing, or the second one is stopped by the check for an existing
    descriptor of the orchestrator's kind. *)
Theorem generationPass_twice workspaceFolders w st :
  let first := generationPass TAG suffix isEdgeProject workspaceFolders w st in
  let second :=
    generationPass TAG suffix isEdgeProject workspaceFolders w (fst first) in
  fst second = fst first /\ RefreshPrompt ∉ snd second.
Proof.
  intros first second. subst second.
  destruct (generationPass_outcome workspaceFolders w st) as [[Hs Hno]|Hany];
    fold first in Hs, Hno || fold first in Hany.
  - rewrite Hs. by fold first.
  - unfold generationPass at 1 2. rewrite Hany.
    split; [done | apply not_elem_of_nil].
Qed.

End GenerationPassFacts.

(* ===================================================================== *)
(** * Further properties of the device registry                           *)
(* ===================================================================== *)

Section RegistryFacts.

Import JS Devices.

Lemma checkForUpdates_frame device m :
  devices (checkForUpdates device m) = devices m
  /\ config (checkForUpdates device m) = config m
  /\ currentDevice (checkForUpdates device m) = currentDevice m.
Proof. unfold checkForUpdates. by destruct (bool_decide _). Qed.

Lemma checkCurrent_frame m :
  devices (checkCurrent m) = devices m /\ config (checkCurrent m) = config m.
Proof.
  unfold checkCurrent, getCurrentDevice.
  destruct (getCurrentDeviceId m) as [c|]; [|done].
  destruct (truthy (Some c)); [|done].
  destruct (findDevice c (devices m)) as [d|]; [|done].
  destruct (checkForUpdates_frame d (set_currentDevice (Some d) m))
    as (-> & -> & _). done.
Qed.

Lemma getDevices_frame probe m :
  config (fst (getDevices probe m)) = config m
  /\ snd (getDevices probe m)
     = match probe with
       | Discovered lanDevices => map lanDevice lanDevices
       | _ => []
       end ++ map manualDevice (persistedDevices m)
  /\ devices (fst (getDevices probe m))
     = match probe with
       | NoCli => devices m
       | _ => snd (getDevices probe m)
       end.
Proof.
  unfold getDevices. destruct probe; cbn [fst snd]; [done|..];
    match goal with
    | |- context [checkCurrent ?x] =>
        destruct (checkCurrent_frame x) as [-> ->]
    end; done.
Qed.

Lemma findDevice_some deviceId l d :
  findDevice deviceId l = Some d -> d ∈ l /\ id d = deviceId.
Proof.
  unfold findDevice. intros [Hin Heq]%find_some.
  split; [by apply list_elem_of_In | by apply String.eqb_eq].
Qed.

Lemma findDevice_is_some deviceId l d :
  d ∈ l -> id d = deviceId -> is_Some (findDevice deviceId l).
Proof.
  unfold findDevice. intros Hin Hid.
  destruct (find _ l) as [d'|] eqn:Hfind; [by eexists|].
  apply list_elem_of_In in Hin.
  pose proof (find_none _ _ Hfind d Hin) as Hf. cbn beta in Hf.
  apply String.eqb_neq in Hf. congruence.
Qed.

Lemma findDevice_none deviceId l :
  (forall d, d ∈ l -> id d <> deviceId) -> findDevice deviceId l = None.
Proof.
  intros Hall. destruct (findDevice deviceId l) as [d|] eqn:Hfind; [|done].
  apply findDevice_some in Hfind as [Hin Hid]. by destruct (Hall d Hin).
Qed.

Lemma setCurrentDevice_found wanted device m :
  truthy (Some wanted) = true ->
  findDevice wanted (devices m) = Some device ->
  exists m',
    setCurrentDevice (Some wanted) m = (m', Resolved ())
    /\ getCurrentDeviceId m' = Some wanted
    /\ devices m' = devices m
    /\ persistedDevices m' = persistedDevices m
    /\ currentDevice m' = Some device.
Proof.
  intros Ht Hf. unfold setCurrentDevice. rewrite Ht, Hf.
  eexists. split; [reflexivity|].
  unfold getCurrentDeviceId, persistedDevices.
  cbn [emit update_currentDevice set_config config devices currentDevice
       wendyos_currentDevice wendyos_devices].
  destruct (checkForUpdates_frame device (set_currentDevice (Some device) m))
    as (-> & -> & ->). done.
Qed.

(** X7. After a [getDevices] that got past the creation of the CLI,
    whether discovery then succeeded or failed, every stored manual device
    can be made the current device: [setCurrentDevice] with its id resolves
    and stores the id.  [getDevices] itself never writes the stored
    settings, and its result ends with the manual devices. *)
Theorem listed_manual_devices_selectable probe entry m :
  probe <> NoCli ->
  entry ∈ persistedDevices m ->
  truthy (Some (entry_id entry)) = true ->
  let listed := getDevices probe m in
  config (fst listed) = config m
  /\ map manualDevice (persistedDevices m) `suffix_of` snd listed
  /\ exists m',
       setCurrentDevice (Some (entry_id entry)) (fst listed) = (m', Resolved ())
       /\ getCurrentDeviceId m' = Some (entry_id entry).
Proof.
  intros Hprobe Hin Ht listed. subst listed.
  destruct (getDevices_frame probe m) as (Hc & Hl & Hd).
  split; [done|]. split; [rewrite Hl; by apply suffix_app_r|].
  assert (Hmem : manualDevice entry ∈ devices (fst (getDevices probe m))).
  { rewrite Hd. destruct probe; [done|..]; rewrite Hl;
      apply elem_of_app; right; apply list_elem_of_In, in_map;
      by apply list_elem_of_In. }
  destruct (findDevice_is_some (entry_id entry) _ _ Hmem eq_refl) as [d Hfind].
  destruct (setCurrentDevice_found _ _ _ Ht Hfind) as (m' & Hs & Hcur & _).
  by exists m'.
Qed.

(** X8. Setting and getting the current device agree: after a resolved
    [setCurrentDevice] with a non-empty id, [getCurrentDevice] returns a
    device of the in-memory list with that id. *)
Theorem setCurrentDevice_getCurrentDevice wanted m m' :
  truthy (Some wanted) = true ->
  setCurrentDevice (Some wanted) m = (m', Resolved ()) ->
  exists device,
    snd (getCurrentDevice m') = Some device
    /\ id device = wanted /\ device ∈ devices m.
Proof.
  intros Ht Hset.
  destruct (findDevice wanted (devices m)) as [device|] eqn:Hfind.
  - destruct (setCurrentDevice_found _ _ _ Ht Hfind)
      as (m'' & Hs & Hcur & Hdev & _).
    rewrite Hset in Hs. injection Hs as <-.
    exists device. unfold getCurrentDevice. rewrite Hcur, Ht, Hdev, Hfind.
    split; [done|]. apply findDevice_some in Hfind as [? ?]. by split.
  - unfold setCurrentDevice in Hset. by rewrite Ht, Hfind in Hset.
Qed.

(** X9. [getCurrentDevice] yields a device only when the stored
    current-device id is non-empty and is the id of a device of the
    in-memory list; a stored id that names no such device counts as no
    current device.  The stored settings and the list are left alone. *)
Theorem getCurrentDevice_dangling m :
  let '(m', found) := getCurrentDevice m in
  config m' = config m /\ devices m' = devices m
  /\ (forall device,
        found = Some device ->
        device ∈ devices m /\ getCurrentDeviceId m = Some (id device)
        /\ id device <> "")
  /\ ((forall device, device ∈ devices m ->
                      getCurrentDeviceId m <> Some (id device)) ->
      found = None).
Proof.
  unfold getCurrentDevice.
  destruct (getCurrentDeviceId m) as [current|] eqn:Hcur;
    [|by repeat split].
  destruct (truthy (Some current)) eqn:Ht; [|by repeat split].
  cbn [set_currentDevice config devices].
  split; [done|]. split; [done|]. split.
  - intros device Hfound. apply findDevice_some in Hfound as [Hin Hid].
    split; [done|]. split; [by rewrite Hid|].
    rewrite Hid. cbn in Ht. intros ->. done.
  - intros Hall. apply findDevice_none. intros d Hin Hid.
    apply (Hall d Hin). by rewrite Hid.
Qed.

Lemma setCurrentDevice_persisted deviceId m :
  persistedDevices (fst (setCurrentDevice deviceId m)) = persistedDevices m.
Proof.
  unfold setCurrentDevice.
  destruct deviceId as [wanted|]; [|done].
  destruct (truthy (Some wanted)); [|done].
  destruct (findDevice wanted (devices m)) as [device|]; [|done].
  unfold persistedDevices.
  cbn [fst emit update_currentDevice set_config config wendyos_devices].
  by destruct (checkForUpdates_frame device (set_currentDevice (Some device) m))
    as (_ & -> & _).
Qed.

(** What [addDevice] leaves in the store, whether it resolves or rejects. *)
Lemma addDevice_persisted address newId m :
  persistedDevices (fst (addDevice address newId m))
  = if existsb (fun d => String.eqb (entry_address d) address)
         (persistedDevices m)
    then persistedDevices m
    else persistedDevices m
         ++ [{| entry_id := newId; entry_address := address |}].
Proof.
  unfold addDevice. destruct (existsb _ _); [done|].
  destruct (_ =? 1)%nat; [|done].
  match goal with
  | |- context [setCurrentDevice ?d ?m'] =>
      pose proof (setCurrentDevice_persisted d m') as H;
      destruct (setCurrentDevice d m') as [m'' [u|e]]
  end; exact H.
Qed.

(** What [deleteDevice] leaves in the store, whether it resolves or
    rejects. *)
Lemma deleteDevice_persisted deviceId m :
  persistedDevices (fst (deleteDevice deviceId m))
  = List.filter (keeps deviceId) (persistedDevices m).
Proof.
  unfold deleteDevice. fold (keeps deviceId).
  destruct (Nat.eqb_spec (length (List.filter (keeps deviceId)
                                    (persistedDevices m)))
              (length (persistedDevices m))) as [E|E].
  - cbn [fst]. symmetry. by apply filter_length_eq.
  - destruct (bool_decide _); [|done].
    destruct (List.filter (keeps deviceId) (persistedDevices m)) eqn:Hk;
      by rewrite setCurrentDevice_persisted.
Qed.

Lemma step_persisted m ev :
  persistedDevices (step m ev)
  = match ev with
    | AddDevice address newId =>
        if existsb (fun d => String.eqb (entry_address d) address)
             (persistedDevices m)
        then persistedDevices m
        else persistedDevices m
             ++ [{| entry_id := newId; entry_address := address |}]
    | DeleteDevice deviceId =>
        List.filter (keeps deviceId) (persistedDevices m)
    | _ => persistedDevices m
    end.
Proof.
  destruct ev as [d|i r|probe| |deviceId|address newId|deviceId|deviceId
                 |deviceId]; cbn [step].
  - unfold persistedDevices. by destruct (checkForUpdates_frame d m) as (_ & -> & _).
  - unfold resume. destruct (tasks m !! i); [|done].
    by destruct (resumeTask _ _ r).
  - unfold persistedDevices. by destruct (getDevices_frame probe m) as (-> & _).
  - unfold getCurrentDevice. destruct (getCurrentDeviceId m) as [c|]; [|done].
    by destruct (truthy (Some c)).
  - apply setCurrentDevice_persisted.
  - apply addDevice_persisted.
  - done.
  - unfold connectWifi. by destruct (find _ _).
  - apply deleteDevice_persisted.
Qed.

Lemma existsb_address_false address l :
  existsb (fun d => String.eqb (entry_address d) address) l = false ->
  address ∉ map entry_address l.
Proof.
  induction l as [|d l IH]; simpl; [intros _; apply not_elem_of_nil|].
  intros [Hd Hl]%orb_false_elim. apply not_elem_of_cons. split; [|by apply IH].
  apply String.eqb_neq in Hd. congruence.
Qed.

Lemma filter_addresses (f : ManualEntry -> bool) l x :
  x ∈ map entry_address (List.filter f l) -> x ∈ map entry_address l.
Proof.
  induction l as [|d l IH]; simpl; [done|].
  destruct (f d); simpl.
  - intros [->|H]%elem_of_cons; apply elem_of_cons; auto.
  - intros H. apply elem_of_cons; auto.
Qed.

Lemma filter_addresses_NoDup (f : ManualEntry -> bool) l :
  NoDup (map entry_address l) -> NoDup (map entry_address (List.filter f l)).
Proof.
  induction l as [|d l IH]; simpl; [done|].
  intros [Hn Hd]%NoDup_cons. destruct (f d); simpl; [|by apply IH].
  apply NoDup_cons. split; [|by apply IH].
  intros H. by apply Hn, (filter_addresses f).
Qed.

(** X10. The stored manual devices never come to hold two entries with the
    same address: if the addresses are pairwise different, they stay so
    under every sequence of calls and resumptions. *)
Theorem addresses_stay_distinct m evs :
  NoDup (map entry_address (persistedDevices m)) ->
  NoDup (map entry_address (persistedDevices (run m evs))).
Proof.
  revert m. induction evs as [|ev evs IH]; intros m Hm; [done|].
  change (run m (ev :: evs)) with (run (step m ev) evs). apply IH.
  rewrite step_persisted.
  destruct ev as [d|i r|probe| |deviceId|address newId|deviceId|deviceId
                 |deviceId]; try done.
  - destruct (existsb _ _) eqn:Hdup; [done|].
    rewrite map_app. apply NoDup_app. split; [done|]. split.
    + intros x Hx [->|[]%elem_of_nil]%elem_of_cons.
      by apply (existsb_address_false _ _ Hdup).
    + apply NoDup_singleton.
  - by apply filter_addresses_NoDup.
Qed.

(** X11. Adding a device and deleting it again restores the stored list,
    provided the address was not there before and the new id is not the id
    of a stored device; this holds also when one of the two calls
    rejects after its write. *)
Theorem addDevice_deleteDevice address newId m :
  existsb (fun d => String.eqb (entry_address d) address) (persistedDevices m)
  = false ->
  forallb (keeps newId) (persistedDevices m) = true ->
  persistedDevices
    (fst (deleteDevice newId (fst (addDevice address newId m))))
  = persistedDevices m.
Proof.
  intros Hdup Hfresh.
  rewrite deleteDevice_persisted, addDevice_persisted, Hdup.
  rewrite List.filter_app, (filter_all _ _ Hfresh).
  cbn. unfold keeps. cbn. rewrite String.eqb_refl. cbn. apply app_nil_r.
Qed.

End RegistryFacts.


Section RegistryMoves.

Import JS Devices Registry.

Lemma evolves_refl m : evolves m m.
Proof. by apply evolves_frame. Qed.

Lemma evolves_setCurrentDevice deviceId m :
  evolves m (fst (setCurrentDevice deviceId m)).
Proof.
  unfold setCurrentDevice.
  assert (Hnotify : forall m', evolves m m' ->
            evolves m (emit [CurrentDeviceChanged deviceId; DevicesChanged]
                         (update_currentDevice deviceId m'))).
  { intros m' Hm'. eapply evolves_trans; [exact Hm'|].
    eapply evolves_trans; [|by apply evolves_notify].
    by apply evolves_frame. }
  destruct deviceId as [wanted|]; [|apply Hnotify, evolves_refl].
  destruct (truthy (Some wanted)); [|apply Hnotify, evolves_refl].
  destruct (findDevice wanted (devices m)) as [device|];
    [|apply evolves_refl].
  apply Hnotify.
  eapply evolves_trans; [|apply evolves_check]. by apply evolves_frame.
Qed.

Lemma evolves_addDevice address newId m :
  evolves m (fst (addDevice address newId m)).
Proof.
  unfold addDevice. destruct (existsb _ _); [apply evolves_refl|].
  destruct (_ =? 1)%nat.
  - match goal with
    | |- context [setCurrentDevice ?d ?m'] =>
        pose proof (evolves_setCurrentDevice d m') as Hs;
        destruct (setCurrentDevice d m') as [m'' [u|e]]
    end; (eapply evolves_trans; [|exact Hs]); by apply evolves_frame.
  - eapply evolves_trans; [|by apply evolves_notify].
    by apply evolves_frame.
Qed.

Lemma evolves_deleteDevice deviceId m :
  evolves m (fst (deleteDevice deviceId m)).
Proof.
  unfold deleteDevice. destruct (_ =? _)%nat; [apply evolves_refl|].
  destruct (bool_decide _).
  - destruct (List.filter _ _);
      (eapply evolves_trans; [|apply evolves_setCurrentDevice]);
      by apply evolves_frame.
  - eapply evolves_trans; [|by apply evolves_notify].
    by apply evolves_frame.
Qed.

Lemma evolves_checkCurrent m : evolves m (checkCurrent m).
Proof.
  unfold checkCurrent, getCurrentDevice.
  destruct (getCurrentDeviceId m) as [c|]; [|apply evolves_refl].
  destruct (truthy (Some c)); [|apply evolves_refl].
  destruct (findDevice c (devices m)) as [d|]; [|by apply evolves_frame].
  eapply evolves_trans; [|apply evolves_check]. by apply evolves_frame.
Qed.

Lemma evolves_getCurrentDevice m : evolves m (fst (getCurrentDevice m)).
Proof.
  unfold getCurrentDevice.
  destruct (getCurrentDeviceId m) as [c|]; [|apply evolves_refl].
  destruct (truthy (Some c)); [by apply evolves_frame | apply evolves_refl].
Qed.

Lemma evolves_connectWifi deviceId m : evolves m (connectWifi deviceId m).
Proof.
  unfold connectWifi. destruct (find _ _); by apply evolves_spawn.
Qed.

(** Every call but one of [updateAgent] from outside. *)
Lemma evolves_step m ev :
  (forall deviceId, ev <> UpdateAgent deviceId) -> evolves m (step m ev).
Proof.
  intros Hev.
  destruct ev as [d|i r|probe| |deviceId|address newId|deviceId|deviceId
                 |deviceId]; cbn [step].
  - apply evolves_check.
  - apply evolves_resume.
  - unfold getDevices. destruct probe; cbn [fst]; [apply evolves_refl|..];
      (eapply evolves_trans; [|apply evolves_checkCurrent]);
      by apply evolves_frame.
  - apply evolves_getCurrentDevice.
  - apply evolves_setCurrentDevice.
  - apply evolves_addDevice.
  - by destruct (Hev deviceId).
  - apply evolves_connectWifi.
  - apply evolves_deleteDevice.
Qed.

Lemma resumeTask_confirmed x l t r :
  let '(t', done) := resumeTask l t r in
  ((if awaitsPrompt x t' then 1 else 0) + (if awaitsAgent x t' then 1 else 0)
   + count (isUpdate x) done
   <= (if awaitsPrompt x t then 1 else 0) + (if awaitsAgent x t then 1 else 0)
      + count (isPrompt x) done)%nat.
Proof.
  destruct t as [d|d|d|d|d|e|p e|p e|p e n|n|o],
           r as [c|c|c|c|c|c|c|c];
    cbn [resumeTask];
    try destruct c as [c|];
    try destruct (latestVersion _) as [latest|];
    try destruct (truthy _);
    try destruct (String.eqb _ "Update");
    try (unfold startUpdateAgent;
         destruct (findDevice _ l) as [found|] eqn:Hfound;
         [apply findDevice_some in Hfound as [_ Hid]|]);
    try destruct c;
    unfold count;
    cbn [awaitsPrompt awaitsAgent isUpdate isPrompt List.filter];
    try rewrite Hid;
    try destruct (String.eqb (id d) x); cbn [length]; lia.
Qed.

Lemma evolves_confirmed allowed m m' :
  evolves m m' -> confirmed allowed m -> confirmed allowed m'.
Proof.
  induction 1 as [m m' Hc Ht He|m e He|m device|m i r|m t Ht
                 |m1 m2 m3 _ IH1 _ IH2];
    intros Hm.
  - intros x. unfold updates, prompts. rewrite Ht, He. apply Hm.
  - intros x. specialize (Hm x). unfold updates, prompts in *.
    cbn [emit tasks effects]. rewrite !count_app.
    assert (count (isUpdate x) e = 0%nat /\ count (isPrompt x) e = 0%nat)
      as [-> ->]; [|lia].
    induction e as [|y e IH]; [done|].
    cbn in He. apply andb_prop in He as [Hy He].
    rewrite !count_cons. destruct (IH He) as [-> ->]. by destruct y.
  - intros x. specialize (Hm x). unfold checkForUpdates, updates, prompts in *.
    destruct (bool_decide _); cbn [tasks effects];
      rewrite !count_app, !count_cons; cbn; lia.
  - intros x. specialize (Hm x). unfold resume, updates, prompts in *.
    destruct (tasks m !! i) as [t|] eqn:Hti; [|done].
    pose proof (resumeTask_confirmed x (devices m) t r) as Hc.
    destruct (resumeTask (devices m) t r) as [t' done].
    cbn [tasks effects]. rewrite !count_app.
    pose proof (count_insert (awaitsPrompt x) _ i t t' Hti).
    pose proof (count_insert (awaitsAgent x) _ i t t' Hti). lia.
  - intros x. specialize (Hm x). unfold updates, prompts in *.
    cbn [spawn tasks effects]. rewrite !count_app, !count_cons.
    assert (awaitsPrompt x t = false /\ awaitsAgent x t = false) as [-> ->]
      by (by destruct t).
    cbn. lia.
  - auto.
Qed.

(** A call of [updateAgent] from outside uses up one more allowance for
    its id. *)
Lemma updateAgent_confirmed allowed deviceId m :
  confirmed allowed m ->
  confirmed (fun x => allowed x + (if String.eqb deviceId x then 1 else 0))%nat
    (updateAgent deviceId m).
Proof.
  intros Hm x. specialize (Hm x). unfold updateAgent, updates, prompts in *.
  cbn [spawn tasks effects]. rewrite !count_app, !count_cons.
  unfold startUpdateAgent.
  destruct (findDevice deviceId (devices m)) as [found|] eqn:Hfound.
  - apply findDevice_some in Hfound as [_ Hid].
    cbn [awaitsPrompt awaitsAgent]. rewrite Hid.
    destruct (String.eqb deviceId x); cbn; lia.
  - cbn. lia.
Qed.

Lemma step_confirmed allowed m ev :
  confirmed allowed m ->
  confirmed (fun x => allowed x + (if isCommand x ev then 1 else 0))%nat
    (step m ev).
Proof.
  intros Hm.
  destruct (match ev with UpdateAgent _ => true | _ => false end) eqn:Hev.
  - destruct ev as [| | | | | |deviceId| |]; try done. cbn [step isCommand].
    by apply updateAgent_confirmed.
  - assert (Hstep : confirmed allowed (step m ev)).
    { apply (evolves_confirmed allowed m); [|done].
      apply evolves_step. intros deviceId ->. done. }
    intros x. specialize (Hstep x). lia.
Qed.

Lemma run_confirmed evs : forall allowed m,
  confirmed allowed m ->
  confirmed (fun x => allowed x + commands x evs)%nat (run m evs).
Proof.
  induction evs as [|ev evs IH]; intros allowed m Hm.
  - intros x. specialize (Hm x). change (run m []) with m.
    change (commands x []) with 0%nat. lia.
  - change (run m (ev :: evs)) with (run (step m ev) evs).
    pose proof (IH _ _ (step_confirmed allowed m ev Hm)) as Hrun.
    intros x. specialize (Hrun x). cbn beta in Hrun.
    unfold commands in *. rewrite count_cons. lia.
Qed.

(** X12. For every device id, under every sequence of calls and
    resumptions from a new manager: the update command is run for a device
    only after an update prompt for it was shown, or after [updateAgent]
    was called from outside with its id, so there are at most as many
    update commands as prompts and such calls together; a prompt is shown
    only after a version query was issued; and there is at most one query,
    hence at most one prompt, and without calls of [updateAgent] from
    outside at most one update command. *)
Theorem agent_update_needs_prompt_or_command (c : Configuration)
    (evs : list Event) (x : string) :
  let m := run (fresh c) evs in
  (updates x m <= prompts x m + commands x evs)%nat
  /\ (prompts x m <= queries x m)%nat
  /\ (queries x m <= 1)%nat.
Proof.
  intros m.
  assert (Hc : confirmed (fun y => 0 + commands y evs)%nat m).
  { apply run_confirmed. intros y. cbn. lia. }
  assert (Ha : accounted m) by (apply sound_run, fresh_accounted).
  specialize (Hc x). cbn beta in Hc. destruct (Ha x) as [H1 H2].
  split; [lia|]. split; [lia|]. destruct (bool_decide _); lia.
Qed.

End RegistryMoves.

(** The bound is met: a call of [updateAgent] from outside runs the update
    command without any prompt. *)
Lemma updateAgent_needs_no_prompt :
  Registry.updates "0197-aaaa" DeviceExamples.commanded = 1%nat
  /\ Devices.prompts "0197-aaaa" DeviceExamples.commanded = 0%nat
  /\ Devices.effects DeviceExamples.commanded
     = [Devices.Progress "Updating WendyOS Agent on host1";
        Devices.AgentUpdate "/usr/local/bin/wendy"
          (Devices.manualDevice DeviceExamples.host1)].
Proof. by vm_compute. Qed.

(* ===================================================================== *)
(** * Further properties of the debug-configuration provider              *)
(* ===================================================================== *)

Section DebugPortFacts.

Import JS.

Lemma split_no_separator c s : includes c s = false -> split c s = [s].
Proof.
  induction s as [|a s IH]; simpl; [done|].
  destruct (Ascii.eqb a c); [done|]. intros H. by rewrite (IH H).
Qed.

Lemma split_at_separator c host rest :
  includes c host = false ->
  split c (host +:+ String c rest) = host :: split c rest.
Proof.
  induction host as [|a host IH]; simpl.
  - intros _. by rewrite Ascii.eqb_refl.
  - destruct (Ascii.eqb a c); [done|]. intros H. by rewrite (IH H).
Qed.

Lemma split_head_no_separator c s host pieces :
  split c s = host :: pieces -> includes c host = false.
Proof.
  revert host pieces. induction s as [|a s IH]; intros host pieces; simpl.
  - by intros [= <- <-].
  - destruct (Ascii.eqb a c) eqn:E; [by intros [= <- <-]|].
    destruct (split c s) as [|piece rest] eqn:Hs.
    + intros [= <- <-]. simpl. by rewrite E.
    + intros [= <- <-]. simpl. rewrite E. by eapply IH.
Qed.

Lemma includes_app_separator c host rest :
  includes c (host +:+ String c rest) = true.
Proof.
  induction host as [|a host IH]; simpl; [by rewrite Ascii.eqb_refl|].
  by destruct (Ascii.eqb a c).
Qed.

Lemma legacy_ensureDebugPort_pieces host port :
  includes ":" host = false -> includes ":" port = false ->
  LegacyProvider.ensureDebugPort (host +:+ ":" +:+ port) = host +:+ ":4242".
Proof.
  intros Hhost Hport. unfold LegacyProvider.ensureDebugPort.
  change (host +:+ ":" +:+ port) with (host +:+ String ":" port).
  rewrite includes_app_separator, (split_at_separator _ _ _ Hhost),
    (split_no_separator _ _ Hport).
  change (Number_toString LegacyProvider.DEFAULT_DEBUG_PORT) with "4242".
  destruct (String.eqb_spec port "4242") as [->|]; done.
Qed.

(** X13. The earlier revision of [ensureDebugPort] puts port 4242 on a
    host-and-port address: for a host and a port without colons the result
    is the host, a colon and 4242, whatever the port was; and a host
    without a colon gets the port appended. *)
Theorem legacy_ensureDebugPort_host_port host port :
  includes ":" host = false -> includes ":" port = false ->
  LegacyProvider.ensureDebugPort (host +:+ ":" +:+ port) = host +:+ ":4242"
  /\ LegacyProvider.ensureDebugPort host = host +:+ ":4242".
Proof.
  intros Hhost Hport.
  split; [by apply legacy_ensureDebugPort_pieces|].
  by apply legacy_ensureDebugPort_appends.
Qed.

Lemma legacy_ensureDebugPort_host host :
  includes ":" host = false ->
  LegacyProvider.ensureDebugPort (host +:+ ":4242") = host +:+ ":4242".
Proof.
  intros H. by apply (legacy_ensureDebugPort_pieces host "4242").
Qed.

Lemma legacy_ensureDebugPort_result address :
  LegacyProvider.ensureDebugPort address = address
  \/ exists host,
       includes ":" host = false
       /\ LegacyProvider.ensureDebugPort address = host +:+ ":4242".
Proof.
  unfold LegacyProvider.ensureDebugPort.
  change (Number_toString LegacyProvider.DEFAULT_DEBUG_PORT) with "4242".
  destruct (includes ":" address) eqn:Hinc.
  - destruct (split_includes _ _ Hinc) as (host & piece & rest & Hs).
    rewrite Hs. destruct (String.eqb piece "4242"); [by left|].
    right. exists host. split; [|done].
    by apply (split_head_no_separator _ _ _ _ Hs).
  - right. by exists address.
Qed.

(** X14. Both revisions of [ensureDebugPort] are idempotent: applied to its
    own result, the function returns it unchanged; in the later revision
    this holds whatever port is asked for the second time, and the result
    always contains a colon. *)
Theorem ensureDebugPort_idempotent address port port' :
  LegacyProvider.ensureDebugPort (LegacyProvider.ensureDebugPort address)
  = LegacyProvider.ensureDebugPort address
  /\ Provider.ensureDebugPort (Provider.ensureDebugPort address port) port'
     = Provider.ensureDebugPort address port
  /\ includes ":" (Provider.ensureDebugPort address port) = true.
Proof.
  split.
  - destruct (legacy_ensureDebugPort_result address)
      as [H|(host & Hhost & H)]; rewrite H; [done|].
    by apply legacy_ensureDebugPort_host.
  - assert (Hinc : includes ":" (Provider.ensureDebugPort address port) = true).
    { destruct (includes ":" address) eqn:Hinc.
      - by rewrite ensureDebugPort_keeps.
      - rewrite ensureDebugPort_appends by done.
        apply (includes_app_separator ":" address). }
    split; [by apply ensureDebugPort_keeps | done].
Qed.

End DebugPortFacts.

Lemma legacy_ensureDebugPort_host_port_witness :
  LegacyProvider.ensureDebugPort "wendy.local:9999" = "wendy.local:4242"
  /\ LegacyProvider.ensureDebugPort "wendy.local" = "wendy.local:4242".
Proof.
  split.
  - exact (proj1 (legacy_ensureDebugPort_host_port "wendy.local" "9999"
                    eq_refl eq_refl)).
  - exact (proj2 (legacy_ensureDebugPort_host_port "wendy.local" "4242"
                    eq_refl eq_refl)).
Defined.

Section ResolutionFacts.

Import JS Provider.

Lemma selectCurrentDevice_none host port :
  snd (Devices.getCurrentDevice (deviceManager host)) = None ->
  fst (selectCurrentDevice host port) = None
  /\ exists followUp,
       snd (selectCurrentDevice host port)
       = ErrorPrompt
           "No WendyOS device is selected. You must select a device before debugging."
           ["Add Device"; "Select Device"; "Cancel"] :: followUp.
Proof.
  intros H. unfold selectCurrentDevice. rewrite H. split; [done|]. by eexists.
Qed.

Lemma swift_resolver_fulfils host folder debugConfiguration :
  exists r,
    fst (resolveDebugConfigurationWithSubstitutedVariablesSwift host folder
           debugConfiguration) = Fulfilled r.
Proof.
  unfold resolveDebugConfigurationWithSubstitutedVariablesSwift.
  destruct (swiftSdkPath host) as [sdkPath|]; [|by eexists].
  destruct (_ || _); [by eexists|].
  destruct (realpath host _) as [resolved|description]; [|by eexists].
  destruct (stat host resolved); [by eexists|].
  destruct (selectCurrentDevice host (Some DEFAULT_DEBUG_PORT))
    as [remoteAddress asked].
  destruct (negb (truthy remoteAddress)); by eexists.
Qed.

Lemma python_resolver_fulfils host folder debugConfiguration :
  exists r,
    fst (resolveDebugConfigurationWithSubstitutedVariablesPython host folder
           debugConfiguration) = Fulfilled r.
Proof.
  unfold resolveDebugConfigurationWithSubstitutedVariablesPython.
  destruct (selectCurrentDevice host None) as [remoteAddress asked].
  destruct (negb (truthy remoteAddress)); by eexists.
Qed.

(** X15. Session resolution rejects in exactly two cases: wendy.json could
    not be read or parsed, or it parsed to [null].  With any other content
    the request ends in a descriptor or in a cancellation. *)
Theorem resolution_rejects_iff host file folder debugConfiguration :
  (exists thrown,
     fst (resolveDebugConfigurationWithSubstitutedVariables host file
            (Some folder) debugConfiguration) = RejectedWith thrown)
  <-> ((exists description, file = Unreadable description)
       \/ file = Parsed JNull).
Proof.
  unfold resolveDebugConfigurationWithSubstitutedVariables.
  assert (Hbranch : forall value logged,
    ~ exists thrown,
        fst (let '(settled, done) :=
               if isPython value
               then resolveDebugConfigurationWithSubstitutedVariablesPython
                      host folder debugConfiguration
               else resolveDebugConfigurationWithSubstitutedVariablesSwift
                      host folder debugConfiguration in
             (settled, logged ++ done)) = RejectedWith thrown).
  { intros value logged [thrown H].
    destruct (isPython value).
    - destruct (python_resolver_fulfils host folder debugConfiguration)
        as [r Hr].
      destruct (resolveDebugConfigurationWithSubstitutedVariablesPython
                  host folder debugConfiguration) as [settled done].
      cbn in *. congruence.
    - destruct (swift_resolver_fulfils host folder debugConfiguration)
        as [r Hr].
      destruct (resolveDebugConfigurationWithSubstitutedVariablesSwift
                  host folder debugConfiguration) as [settled done].
      cbn in *. congruence. }
  destruct file as [description|value]; cbn [readWendyJson].
  - cbn [language fst]. split; [intros _; left; by eexists | intros _; by eexists].
  - destruct (language (Some value)) as [thrown|found] eqn:Hl.
    + assert (value = JNull) as -> by (destruct value; cbn in Hl; congruence).
      cbn [fst]. split; [by right | intros _; by eexists].
    + split.
      * intros H. by destruct (Hbranch _ _ H).
      * intros [[d [=]]|[= ->]]. cbn in Hl. discriminate.
Qed.

(** X16. Without a current device no session descriptor comes out of the
    resolvers: the Swift and the Python resolver both end in a
    cancellation, [selectCurrentDevice] returns no address and starts with
    the prompt to add or select a device, and so resolution as a whole
    never fulfils with a descriptor. *)
Theorem no_device_no_session host file folder debugConfiguration :
  snd (Devices.getCurrentDevice (deviceManager host)) = None ->
  fst (resolveDebugConfigurationWithSubstitutedVariablesSwift host folder
         debugConfiguration) = Fulfilled None
  /\ fst (resolveDebugConfigurationWithSubstitutedVariablesPython host folder
            debugConfiguration) = Fulfilled None
  /\ (forall resolved,
        fst (resolveDebugConfigurationWithSubstitutedVariables host file
               (Some folder) debugConfiguration)
        <> Fulfilled (Some resolved)).
Proof.
  intros Hnone.
  assert (Hswift :
    fst (resolveDebugConfigurationWithSubstitutedVariablesSwift host folder
           debugConfiguration) = Fulfilled None).
  { unfold resolveDebugConfigurationWithSubstitutedVariablesSwift.
    destruct (swiftSdkPath host) as [sdkPath|]; [|done].
    destruct (_ || _); [done|].
    destruct (realpath host _) as [resolved|description]; [|done].
    destruct (stat host resolved); [done|].
    destruct (selectCurrentDevice_none host (Some DEFAULT_DEBUG_PORT) Hnone)
      as [Hfst _].
    destruct (selectCurrentDevice host (Some DEFAULT_DEBUG_PORT))
      as [remoteAddress asked]. cbn in Hfst. by subst remoteAddress. }
  assert (Hpython :
    fst (resolveDebugConfigurationWithSubstitutedVariablesPython host folder
           debugConfiguration) = Fulfilled None).
  { unfold resolveDebugConfigurationWithSubstitutedVariablesPython.
    destruct (selectCurrentDevice_none host None Hnone) as [Hfst _].
    destruct (selectCurrentDevice host None) as [remoteAddress asked].
    cbn in Hfst. by subst remoteAddress. }
  split; [done|]. split; [done|].
  intros resolved. unfold resolveDebugConfigurationWithSubstitutedVariables.
  destruct (readWendyJson host folder file) as [edgeConfig logged].
  destruct (language edgeConfig) as [thrown|value]; [done|].
  destruct (isPython value).
  - destruct (resolveDebugConfigurationWithSubstitutedVariablesPython
                host folder debugConfiguration) as [settled done].
    cbn in *. congruence.
  - destruct (resolveDebugConfigurationWithSubstitutedVariablesSwift
                host folder debugConfiguration) as [settled done].
    cbn in *. congruence.
Qed.

End ResolutionFacts.

Section ResolvedSession.

Import JS Provider.

Lemma selectCurrentDevice_some host port remoteAddress :
  fst (selectCurrentDevice host port) = Some remoteAddress ->
  exists device,
    snd (Devices.getCurrentDevice (deviceManager host)) = Some device
    /\ remoteAddress
       = match port with
         | Some p =>
             if (p =? 0)%Z then Devices.address device
             else ensureDebugPort (Devices.address device) p
         | None => Devices.address device
         end.
Proof.
  unfold selectCurrentDevice.
  destruct (snd (Devices.getCurrentDevice (deviceManager host)))
    as [device|]; [|done].
  intros H. exists device. split; [done|].
  destruct port as [p|]; [destruct (p =? 0)%Z|]; cbn in H; congruence.
Qed.

Lemma ensurePreLaunchTask_keeps task c :
  truthy (preLaunchTask c) = true -> ensurePreLaunchTask task c = preLaunchTask c.
Proof. intros H. unfold ensurePreLaunchTask. by rewrite H. Qed.

(** X17. A session descriptor that resolution fulfils with is aimed at the
    current device, which therefore exists: it keeps the name, the target
    and the working directory of the request and a pre-launch task the
    user set, it is an attach request, and it is either a debugpy session
    connecting to the device's address as stored (no port added to it) at
    port 5678, or an lldb-dap session whose last attach command is
    gdb-remote to the device's address passed through [ensureDebugPort]
    with 4242. *)
Theorem resolved_session_targets_current_device
    host file folder debugConfiguration resolved :
  fst (resolveDebugConfigurationWithSubstitutedVariables host file
         (Some folder) debugConfiguration) = Fulfilled (Some resolved) ->
  exists device,
    snd (Devices.getCurrentDevice (deviceManager host)) = Some device
    /\ name resolved = name debugConfiguration
    /\ target resolved = target debugConfiguration
    /\ cwd resolved = cwd debugConfiguration
    /\ request resolved = "attach"
    /\ (truthy (preLaunchTask debugConfiguration) = true ->
        preLaunchTask resolved = preLaunchTask debugConfiguration)
    /\ ((type resolved = "debugpy"
         /\ connect resolved = Some (Devices.address device, 5678%Z)
         /\ pathMappings resolved = Some [(uri_fsPath folder, "/app")])
        \/ (type resolved = "lldb-dap"
            /\ exists create,
                 attachCommands resolved
                 = Some [create;
                         "gdb-remote "
                           +:+ ensureDebugPort (Devices.address device)
                                 4242])).
Proof.
  unfold resolveDebugConfigurationWithSubstitutedVariables.
  destruct (readWendyJson host folder file) as [edgeConfig logged].
  destruct (language edgeConfig) as [thrown|value]; [done|].
  destruct (isPython value).
  - unfold resolveDebugConfigurationWithSubstitutedVariablesPython.
    pose proof (selectCurrentDevice_some host None) as Hsel.
    destruct (selectCurrentDevice host None) as [remoteAddress asked].
    destruct remoteAddress as [remoteAddress|]; [|done].
    destruct (Hsel remoteAddress eq_refl) as (device & Hcurrent & ->).
    destruct (negb (truthy (Some (Devices.address device)))); [done|].
    cbn [fst]. intros [= <-]. exists device. cbn.
    split; [done|]. split; [done|]. split; [done|]. split; [done|].
    split; [done|]. split; [apply ensurePreLaunchTask_keeps|]. by left.
  - unfold resolveDebugConfigurationWithSubstitutedVariablesSwift.
    destruct (swiftSdkPath host) as [sdkPath|]; [|done].
    destruct (_ || _); [done|].
    destruct (realpath host _) as [sdk|description]; [|done].
    destruct (stat host sdk); [done|].
    pose proof (selectCurrentDevice_some host (Some DEFAULT_DEBUG_PORT))
      as Hsel.
    destruct (selectCurrentDevice host (Some DEFAULT_DEBUG_PORT))
      as [remoteAddress asked].
    destruct remoteAddress as [remoteAddress|]; [|done].
    destruct (Hsel remoteAddress eq_refl) as (device & Hcurrent & ->).
    change (DEFAULT_DEBUG_PORT =? 0)%Z with false. cbn iota.
    destruct (negb (truthy
                (Some (ensureDebugPort (Devices.address device)
                         DEFAULT_DEBUG_PORT)))); [done|].
    cbn [fst]. intros [= <-]. exists device. cbn.
    split; [done|]. split; [done|]. split; [done|]. split; [done|].
    split; [done|]. split; [apply ensurePreLaunchTask_keeps|].
    right. split; [done|]. by eexists.
Qed.

End ResolvedSession.

Section TaskFacts.

Import WendyLaunch.

Variable getFolderAndNameSuffix : Swift.FolderContext -> string * string.

(** X18. Every descriptor that the later launch.ts creates for a folder of
    the workspace names a pre-launch task that the task provider supplies
    for the same workspace: for a Swift folder the task of the same
    product, run with that product as the last argument; for a folder
    without a Swift context the Python task, which the provider supplies
    only with the Python extension present.  The name of the pre-launch
    task is the task's source, a colon and a space, and the task's name. *)
Theorem created_configuration_has_run_task
    hasPythonExtension folders context config :
  context ∈ folders ->
  config ∈ createExecutableConfigurations getFolderAndNameSuffix context ->
  swift context <> None \/ hasPythonExtension = true ->
  exists task,
    task ∈ Tasks.provideTasks hasPythonExtension folders
    /\ Launch.preLaunchTask config
       = Some (Tasks.source task +:+ ": " +:+ Tasks.name task)
    /\ Tasks.type (Tasks.definition task) = Tasks.WENDY_TASK_TYPE
    /\ match swift context with
       | Some package =>
           Tasks.cwd (Tasks.definition task) = Swift.fsPath package
           /\ exists product,
                product ∈ Swift.executableProducts package
                /\ Launch.target config = Some (Swift.name product)
                /\ Tasks.args (Tasks.definition task)
                   = ["run"; "--detach"; Swift.name product]
       | None =>
           Tasks.cwd (Tasks.definition task) = folder_fsPath context
           /\ Tasks.args (Tasks.definition task) = ["run"; "--detach"]
       end.
Proof.
  intros Hcontext Hconfig Hprovided.
  unfold createExecutableConfigurations in Hconfig.
  unfold Tasks.provideTasks.
  destruct (swift context) as [package|] eqn:Hswift.
  - destruct (length (Swift.executableProducts package) =? 0)%nat;
      [by apply elem_of_nil in Hconfig|].
    apply list_elem_of_fmap in Hconfig as (product & -> & Hproduct).
    exists {| Tasks.definition :=
                {| Tasks.type := Tasks.WENDY_TASK_TYPE;
                   Tasks.args := ["run"; "--detach"; Swift.name product];
                   Tasks.cwd := Swift.fsPath package |};
              Tasks.name := "Run " +:+ Swift.name product;
              Tasks.source := "wendy" |}.
    split.
    + apply list_elem_of_In, in_flat_map. exists context.
      split; [by apply list_elem_of_In|]. rewrite Hswift.
      apply in_flat_map. exists product.
      split; [by apply list_elem_of_In|].
      unfold Tasks.createSwiftRunTasks. rewrite Hswift. by left.
    + split; [done|]. split; [done|]. split; [done|]. by exists product.
  - destruct Hprovided as [?| ->]; [done|].
    apply list_elem_of_singleton in Hconfig as ->.
    exists {| Tasks.definition :=
                {| Tasks.type := Tasks.WENDY_TASK_TYPE;
                   Tasks.args := ["run"; "--detach"];
                   Tasks.cwd := folder_fsPath context |};
              Tasks.name := "Run Python App";
              Tasks.source := "wendy" |}.
    split; [|done].
    apply list_elem_of_In, in_flat_map. exists context.
    split; [by apply list_elem_of_In|]. rewrite Hswift. by left.
Qed.

End TaskFacts.

Section RefreshFacts.

Import Devices DevicesProvider.

Lemma everyFrom_ids (devices1 devices2 : list Device) (index : nat) :
  (length devices1 =? length (drop index devices2))%nat
  && everyFrom index
       (fun device i =>
          match devices2 !! i with
          | Some other => String.eqb (id device) (id other)
          | None => false
          end)
       devices1 = true
  <-> map id devices1 = map id (drop index devices2).
Proof.
  revert index. induction devices1 as [|device rest IH]; intros index.
  - cbn [everyFrom length map]. rewrite andb_true_r.
    destruct (drop index devices2); cbn; split; congruence.
  - cbn [everyFrom length map].
    destruct (devices2 !! index) as [other|] eqn:Hlookup.
    + rewrite (drop_S _ _ _ Hlookup). cbn [length map Nat.eqb].
      specialize (IH (S index)). rewrite andb_true_iff in IH.
      rewrite !andb_true_iff, String.eqb_eq. split.
      * intros (Hlen & Hid & Hrest). f_equal; [done|]. apply IH. by split.
      * intros [= Hid Hrest]. apply IH in Hrest as [Hlen Hrest]. by repeat split.
    + rewrite (drop_ge devices2 index)
        by (by apply lookup_ge_None). cbn. split; done.
Qed.

(** X19. The comparison that decides whether the device list shown has
    changed holds exactly when the two lists carry the same ids in the
    same order: a device whose address, name or agent version changed
    while its id and position stayed does not count as a change. *)
Theorem sameDevices_iff_same_ids devices1 devices2 :
  sameDevices devices1 devices2 = true
  <-> map id devices1 = map id devices2.
Proof.
  unfold sameDevices. pose proof (everyFrom_ids devices1 devices2 0) as H.
  by rewrite drop_0 in H.
Qed.

End RefreshFacts.

Section DetectorFacts.

Import JS Detector.

Lemma toLowerCase_app s t :
  toLowerCase (s +:+ t) = toLowerCase s +:+ toLowerCase t.
Proof.
  induction s as [|a s IH]; [done|].
  change (String a s +:+ t) with (String a (s +:+ t)).
  cbn [toLowerCase]. rewrite IH. done.
Qed.

Lemma startsWith_app needle rest : startsWith needle (needle +:+ rest) = true.
Proof.
  induction needle as [|a needle IH]; [done|].
  change (String a needle +:+ rest) with (String a (needle +:+ rest)).
  cbn [startsWith]. by rewrite Ascii.eqb_refl, IH.
Qed.

Lemma contains_app before needle rest :
  contains needle (before +:+ needle +:+ rest) = true.
Proof.
  induction before as [|a before IH].
  - change (EmptyString +:+ needle +:+ rest) with (needle +:+ rest).
    destruct (needle +:+ rest) eqn:E; cbn [contains];
      rewrite <- E, startsWith_app; done.
  - change (String a before +:+ needle +:+ rest)
      with (String a (before +:+ needle +:+ rest)).
    cbn [contains]. rewrite IH. apply orb_true_r.
Qed.

(** X20. Output of [edge info] that mentions the word error in any mix of
    upper and lower case counts for nothing: the detector answers as it
    does when the command fails, so such a folder is an Edge project only
    by its Package.swift or its edge.json. *)
Theorem edge_info_error_in_any_case probe before word rest message :
  toLowerCase word = "error" ->
  edgeInfo probe = Resolved (before +:+ word +:+ rest) ->
  isEdgeProject probe
  = isEdgeProject
      {| packageSwiftExists := packageSwiftExists probe;
         packageSwift := packageSwift probe;
         edgeJsonExists := edgeJsonExists probe;
         edgeInfo := Rejected message |}.
Proof.
  intros Hword Hinfo. unfold isEdgeProject. cbn [packageSwiftExists
    packageSwift edgeJsonExists edgeInfo]. rewrite Hinfo.
  rewrite !toLowerCase_app, Hword, contains_app, andb_false_r. done.
Qed.

End DetectorFacts.

(** ** The further properties at work *)

(** Both initial folders arrive: the barrier is up, and the processed
    paths cover the initial ones. *)
Lemma barrier_exact_for_initial_folders_witness :
  let w :=
    Workspace.run (Workspace.construct WorkspaceExamples.appAndLib)
      (map Workspace.FolderEventArrives
         [MoreExamples.addOf WorkspaceExamples.app;
          MoreExamples.addOf MoreExamples.lib]) in
  Workspace._initialFoldersReady w = true
  /\ Workspace._initialFolderPaths w ⊆ Workspace._processedFolderPaths w.
Proof.
  intros w.
  assert (Hready : Workspace._initialFoldersReady w = true) by reflexivity.
  split; [exact Hready|].
  refine (proj1 (proj1 (barrier_exact_for_initial_folders
                          WorkspaceExamples.appAndLib
                          [MoreExamples.addOf WorkspaceExamples.app;
                           MoreExamples.addOf MoreExamples.lib] _) Hready)).
  intros e f He Hf.
  apply elem_of_cons in He as [->|He].
  { injection Hf as <-. apply (bool_decide_eq_true_1 _). by vm_compute. }
  apply list_elem_of_singleton in He as ->.
  injection Hf as <-. apply (bool_decide_eq_true_1 _). by vm_compute.
Defined.

(** After the folder context of /ws/app was found present once, its
    removal is ignored. *)
Lemma remove_blocked_after_reuse_witness :
  Workspace.hasEdgeFolder MoreExamples.reused = true
  /\ Workspace.hasEdgeFolder
       (Workspace.run MoreExamples.reused
          [Workspace.FolderEventArrives
             (MoreExamples.removeOf WorkspaceExamples.app)]) = true
  /\ Workspace.folders MoreExamples.reused
     `prefix_of`
     Workspace.folders
       (Workspace.run MoreExamples.reused
          [Workspace.FolderEventArrives
             (MoreExamples.removeOf WorkspaceExamples.app)]).
Proof.
  split; [reflexivity|].
  exact (remove_blocked_after_reuse MoreExamples.reused
           [Workspace.FolderEventArrives
              (MoreExamples.removeOf WorkspaceExamples.app)] eq_refl).
Defined.

(** With two stored devices and a failed discovery, the second one can be
    selected. *)
Lemma listed_manual_devices_selectable_witness :
  let m :=
    Devices.fresh
      {| Devices.wendyos_devices :=
           Some [DeviceExamples.host1; DeviceExamples.host2];
         Devices.wendyos_currentDevice := None |} in
  let listed := Devices.getDevices Devices.DiscoveryFailed m in
  Devices.config (fst listed) = Devices.config m
  /\ map Devices.manualDevice (Devices.persistedDevices m)
     `suffix_of` snd listed
  /\ exists m',
       Devices.setCurrentDevice (Some "0197-bbbb") (fst listed)
       = (m', JS.Resolved ())
       /\ Devices.getCurrentDeviceId m' = Some "0197-bbbb".
Proof.
  intros m.
  apply (listed_manual_devices_selectable Devices.DiscoveryFailed
           DeviceExamples.host2 m).
  - discriminate.
  - apply list_elem_of_In. right. left. reflexivity.
  - reflexivity.
Defined.

(** Selecting the second of two loaded devices, then asking for the
    current device. *)
Lemma setCurrentDevice_getCurrentDevice_witness :
  let m :=
    DeviceExamples.loaded [DeviceExamples.host1; DeviceExamples.host2] None in
  let m' := fst (Devices.setCurrentDevice (Some "0197-bbbb") m) in
  exists device,
    snd (Devices.getCurrentDevice m') = Some device
    /\ Devices.id device = "0197-bbbb" /\ device ∈ Devices.devices m.
Proof.
  intros m m'.
  apply (setCurrentDevice_getCurrentDevice "0197-bbbb" m m').
  - reflexivity.
  - by vm_compute.
Defined.

(** Two stored addresses stay different when the first is added again,
    a third is added and the second is deleted. *)
Lemma addresses_stay_distinct_witness :
  NoDup
    (map Devices.entry_address
       (Devices.persistedDevices
          (Devices.run
             (DeviceExamples.loaded
                [DeviceExamples.host1; DeviceExamples.host2] None)
             [Devices.AddDevice "host1" "0197-cccc";
              Devices.AddDevice "host3" "0197-dddd";
              Devices.DeleteDevice "0197-bbbb"]))).
Proof.
  apply addresses_stay_distinct.
  apply (bool_decide_eq_true_1 _). by vm_compute.
Defined.

(** host2 is added to a registry holding host1 and deleted again. *)
Lemma addDevice_deleteDevice_witness :
  let m := DeviceExamples.loaded [DeviceExamples.host1] None in
  Devices.persistedDevices
    (fst (Devices.deleteDevice "0197-bbbb"
            (fst (Devices.addDevice "host2" "0197-bbbb" m))))
  = [DeviceExamples.host1].
Proof.
  intros m.
  exact (addDevice_deleteDevice "host2" "0197-bbbb" m eq_refl eq_refl).
Defined.

(** A new manager has no current device: neither a Swift nor a Python
    project gets a session. *)
Lemma no_device_no_session_witness :
  let host :=
    MoreExamples.hostWith (Devices.fresh DeviceExamples.emptyConfiguration) in
  fst (Provider.resolveDebugConfigurationWithSubstitutedVariablesSwift host
         MoreExamples.appFolder MoreExamples.debugApp)
  = Provider.Fulfilled None
  /\ fst (Provider.resolveDebugConfigurationWithSubstitutedVariablesPython
            host MoreExamples.appFolder MoreExamples.debugApp)
     = Provider.Fulfilled None
  /\ (forall resolved,
        fst (Provider.resolveDebugConfigurationWithSubstitutedVariables host
               MoreExamples.pythonProject (Some MoreExamples.appFolder)
               MoreExamples.debugApp)
        <> Provider.Fulfilled (Some resolved)).
Proof.
  intros host.
  exact (no_device_no_session host MoreExamples.pythonProject
           MoreExamples.appFolder MoreExamples.debugApp eq_refl).
Defined.

(** With host1 selected, a Swift project gets an lldb-dap session aimed at
    host1:4242. *)
Lemma resolved_session_targets_current_device_witness :
  let host :=
    MoreExamples.hostWith
      (DeviceExamples.loaded [DeviceExamples.host1] (Some "0197-aaaa")) in
  exists resolved,
    fst (Provider.resolveDebugConfigurationWithSubstitutedVariables host
           MoreExamples.swiftProject (Some MoreExamples.appFolder)
           MoreExamples.debugApp)
    = Provider.Fulfilled (Some resolved)
    /\ Provider.type resolved = "lldb-dap"
    /\ exists device,
         snd (Devices.getCurrentDevice (Provider.deviceManager host))
         = Some device
         /\ Provider.name resolved = Provider.name MoreExamples.debugApp
         /\ Provider.target resolved = Provider.target MoreExamples.debugApp
         /\ Provider.cwd resolved = Provider.cwd MoreExamples.debugApp
         /\ Provider.request resolved = "attach"
         /\ (JS.truthy (Provider.preLaunchTask MoreExamples.debugApp) = true ->
             Provider.preLaunchTask resolved
             = Provider.preLaunchTask MoreExamples.debugApp)
         /\ ((Provider.type resolved = "debugpy"
              /\ Provider.connect resolved
                 = Some (Devices.address device, 5678%Z)
              /\ Provider.pathMappings resolved
                 = Some [(Provider.uri_fsPath MoreExamples.appFolder, "/app")])
             \/ (Provider.type resolved = "lldb-dap"
                 /\ exists create,
                      Provider.attachCommands resolved
                      = Some [create;
                              "gdb-remote "
                                +:+ Provider.ensureDebugPort
                                      (Devices.address device) 4242])).
Proof.
  intros host. eexists.
  split; [by vm_compute|]. split; [reflexivity|].
  apply (resolved_session_targets_current_device host
           MoreExamples.swiftProject MoreExamples.appFolder
           MoreExamples.debugApp).
  reflexivity.
Defined.

(** The descriptor of product app names the run task of product app; the
    descriptor of a Python folder names the Python run task. *)
Lemma created_configuration_has_run_task_witness :
  (exists task,
     task ∈ Tasks.provideTasks false
              [MoreExamples.appContext; MoreExamples.scriptsContext]
     /\ Tasks.name task = "Run app" /\ Tasks.source task = "wendy")
  /\ (exists task,
        task ∈ Tasks.provideTasks true
                 [MoreExamples.appContext; MoreExamples.scriptsContext]
        /\ Tasks.name task = "Run Python App").
Proof.
  split.
  - destruct (created_configuration_has_run_task LaunchExamples.posixFolder
                false [MoreExamples.appContext; MoreExamples.scriptsContext]
                MoreExamples.appContext
                (WendyLaunch.productConfiguration "/ws/app"
                   {| Swift.name := "app" |}))
      as (task & Htask & Hlabel & _).
    + apply list_elem_of_In. left. reflexivity.
    + apply list_elem_of_In. left. reflexivity.
    + left. discriminate.
    + exists task. split; [exact Htask|].
      apply list_elem_of_In in Htask.
      destruct Htask as [<-|[]]. split; reflexivity.
  - destruct (created_configuration_has_run_task LaunchExamples.posixFolder
                true [MoreExamples.appContext; MoreExamples.scriptsContext]
                MoreExamples.scriptsContext
                {| Launch.type := WendyLaunch.WENDY_LAUNCH_CONFIG_TYPE;
                   Launch.name := "Debug Python App on WendyOS";
                   Launch.request := "attach";
                   Launch.target := Some "file:///ws/scripts";
                   Launch.cwd := Some "/ws/scripts";
                   Launch.preLaunchTask := Some "wendy: Run Python App";
                   Launch.others := [] |})
      as (task & Htask & Hlabel & _).
    + apply list_elem_of_In. right. left. reflexivity.
    + apply list_elem_of_In. left. reflexivity.
    + right. reflexivity.
    + exists task. split; [exact Htask|].
      apply list_elem_of_In in Htask.
      destruct Htask as [<-|[<-|[]]]; [discriminate Hlabel | reflexivity].
Defined.

(** Output that shouts its error does not make an Edge project. *)
Lemma edge_info_error_in_any_case_witness :
  Detector.isEdgeProject MoreExamples.complaining = false.
Proof.
  exact (eq_trans
           (edge_info_error_in_any_case MoreExamples.complaining
              "Fatal " "ERROR" ": no project here" "exit 1"
              eq_refl eq_refl)
           eq_refl).
Defined.
